(** * RFIDuino: the SL018 and SM130 I2C drivers

    A shallow embedding of the two Arduino driver classes of the
    repository, [SL018] (StrongLink SL018/SL030, "Variant A" of the
    specification) and [SM130] (SonMicro SM130, "Variant B"), and of the
    helper functions both files share, followed by the properties the
    specification states about them.

    Conventions of the embedding.
    - A [byte] (uint8_t) is a [Z] in [0, 256); a [char] is a signed
      8-bit [Z]; an [unsigned long] is a [Z] in [0, 2^32).  Every
      arithmetic result that C++ narrows is wrapped explicitly with
      [byte], [to_char] or [ulong].
    - A fixed-size array member ([data], [tagNumber], [tagString],
      [versionString]) is a [list Z] of that size.  Stores whose index
      is computed at run time go through [store], which reports an
      [Overrun] instead of writing outside the array.
    - A pointer argument ([const char* message], [byte key[6]]) is the
      memory it points to, a function from offsets to bytes.
    - The I2C bus is explicit: [sent] logs the frames written with
      [Wire.beginTransmission .. Wire.endTransmission], and the bytes the
      device returns to [Wire.requestFrom] are an argument [wire] of the
      receiving functions.
    - Loads are written with the total lookup [!!!]; the loads the
      statements depend on are inside their arrays.
    - [millis] is the reading of the Arduino [millis()] counter.
    - The [debug] echo to [Serial] changes no member and is left out. *)

From Stdlib Require Import ZArith Lia List String Ascii Bool.
From stdpp Require Import base tactics option list.

Local Open Scope Z_scope.

(** ** Machine integers *)

Definition byte (z : Z) : Z := z mod 256.

Definition to_char (z : Z) : Z :=
  if byte z <? 128 then byte z else byte z - 256.

Definition ulong (z : Z) : Z := z mod 2 ^ 32.

(** ** Array accesses *)

Inductive fault : Set :=
| Overrun (array : string) (index : nat).

Inductive result (A : Type) : Type :=
| Ok (a : A)
| Fault (f : fault).

Arguments Ok {A} a.
Arguments Fault {A} f.

Definition bind {A B : Type} (m : result A) (k : A -> result B) : result B :=
  match m with
  | Ok a => k a
  | Fault f => Fault f
  end.

Notation "'let!' x := m 'in' k" := (bind m (fun x => k))
  (at level 10, x pattern, m at level 100, k at level 200).

(** [array[i] = b] with the index checked against the array size. *)
Definition store (array : string) (buf : list Z) (i : nat) (b : Z)
  : result (list Z) :=
  if decide (i < length buf)%nat then Ok (<[i := b]> buf)
  else Fault (Overrun array i).

(** [memcpy(array + off, src, length src)], every index checked. *)
Fixpoint store_all (array : string) (buf : list Z) (off : nat) (src : list Z)
  : result (list Z) :=
  match src with
  | [] => Ok buf
  | b :: rest => let! buf' := store array buf off b in store_all array buf' (S off) rest
  end.

(** The same copy at constant offsets below the array size. *)
Fixpoint poke (buf : list Z) (off : nat) (src : list Z) : list Z :=
  match src with
  | [] => buf
  | b :: rest => poke (<[off := b]> buf) (S off) rest
  end.

(** [array[from .. from + count - 1]]. *)
Definition slice (buf : list Z) (from count : nat) : list Z :=
  take count (drop from buf).

(** A pointer argument: the bytes found at each offset from the pointer. *)
Definition ptr : Type := nat -> Z.

(** The memory holding [l], zero beyond it. *)
Definition of_list (l : list Z) : ptr := fun i => nth i l 0.

Definition bytes_at (p : ptr) (count : nat) : list Z := map p (seq 0 count).

(** [strncpy(dest, src, n)]: the [n] bytes written to [dest]; once the
    terminator of [src] is met the remainder is filled with zeroes. *)
Fixpoint strncpy (src : ptr) (i n : nat) : list Z :=
  match n with
  | O => []
  | S n' => if src i =? 0 then repeat 0 (S n')
            else src i :: strncpy src (S i) n'
  end.

(** [Wire.read()] yields -1 once the receive buffer is empty; the drivers
    store the value in a [byte]. *)
Definition wire_read (rx : list Z) : Z := byte (hd (-1) rx).

(** [case a: case b: ...] labels of a [switch]. *)
Definition in_cases (c : Z) (labels : list Z) : bool := existsb (Z.eqb c) labels.

(** ** Helper functions shared by SL018.cpp and SM130.cpp
    ([toHex] and [arrayToHex] are textually the same in both files.) *)

Definition toHex (b : Z) : Z :=
  let b := Z.land b 15 in
  if b <? 10 then b + 48 else b + 65 - 10.

(** The characters [arrayToHex(s, array, len)] writes through [s], in
    order, the final one being the terminator; [None] when [len] reaches
    past the end of [array]. *)
Fixpoint arrayToHex_from (array : list Z) (i count : nat) : option (list Z) :=
  match count with
  | O => Some [0]
  | S k =>
      match array !! i, arrayToHex_from array (S i) k with
      | Some b, Some rest => Some (toHex (Z.shiftr b 4) :: toHex b :: rest)
      | _, _ => None
      end
  end.

Definition arrayToHex (array : list Z) (len : nat) : option (list Z) :=
  arrayToHex_from array 0 len.

(** The C string held in a [char] array: the characters before the first
    terminator. *)
Fixpoint c_string (buf : list Z) : string :=
  match buf with
  | [] => EmptyString
  | c :: rest =>
      if c =? 0 then EmptyString
      else String (ascii_of_N (Z.to_N c)) (c_string rest)
  end.

Definition is_upper_hex (c : Z) : Prop := 48 <= c <= 57 \/ 65 <= c <= 70.

(** ** The transport gate
    Both drivers start [transmitData] and [receiveData] with
    [while(t > millis()); t = millis() + 20;]. *)

(** One evaluation of the loop condition per unit of fuel; the counter
    advances by one millisecond between two evaluations that find the
    condition true. *)
Fixpoint spin (fuel : nat) (t now : Z) : option Z :=
  match fuel with
  | O => None
  | S fuel' => if t >? now then spin fuel' t (ulong (now + 1)) else Some now
  end.

(** The reading of [millis()] at which the loop is left. *)
Definition gate_leave (t now : Z) : Z := Z.max t now.

(** The deadline stored after the wait. *)
Definition gate_deadline (t now : Z) : Z := ulong (gate_leave t now + 20).

(** ** Variant A: the SL018 driver (SL018.h, SL018.cpp) *)

Module SL018.

Definition SIZE_PACKET : nat := 19.

Definition CMD_IDLE : Z := 0x00.
Definition CMD_SELECT : Z := 0x01.
Definition CMD_LOGIN : Z := 0x02.
Definition CMD_READ16 : Z := 0x03.
Definition CMD_WRITE16 : Z := 0x04.
Definition CMD_READ_VALUE : Z := 0x05.
Definition CMD_WRITE_VALUE : Z := 0x06.
Definition CMD_WRITE_KEY : Z := 0x07.
Definition CMD_INC_VALUE : Z := 0x08.
Definition CMD_DEC_VALUE : Z := 0x09.
Definition CMD_COPY_VALUE : Z := 0x0A.
Definition CMD_READ4 : Z := 0x10.
Definition CMD_WRITE4 : Z := 0x11.
Definition CMD_SEEK : Z := 0x20.
Definition CMD_SET_LED : Z := 0x40.
Definition CMD_SLEEP : Z := 0x50.
Definition CMD_RESET : Z := 0xFF.

Definition OK : Z := 0x00.
Definition NO_TAG : Z := 0x01.

(** The members of the class, then the two things outside it the
    member functions touch: the [millis()] counter and the bus. *)
Record state : Type := State {
  data : list Z;
  tagNumber : list Z;
  tagLength : Z;
  tagString : list Z;
  tagType : Z;
  errorCode : Z;
  cmd : Z;
  t : Z;
  pinRESET : Z;
  pinDREADY : Z;
  millis : Z;
  sent : list (list Z)
}.

Definition set_data (v : list Z) (s : state) : state :=
  State v (tagNumber s) (tagLength s) (tagString s) (tagType s)
        (errorCode s) (cmd s) (t s) (pinRESET s) (pinDREADY s) (millis s) (sent s).
Definition set_tagNumber (v : list Z) (s : state) : state :=
  State (data s) v (tagLength s) (tagString s) (tagType s)
        (errorCode s) (cmd s) (t s) (pinRESET s) (pinDREADY s) (millis s) (sent s).
Definition set_tagLength (v : Z) (s : state) : state :=
  State (data s) (tagNumber s) v (tagString s) (tagType s)
        (errorCode s) (cmd s) (t s) (pinRESET s) (pinDREADY s) (millis s) (sent s).
Definition set_tagString (v : list Z) (s : state) : state :=
  State (data s) (tagNumber s) (tagLength s) v (tagType s)
        (errorCode s) (cmd s) (t s) (pinRESET s) (pinDREADY s) (millis s) (sent s).
Definition set_tagType (v : Z) (s : state) : state :=
  State (data s) (tagNumber s) (tagLength s) (tagString s) v
        (errorCode s) (cmd s) (t s) (pinRESET s) (pinDREADY s) (millis s) (sent s).
Definition set_errorCode (v : Z) (s : state) : state :=
  State (data s) (tagNumber s) (tagLength s) (tagString s) (tagType s)
        v (cmd s) (t s) (pinRESET s) (pinDREADY s) (millis s) (sent s).
Definition set_cmd (v : Z) (s : state) : state :=
  State (data s) (tagNumber s) (tagLength s) (tagString s) (tagType s)
        (errorCode s) v (t s) (pinRESET s) (pinDREADY s) (millis s) (sent s).
Definition set_clock (deadline now : Z) (s : state) : state :=
  State (data s) (tagNumber s) (tagLength s) (tagString s) (tagType s)
        (errorCode s) (cmd s) deadline (pinRESET s) (pinDREADY s) now (sent s).
Definition set_sent (v : list (list Z)) (s : state) : state :=
  State (data s) (tagNumber s) (tagLength s) (tagString s) (tagType s)
        (errorCode s) (cmd s) (t s) (pinRESET s) (pinDREADY s) (millis s) v.

(** The arrays have their declared sizes. *)
Definition sized (s : state) : Prop :=
  length (data s) = SIZE_PACKET /\ length (tagNumber s) = 7%nat
  /\ length (tagString s) = 15%nat.

(** [SL018::SL018()] for an instance with static storage, constructed
    when [millis()] reads [now]. *)
Definition init (now : Z) : state :=
  State (repeat 0 SIZE_PACKET) (repeat 0 7%nat) 0 (repeat 0 15%nat) 0 0
        CMD_IDLE (ulong (now + 10)) 0xff 0xff now [].

(** [delay(ms)], and any other passage of time. *)
Definition delay (ms : Z) (s : state) : state :=
  set_clock (t s) (ulong (millis s + ms)) s.

Definition getCommand (s : state) : Z := cmd s.
Definition getPacketLength (s : state) : Z := data s !!! 0%nat.
Definition getTagString (s : state) : string := c_string (tagString s).

(** [while(t > millis()); t = millis() + 20;] *)
Definition gate (s : state) : state :=
  set_clock (gate_deadline (t s) (millis s)) (gate_leave (t s) (millis s)) s.

Definition transmitData (s : state) : state :=
  let s := gate s in
  let s := set_cmd (data s !!! 1%nat) s in
  (* for (int i = 0; i <= data[0]; i++) Wire.write(data[i]); *)
  let frame := map (fun i => data s !!! i) (seq 0 (Z.to_nat (data s !!! 0%nat + 1))) in
  set_sent (sent s ++ [frame]) s.

(** [for (byte i = 1; i <= data[0]; i++) data[i] = Wire.read();] with
    [count] iterations left.  The stores at [i >= 1] leave [data[0]]
    as it is, so the loop runs [data[0]] times unless a store leaves
    the array first. *)
Fixpoint receive_loop (count i : nat) (rx buf : list Z) : result (list Z) :=
  match count with
  | O => Ok buf
  | S count' =>
      let! buf' := store "data" buf i (wire_read rx) in
      receive_loop count' (S i) (tl rx) buf'
  end.

Definition receiveData (len : Z) (wire : list Z) (s : state) : result (Z * state) :=
  let s := gate s in
  (* Wire.requestFrom(address, length) *)
  let rx := take (Z.to_nat len) wire in
  match rx with
  | [] => Ok (0, s)
  | _ :: rest =>
      let! buf := store "data" (data s) 0 (wire_read rx) in
      let! buf := receive_loop (Z.to_nat (wire_read rx)) 1 rest buf in
      Ok (wire_read rx, set_data buf s)
  end.

Definition sendCommand (c : Z) (s : state) : state :=
  transmitData (set_data (poke (data s) 0 [1; c]) s).

Definition selectTag (s : state) : state := sendCommand CMD_SELECT s.
Definition seekTag (s : state) : state := set_cmd CMD_SEEK (selectTag s).
Definition haltTag (s : state) : state := set_cmd CMD_IDLE s.
Definition sleep (s : state) : state := sendCommand CMD_SLEEP s.

(** The GPIO writes of the hardware reset reach no member and are left
    out; its [delay(10)] is kept. *)
Definition reset (s : state) : state :=
  let s := if pinRESET s =? 0xff then sendCommand CMD_RESET s else delay 10 s in
  delay 200 s.

Definition authenticate (sector : Z) (s : state) : state :=
  transmitData
    (set_data (poke (data s) 0 ([9; CMD_LOGIN; sector; 0xAA] ++ repeat 0xFF 6)) s).

Definition authenticate_key (sector keyType : Z) (key : ptr) (s : state) : state :=
  transmitData
    (set_data (poke (data s) 0 ([9; CMD_LOGIN; sector; keyType] ++ bytes_at key 6)) s).

Definition readBlock (block : Z) (s : state) : state :=
  transmitData (set_data (poke (data s) 0 [2; CMD_READ16; block]) s).

Definition readPage (page : Z) (s : state) : state :=
  transmitData (set_data (poke (data s) 0 [2; CMD_READ4; page]) s).

Definition writeBlock (block : Z) (message : ptr) (s : state) : state :=
  let d := poke (data s) 0 [18; CMD_WRITE16; block] in
  let d := poke d 3 (bytes_at message 16) in
  let d := <[18%nat := 0]> d in
  transmitData (set_data d s).

Definition writePage (page : Z) (message : ptr) (s : state) : state :=
  let d := poke (data s) 0 [6; CMD_WRITE4; page] in
  let d := poke d 3 (bytes_at message 4) in
  let d := <[6%nat := 0]> d in
  transmitData (set_data d s).

Definition writeKey (sector : Z) (key : ptr) (s : state) : state :=
  transmitData
    (set_data (poke (data s) 0 ([8; CMD_WRITE_KEY; sector] ++ bytes_at key 6)) s).

Definition led (on : bool) (s : state) : state :=
  transmitData (set_data (poke (data s) 0 [2; CMD_SET_LED; if on then 1 else 0]) s).

(** The maximum length of the expected response: the first [switch]
    of [SL018::available]. *)
Definition expected_length (c : Z) : Z :=
  if in_cases c [CMD_IDLE; CMD_RESET] then 0
  else if in_cases c [CMD_LOGIN; CMD_SET_LED; CMD_SLEEP] then 3
  else if in_cases c [CMD_READ4; CMD_WRITE4; CMD_READ_VALUE; CMD_WRITE_VALUE;
                      CMD_DEC_VALUE; CMD_INC_VALUE; CMD_COPY_VALUE] then 7
  else if in_cases c [CMD_WRITE_KEY] then 9
  else if in_cases c [CMD_SEEK; CMD_SELECT] then 11
  else Z.of_nat SIZE_PACKET.

(** [tagType = tagLength = *tagString = 0; errorCode = data[2];] *)
Definition init_response (s : state) : state :=
  let s := set_tagString (<[0%nat := 0]> (tagString s)) s in
  let s := set_tagLength 0 s in
  let s := set_tagType 0 s in
  set_errorCode (to_char (data s !!! 2%nat)) s.

(** The body of [if(errorCode == 0 && getPacketLength() >= 7)]. *)
Definition take_tag (s : state) : result state :=
  let s := set_tagLength (byte (getPacketLength s - 3)) s in
  let s := set_tagType (data s !!! Z.to_nat (getPacketLength s)) s in
  let id := slice (data s) 3 (Z.to_nat (tagLength s)) in
  let! number := store_all "tagNumber" (tagNumber s) 0 id in
  let s := set_tagNumber number s in
  match arrayToHex (tagNumber s) (Z.to_nat (tagLength s)) with
  | None => Fault (Overrun "tagNumber" (length (tagNumber s)))
  | Some chars =>
      let! str := store_all "tagString" (tagString s) 0 chars in
      Ok (set_tagString str s)
  end.

Definition available (wire : list Z) (s : state) : result (bool * state) :=
  let len := expected_length (cmd s) in
  if len =? 0 then Ok (false, s)
  else
    let! (n, s) := receiveData len wire s in
    if n >? 0 then
      let s := init_response s in
      if in_cases (getCommand s) [CMD_SEEK; CMD_SELECT] then
        if (errorCode s =? 0) && (getPacketLength s >=? 7) then
          let! s := take_tag s in Ok (true, s)
        else if cmd s =? CMD_SEEK then Ok (false, seekTag s)
        else Ok (true, s)
      else Ok (true, s)
    else Ok (false, s).

(** The calls of the public interface that put a frame on the bus. *)
Inductive command : Type :=
| Authenticate (sector : Z)
| AuthenticateKey (sector keyType : Z) (key : ptr)
| ReadBlock (block : Z)
| ReadPage (page : Z)
| WriteBlock (block : Z) (message : ptr)
| WritePage (page : Z) (message : ptr)
| WriteKey (sector : Z) (key : ptr)
| Led (on : bool)
| SelectTag
| SeekTag
| Sleep
| SoftReset.

Definition issue (c : command) (s : state) : state :=
  match c with
  | Authenticate sector => authenticate sector s
  | AuthenticateKey sector keyType key => authenticate_key sector keyType key s
  | ReadBlock block => readBlock block s
  | ReadPage page => readPage page s
  | WriteBlock block message => writeBlock block message s
  | WritePage page message => writePage page message s
  | WriteKey sector key => writeKey sector key s
  | Led on => led on s
  | SelectTag => selectTag s
  | SeekTag => seekTag s
  | Sleep => sleep s
  | SoftReset => sendCommand CMD_RESET s
  end.

(** The command code and the parameter bytes each call stands for. *)
Definition opcode (c : command) : Z :=
  match c with
  | Authenticate _ | AuthenticateKey _ _ _ => CMD_LOGIN
  | ReadBlock _ => CMD_READ16
  | ReadPage _ => CMD_READ4
  | WriteBlock _ _ => CMD_WRITE16
  | WritePage _ _ => CMD_WRITE4
  | WriteKey _ _ => CMD_WRITE_KEY
  | Led _ => CMD_SET_LED
  | SelectTag | SeekTag => CMD_SELECT
  | Sleep => CMD_SLEEP
  | SoftReset => CMD_RESET
  end.

Definition parameters (c : command) : list Z :=
  match c with
  | Authenticate sector => [sector; 0xAA] ++ repeat 0xFF 6
  | AuthenticateKey sector keyType key => [sector; keyType] ++ bytes_at key 6
  | ReadBlock block => [block]
  | ReadPage page => [page]
  | WriteBlock block message => [block] ++ bytes_at message 15 ++ [0]
  | WritePage page message => [page] ++ bytes_at message 3 ++ [0]
  | WriteKey sector key => [sector] ++ bytes_at key 6
  | Led on => [if on then 1 else 0]
  | SelectTag | SeekTag | Sleep | SoftReset => []
  end.

(** [SL018::getErrorMessage]. *)
Definition getErrorMessage (s : state) : string :=
  let e := errorCode s in
  if in_cases e [0] then "OK"
  else if in_cases e [1] then "No tag present"
  else if in_cases e [2] then "Login OK"
  else if in_cases e [3; 0x10] then "Login failed"
  else if in_cases e [4] then "Read failed"
  else if in_cases e [5] then "Write failed"
  else if in_cases e [6] then "Unable to read after write"
  else if in_cases e [0x0A] then "Collision detected"
  else if in_cases e [0x0C] then "Load key failed"
  else if in_cases e [0x0D] then "Not authenticated"
  else if in_cases e [0x0E] then "Not a value block"
  else "Unknown error".

(** [SL018::tagName]. *)
Definition tagName (type : Z) : string :=
  if type =? 1 then "Mifare 1K"
  else if type =? 2 then "Mifare Pro"
  else if type =? 3 then "Mifare UltraLight"
  else if type =? 4 then "Mifare 4K"
  else if type =? 5 then "Mifare ProX"
  else if type =? 6 then "Mifare DesFire"
  else "".

Definition getTagName (s : state) : string := tagName (tagType s).

(** [getBlockNumber() { return data[2]; }] and [getBlock() { return
    data+3; }], the latter as the sixteen bytes found there. *)
Definition getBlockNumber (s : state) : Z := data s !!! 2%nat.
Definition getBlock (s : state) : list Z := slice (data s) 3 16.

End SL018.

(** ** Variant B: the SM130 driver (SM130.h, SM130.cpp) *)

Module SM130.

Definition SIZE_PAYLOAD : Z := 18.
Definition SIZE_PACKET : nat := 20.

Definition CMD_RESET : Z := 0x80.
Definition CMD_VERSION : Z := 0x81.
Definition CMD_SEEK_TAG : Z := 0x82.
Definition CMD_SELECT_TAG : Z := 0x83.
Definition CMD_AUTHENTICATE : Z := 0x85.
Definition CMD_READ16 : Z := 0x86.
Definition CMD_READ_VALUE : Z := 0x87.
Definition CMD_WRITE16 : Z := 0x89.
Definition CMD_WRITE_VALUE : Z := 0x8a.
Definition CMD_WRITE4 : Z := 0x8b.
Definition CMD_WRITE_KEY : Z := 0x8c.
Definition CMD_INC_VALUE : Z := 0x8d.
Definition CMD_DEC_VALUE : Z := 0x8e.
Definition CMD_ANTENNA_POWER : Z := 0x90.
Definition CMD_READ_PORT : Z := 0x91.
Definition CMD_WRITE_PORT : Z := 0x92.
Definition CMD_HALT_TAG : Z := 0x93.
Definition CMD_SET_BAUD : Z := 0x94.
Definition CMD_SLEEP : Z := 0x96.

Record state : Type := State {
  data : list Z;
  versionString : list Z;
  tagNumber : list Z;
  tagLength : Z;
  tagString : list Z;
  tagType : Z;
  errorCode : Z;
  antennaPower : Z;
  cmd : Z;
  t : Z;
  pinRESET : Z;
  pinDREADY : Z;
  millis : Z;
  sent : list (list Z)
}.

Definition set_data (v : list Z) (s : state) : state :=
  State v (versionString s) (tagNumber s) (tagLength s) (tagString s) (tagType s)
        (errorCode s) (antennaPower s) (cmd s) (t s) (pinRESET s) (pinDREADY s)
        (millis s) (sent s).
Definition set_versionString (v : list Z) (s : state) : state :=
  State (data s) v (tagNumber s) (tagLength s) (tagString s) (tagType s)
        (errorCode s) (antennaPower s) (cmd s) (t s) (pinRESET s) (pinDREADY s)
        (millis s) (sent s).
Definition set_tagNumber (v : list Z) (s : state) : state :=
  State (data s) (versionString s) v (tagLength s) (tagString s) (tagType s)
        (errorCode s) (antennaPower s) (cmd s) (t s) (pinRESET s) (pinDREADY s)
        (millis s) (sent s).
Definition set_tagLength (v : Z) (s : state) : state :=
  State (data s) (versionString s) (tagNumber s) v (tagString s) (tagType s)
        (errorCode s) (antennaPower s) (cmd s) (t s) (pinRESET s) (pinDREADY s)
        (millis s) (sent s).
Definition set_tagString (v : list Z) (s : state) : state :=
  State (data s) (versionString s) (tagNumber s) (tagLength s) v (tagType s)
        (errorCode s) (antennaPower s) (cmd s) (t s) (pinRESET s) (pinDREADY s)
        (millis s) (sent s).
Definition set_tagType (v : Z) (s : state) : state :=
  State (data s) (versionString s) (tagNumber s) (tagLength s) (tagString s) v
        (errorCode s) (antennaPower s) (cmd s) (t s) (pinRESET s) (pinDREADY s)
        (millis s) (sent s).
Definition set_errorCode (v : Z) (s : state) : state :=
  State (data s) (versionString s) (tagNumber s) (tagLength s) (tagString s) (tagType s)
        v (antennaPower s) (cmd s) (t s) (pinRESET s) (pinDREADY s)
        (millis s) (sent s).
Definition set_antennaPower (v : Z) (s : state) : state :=
  State (data s) (versionString s) (tagNumber s) (tagLength s) (tagString s) (tagType s)
        (errorCode s) v (cmd s) (t s) (pinRESET s) (pinDREADY s)
        (millis s) (sent s).
Definition set_cmd (v : Z) (s : state) : state :=
  State (data s) (versionString s) (tagNumber s) (tagLength s) (tagString s) (tagType s)
        (errorCode s) (antennaPower s) v (t s) (pinRESET s) (pinDREADY s)
        (millis s) (sent s).
Definition set_clock (deadline now : Z) (s : state) : state :=
  State (data s) (versionString s) (tagNumber s) (tagLength s) (tagString s) (tagType s)
        (errorCode s) (antennaPower s) (cmd s) deadline (pinRESET s) (pinDREADY s)
        now (sent s).
Definition set_sent (v : list (list Z)) (s : state) : state :=
  State (data s) (versionString s) (tagNumber s) (tagLength s) (tagString s) (tagType s)
        (errorCode s) (antennaPower s) (cmd s) (t s) (pinRESET s) (pinDREADY s)
        (millis s) v.

Definition sized (s : state) : Prop :=
  length (data s) = SIZE_PACKET /\ length (versionString s) = 8%nat
  /\ length (tagNumber s) = 7%nat /\ length (tagString s) = 15%nat.

(** [SM130::SM130()] for an instance with static storage. *)
Definition init (now : Z) : state :=
  State (repeat 0 SIZE_PACKET) (repeat 0 8%nat) (repeat 0 7%nat) 0
        (repeat 0 15%nat) 0 0 0 0 (ulong (now + 10)) 3 4 now [].

Definition delay (ms : Z) (s : state) : state :=
  set_clock (t s) (ulong (millis s + ms)) s.

Definition getCommand (s : state) : Z := data s !!! 1%nat.
Definition getPacketLength (s : state) : Z := data s !!! 0%nat.
Definition getCheckSum (s : state) : Z := data s !!! Z.to_nat (data s !!! 0%nat + 1).
Definition getTagString (s : state) : string := c_string (tagString s).

Definition gate (s : state) : state :=
  set_clock (gate_deadline (t s) (millis s)) (gate_leave (t s) (millis s)) s.

(** [sum += data[i]] over the bytes of [l], from [sum = 0]. *)
Definition checksum (l : list Z) : Z :=
  fold_left (fun sum b => byte (sum + b)) l 0.

Definition transmitData (s : state) : state :=
  let s := gate s in
  let len := byte (data s !!! 0%nat + 1) in
  let s := set_cmd (data s !!! 1%nat) s in
  (* for (int i = 0; i < len; i++) { Wire.write(data[i]); sum += data[i]; } *)
  let body := map (fun i => data s !!! i) (seq 0 (Z.to_nat len)) in
  (* Wire.write(sum); *)
  set_sent (sent s ++ [body ++ [checksum body]]) s.

Definition receiveData (len : Z) (wire : list Z) (s : state) : result (Z * state) :=
  let s := gate s in
  (* Wire.requestFrom(address, length); byte n = Wire.available(); *)
  let rx := take (Z.to_nat len) wire in
  let n := byte (Z.of_nat (length rx)) in
  if n >? 0 then
    (* for (byte i = 0; i < n;) data[i++] = Wire.read(); *)
    let! buf := store_all "data" (data s) 0 (map byte (take (Z.to_nat n) rx)) in
    let s := set_data buf s in
    let l := data s !!! 0%nat in
    if (l >? 0) && (l <=? SIZE_PAYLOAD) then
      (* for (i = 0, sum = 0; i <= data[0]; i++) sum += data[i]; *)
      let sum := checksum (take (Z.to_nat (l + 1)) (data s)) in
      Ok (if sum =? data s !!! Z.to_nat (l + 1) then l else byte (-1), s)
    else Ok (0, s)
  else Ok (0, s).

Definition sendCommand (c : Z) (s : state) : state :=
  transmitData (set_data (poke (data s) 0 [1; c]) s).

Definition seekTag (s : state) : state := sendCommand CMD_SEEK_TAG s.
Definition selectTag (s : state) : state := sendCommand CMD_SELECT_TAG s.
Definition haltTag (s : state) : state := sendCommand CMD_HALT_TAG s.
Definition sleep (s : state) : state := sendCommand CMD_SLEEP s.

Definition setAntennaPower (level : Z) (s : state) : state :=
  let s := set_antennaPower level s in
  transmitData
    (set_data (poke (data s) 0 [2; CMD_ANTENNA_POWER; antennaPower s]) s).

Definition authenticate (block : Z) (s : state) : state :=
  transmitData (set_data (poke (data s) 0 [3; CMD_AUTHENTICATE; block; 0xff]) s).

Definition authenticate_key (block keyType : Z) (key : ptr) (s : state) : state :=
  transmitData
    (set_data
       (poke (data s) 0 ([9; CMD_AUTHENTICATE; block; keyType] ++ bytes_at key 6)) s).

Definition readBlock (block : Z) (s : state) : state :=
  transmitData (set_data (poke (data s) 0 [2; CMD_READ16; block]) s).

Definition writeBlock (block : Z) (message : ptr) (s : state) : state :=
  let d := poke (data s) 0 [18; CMD_WRITE16; block] in
  let d := poke d 3 (strncpy message 0 15) in
  let d := <[18%nat := 0]> d in
  transmitData (set_data d s).

Definition writeFourByteBlock (block : Z) (message : ptr) (s : state) : state :=
  let d := poke (data s) 0 [6; CMD_WRITE4; block] in
  let d := poke d 3 (strncpy message 0 3) in
  let d := <[6%nat := 0]> d in
  transmitData (set_data d s).

(** GPIO writes left out as in [SL018.reset]. *)
Definition reset (s : state) : state :=
  let s := if pinRESET s =? 0xff then sendCommand CMD_RESET s else delay 10 s in
  let s := delay 200 s in
  let s := setAntennaPower 1 s in
  haltTag s.

(** The first [switch] of [SM130::available].  The group of
    [CMD_WRITE4] has no [break]: its [len = 8] is overwritten by the
    assignment of the next group. *)
Definition expected_length (c : Z) : Z :=
  if in_cases c [CMD_ANTENNA_POWER; CMD_AUTHENTICATE; CMD_DEC_VALUE; CMD_INC_VALUE;
                 CMD_WRITE_KEY; CMD_HALT_TAG; CMD_SLEEP] then 4
  else if in_cases c [CMD_WRITE4; CMD_WRITE_VALUE; CMD_READ_VALUE] then
    let len := 8 in
    let len := 11 in
    len
  else if in_cases c [CMD_SEEK_TAG; CMD_SELECT_TAG] then 11
  else Z.of_nat SIZE_PACKET.

(** [tagType = tagLength = *tagString = 0;
     errorCode = getPacketLength() < 3 ? data[2] : 0;] *)
Definition init_response (s : state) : state :=
  let s := set_tagString (<[0%nat := 0]> (tagString s)) s in
  let s := set_tagLength 0 s in
  let s := set_tagType 0 s in
  set_errorCode (if getPacketLength s <? 3 then to_char (data s !!! 2%nat) else 0) s.

(** [case CMD_RESET: case CMD_VERSION:] *)
Definition take_version (s : state) : result state :=
  let len := Z.to_nat (byte (Z.min (getPacketLength s) 8 - 1)) in
  let! v := store_all "versionString" (versionString s) 0 (slice (data s) 2 len) in
  let! v := store "versionString" v len 0 in
  Ok (set_versionString v s).

(** The body of [if(errorCode == 0 && getPacketLength() >= 6)]. *)
Definition take_tag (s : state) : result state :=
  let s := set_tagLength (byte (getPacketLength s - 2)) s in
  let s := set_tagType (data s !!! 2%nat) s in
  let id := slice (data s) 3 (Z.to_nat (tagLength s)) in
  let! number := store_all "tagNumber" (tagNumber s) 0 id in
  let s := set_tagNumber number s in
  match arrayToHex (tagNumber s) (Z.to_nat (tagLength s)) with
  | None => Fault (Overrun "tagNumber" (length (tagNumber s)))
  | Some chars =>
      let! str := store_all "tagString" (tagString s) 0 chars in
      Ok (set_tagString str s)
  end.

(** [dready] is what [digitalRead(pinDREADY)] returns. *)
Definition available (dready : bool) (wire : list Z) (s : state)
  : result (bool * state) :=
  if (cmd s =? CMD_SEEK_TAG) && negb (pinDREADY s =? 0xff) && negb dready
  then Ok (false, s)
  else
    let len := expected_length (cmd s) in
    let! (n, s) := receiveData len wire s in
    if n >? 0 then
      let s := init_response s in
      let c := getCommand s in
      if in_cases c [CMD_RESET; CMD_VERSION] then
        let! s := take_version s in Ok (true, s)
      else if in_cases c [CMD_SEEK_TAG; CMD_SELECT_TAG] then
        if (errorCode s =? 0) && (getPacketLength s >=? 6) then
          let! s := take_tag s in Ok (true, s)
        else Ok (true, s)
      else if in_cases c [CMD_ANTENNA_POWER] then
        Ok (true, set_antennaPower (data s !!! 2%nat) (set_errorCode 0 s))
      else if in_cases c [CMD_SLEEP] then Ok (false, s)
      else Ok (true, s)
    else Ok (false, s).

Inductive command : Type :=
| SetAntennaPower (level : Z)
| Authenticate (block : Z)
| AuthenticateKey (block keyType : Z) (key : ptr)
| ReadBlock (block : Z)
| WriteBlock (block : Z) (message : ptr)
| WriteFourByteBlock (block : Z) (message : ptr)
| SeekTag
| SelectTag
| HaltTag
| Sleep
| Version
| SoftReset.

Definition issue (c : command) (s : state) : state :=
  match c with
  | SetAntennaPower level => setAntennaPower level s
  | Authenticate block => authenticate block s
  | AuthenticateKey block keyType key => authenticate_key block keyType key s
  | ReadBlock block => readBlock block s
  | WriteBlock block message => writeBlock block message s
  | WriteFourByteBlock block message => writeFourByteBlock block message s
  | SeekTag => seekTag s
  | SelectTag => selectTag s
  | HaltTag => haltTag s
  | Sleep => sleep s
  | Version => sendCommand CMD_VERSION s
  | SoftReset => sendCommand CMD_RESET s
  end.

Definition opcode (c : command) : Z :=
  match c with
  | SetAntennaPower _ => CMD_ANTENNA_POWER
  | Authenticate _ | AuthenticateKey _ _ _ => CMD_AUTHENTICATE
  | ReadBlock _ => CMD_READ16
  | WriteBlock _ _ => CMD_WRITE16
  | WriteFourByteBlock _ _ => CMD_WRITE4
  | SeekTag => CMD_SEEK_TAG
  | SelectTag => CMD_SELECT_TAG
  | HaltTag => CMD_HALT_TAG
  | Sleep => CMD_SLEEP
  | Version => CMD_VERSION
  | SoftReset => CMD_RESET
  end.

Definition parameters (c : command) : list Z :=
  match c with
  | SetAntennaPower level => [level]
  | Authenticate block => [block; 0xff]
  | AuthenticateKey block keyType key => [block; keyType] ++ bytes_at key 6
  | ReadBlock block => [block]
  | WriteBlock block message => [block] ++ strncpy message 0 15 ++ [0]
  | WriteFourByteBlock block message => [block] ++ strncpy message 0 3 ++ [0]
  | SeekTag | SelectTag | HaltTag | Sleep | Version | SoftReset => []
  end.

(** [SM130::getErrorMessage]; the characters are ['L'] 76, ['N'] 78,
    ['U'] 85, ['F'] 70, ['I'] 73, ['X'] 88 and ['E'] 69.  The group of
    ['L'] has no [return] of its own when the command is not a seek and
    continues into [case 0]. *)
Definition getErrorMessage (s : state) : string :=
  let e := errorCode s in
  let c := getCommand s in
  if (e =? 76) && (c =? CMD_SEEK_TAG) then "Seek in progress"
  else if in_cases e [76; 0] then "OK"
  else if e =? 78 then
    if c =? CMD_WRITE_KEY then "Write master key failed"
    else if c =? CMD_SET_BAUD then "Set baud rate failed"
    else if c =? CMD_AUTHENTICATE then "No tag present or login failed"
    else "No tag present"
  else if e =? 85 then
    if c =? CMD_AUTHENTICATE then "Authentication failed"
    else if (c =? CMD_WRITE16) || (c =? CMD_WRITE4) then "Verification failed"
    else "Antenna off"
  else if e =? 70 then
    if c =? CMD_READ16 then "Read failed" else "Write failed"
  else if e =? 73 then "Invalid value block"
  else if e =? 88 then "Block is read-protected"
  else if e =? 69 then "Invalid key format in EEPROM"
  else "Unknown error".

(** [SM130::tagName]. *)
Definition tagName (type : Z) : string :=
  if type =? 1 then "Mifare UL"
  else if type =? 2 then "Mifare 1K"
  else if type =? 3 then "Mifare 4K"
  else "Unknown Tag".

Definition getTagName (s : state) : string := tagName (tagType s).

(** The loop of [SM130::getFirmwareVersion] with [count] iterations
    left.  [wires] holds, for each call of [available], the bytes the
    device returns to it.  The result [true] stands for the pointer
    [versionString], [false] for the null pointer. *)
Fixpoint version_loop (count : nat) (dready : bool) (wires : list (list Z))
  (s : state) : result (bool * state) :=
  match count with
  | O => Ok (false, s)
  | S count' =>
      let s := sendCommand CMD_VERSION s in
      let! (b, s) := available dready (hd [] wires) s in
      if b && (getCommand s =? CMD_VERSION) then Ok (true, s)
      else version_loop count' dready (tl wires) (delay 100 s)
  end.

Definition getFirmwareVersion (dready : bool) (wires : list (list Z)) (s : state)
  : result (bool * state) :=
  if negb (versionString s !!! 0%nat =? 0) then Ok (true, s)
  else version_loop 10 dready wires s.

Definition getBlockNumber (s : state) : Z := data s !!! 2%nat.
Definition getBlock (s : state) : list Z := slice (data s) 3 16.
Definition getAntennaPower (s : state) : Z := antennaPower s.

End SM130.

(** ** Debug output (SL018.cpp and SM130.cpp, the same text in both)
    Each function is the list of characters it prints on [Serial]. *)

(** [Serial.print(val, HEX)] of the Arduino core for a byte: the digits
    of [val] in base 16, most significant first, upper case, without
    leading zero. *)
Definition core_digit (c : Z) : Z := if c <? 10 then c + 48 else c + 65 - 10.

Definition Serial_print_HEX (val : Z) : list Z :=
  if val / 16 =? 0 then [core_digit (val mod 16)]
  else [core_digit (val / 16 mod 16); core_digit (val mod 16)].

Definition printHex (val : Z) : list Z :=
  (if val <? 0x10 then [48] else []) ++ Serial_print_HEX val.

(** [for (byte i = 0; i < len;) { printHex(array[i++]);
    if (i < len) Serial.print(' '); }] from index [i], with [count]
    iterations left. *)
Fixpoint printArrayHex_from (array : list Z) (i count : nat) : option (list Z) :=
  match count with
  | O => Some []
  | S k =>
      match array !! i, printArrayHex_from array (S i) k with
      | Some b, Some rest =>
          Some (printHex b ++ (if (0 <? k)%nat then [32] else []) ++ rest)
      | _, _ => None
      end
  end.

Definition printArrayHex (array : list Z) (len : nat) : option (list Z) :=
  printArrayHex_from array 0 len.

(** [char c = array[i++]; if (c < 0x20 || c > 0x7e) Serial.print('.');
    else Serial.print(char(c));] *)
Definition printAscii (b : Z) : Z :=
  let c := to_char b in
  if (c <? 0x20) || (c >? 0x7e) then 46 else c.

Fixpoint printArrayAscii_from (array : list Z) (i count : nat) : option (list Z) :=
  match count with
  | O => Some []
  | S k =>
      match array !! i, printArrayAscii_from array (S i) k with
      | Some b, Some rest => Some (printAscii b :: rest)
      | _, _ => None
      end
  end.

Definition printArrayAscii (array : list Z) (len : nat) : option (list Z) :=
  printArrayAscii_from array 0 len.

(** ** The SL018 demo sketch (sl018demo.pde) *)

Module SL018demo.

(** [while(!rfid.available());] with one element of [wires] per call of
    [available]: the state in which the loop is left, or [None] when the
    responses run out first. *)
Fixpoint wait_for_tag (wires : list (list Z)) (s : SL018.state)
  : result (option SL018.state) :=
  match wires with
  | [] => Ok None
  | wire :: wires' =>
      let! (b, s) := SL018.available wire s in
      if b then Ok (Some s) else wait_for_tag wires' s
  end.

(** One pass of [loop()]: [rfid.seekTag(); while(!rfid.available());]
    and the string handed to [Serial.println]. *)
Definition loop (wires : list (list Z)) (s : SL018.state)
  : result (option (string * SL018.state)) :=
  let! r := wait_for_tag wires (SL018.seekTag s) in
  Ok (match r with
      | Some s' => Some (SL018.getTagString s', s')
      | None => None
      end).

End SL018demo.

(** ** The SM130 demo sketch (sm130demo)
    Its global variables and the part of [loop()] that deals with a
    response of the reader; what it prints on [Serial] changes no
    variable and is left out.  Characters are kept as their byte values. *)

Module SM130demo.

Definition NONE : Z := 0.
Definition SEEK : Z := 1.
Definition READ : Z := 2.
Definition WRITE : Z := 3.

Definition MIFARE_ULTRALIGHT : Z := 1.

Record app : Type := App {
  RFIDuino : SM130.state;
  action : Z;
  authenticated : bool;
  block : Z;
  numBlocks : Z;
  tagType : Z;
  msg : list Z
}.

Definition set_RFIDuino (v : SM130.state) (a : app) : app :=
  App v (action a) (authenticated a) (block a) (numBlocks a) (tagType a) (msg a).
Definition set_action (v : Z) (a : app) : app :=
  App (RFIDuino a) v (authenticated a) (block a) (numBlocks a) (tagType a) (msg a).
Definition set_authenticated (v : bool) (a : app) : app :=
  App (RFIDuino a) (action a) v (block a) (numBlocks a) (tagType a) (msg a).
Definition set_block (v : Z) (a : app) : app :=
  App (RFIDuino a) (action a) (authenticated a) v (numBlocks a) (tagType a) (msg a).
Definition set_tagType (v : Z) (a : app) : app :=
  App (RFIDuino a) (action a) (authenticated a) (block a) (numBlocks a) v (msg a).

(** A call of a member function of the global [RFIDuino]. *)
Definition call (f : SM130.state -> SM130.state) (a : app) : app :=
  set_RFIDuino (f (RFIDuino a)) a.

(** [case SM130::CMD_SELECT_TAG:], also reached from
    [case SM130::CMD_SEEK_TAG:]. *)
Definition on_tag (a : app) : app :=
  let a := set_tagType (SM130.tagType (RFIDuino a)) a in
  if (action a =? READ) || (action a =? WRITE) then
    if tagType a =? MIFARE_ULTRALIGHT then
      let a := set_authenticated true a in
      if action a =? READ then call (SM130.readBlock (block a)) a
      else call (SM130.writeFourByteBlock 15 (of_list (msg a))) a
    else
      let a := set_authenticated false a in
      call (SM130.authenticate (block a)) a
  else if action a =? SEEK then call SM130.seekTag a
  else set_action NONE a.

(** [case SM130::CMD_AUTHENTICATE:] *)
Definition on_authenticate (a : app) : app :=
  let a := set_authenticated true a in
  if action a =? READ then call (SM130.readBlock (block a)) a
  else if action a =? WRITE then
    call (SM130.writeBlock (block a) (of_list (msg a))) a
  else a.

(** [case SM130::CMD_READ16:] *)
Definition on_read16 (a : app) : app :=
  let a := set_block (byte (block a + 1)) a in
  if block a <? numBlocks a then
    if tagType a =? MIFARE_ULTRALIGHT then
      call (SM130.readBlock (byte (block a * 4))) a
    else if authenticated a && negb (Z.land (block a) 0x03 =? 0) then
      call (SM130.readBlock (block a)) a
    else
      let a := set_authenticated false a in
      call (SM130.authenticate (block a)) a
  else set_action NONE (call SM130.haltTag a).

(** [case SM130::CMD_WRITE4: case SM130::CMD_WRITE16:] *)
Definition on_write (a : app) : app := set_action NONE (call SM130.haltTag a).

(** The body of [if(RFIDuino.available())]. *)
Definition respond (a : app) : app :=
  let e := SM130.errorCode (RFIDuino a) in
  if negb (e =? 0) && negb (e =? 76) then set_action NONE a
  else
    let c := SM130.getCommand (RFIDuino a) in
    if (c =? SM130.CMD_SEEK_TAG) && ((e =? 76) || (action a =? NONE)) then a
    else if in_cases c [SM130.CMD_SEEK_TAG; SM130.CMD_SELECT_TAG] then on_tag a
    else if in_cases c [SM130.CMD_AUTHENTICATE] then on_authenticate a
    else if in_cases c [SM130.CMD_READ16] then on_read16 a
    else if in_cases c [SM130.CMD_WRITE4; SM130.CMD_WRITE16] then on_write a
    else a.

(** The second half of [loop()]: the response check. *)
Definition poll (dready : bool) (wire : list Z) (a : app) : result app :=
  let! (b, r) := SM130.available dready wire (RFIDuino a) in
  let a := set_RFIDuino r a in
  Ok (if b then respond a else a).

(** The loop of [readQuotedString(s, len)] over the characters [input]
    waiting on [Serial], with [i] characters stored so far in [buf]; the
    result is the return value, the buffer and the characters left. *)
Fixpoint readQuoted_loop (input buf : list Z) (i len : nat) (quote : Z)
  : result (nat * list Z * list Z) :=
  if (len <=? i)%nat then
    let! buf := store "s" buf i 0 in Ok (i, buf, input)
  else
    match input with
    | [] => let! buf := store "s" buf i 0 in Ok (i, buf, input)
    | c :: rest =>
        let! buf := store "s" buf i (byte c) in
        if quote =? 0 then
          if (byte c =? 34) || (byte c =? 39) then
            readQuoted_loop rest buf i len (byte c)
          else if negb (byte c =? 32) then readQuoted_loop rest buf (S i) len quote
          else readQuoted_loop rest buf i len quote
        else if byte c =? quote then
          let! buf := store "s" buf i 0 in Ok (i, buf, rest)
        else readQuoted_loop rest buf (S i) len quote
    end.

Definition readQuotedString (input buf : list Z) (len : nat)
  : result (nat * list Z * list Z) :=
  readQuoted_loop input buf 0 len 0.

End SM130demo.

(** ** Vocabulary of the statements *)

Definition is_byte (z : Z) : Prop := 0 <= z < 256.

(** The two digits [arrayToHex] writes for one byte. *)
Definition hex_pair (b : Z) : list Z := [toHex (Z.shiftr b 4); toHex b].

(** The frame a call is meant to put on the bus, without checksum. *)
Definition frame_SL018 (c : SL018.command) : list Z :=
  Z.of_nat (1 + length (SL018.parameters c)) :: SL018.opcode c :: SL018.parameters c.

Definition frame_SM130 (c : SM130.command) : list Z :=
  Z.of_nat (1 + length (SM130.parameters c)) :: SM130.opcode c :: SM130.parameters c.

(** The arithmetic sum of a byte sequence. *)
Definition sum_list (l : list Z) : Z := fold_right Z.add 0 l.

(** Bit [k] of the byte at index [i] inverted. *)
Definition flip_bit (k : Z) (i : nat) (frame : list Z) : list Z :=
  alter (fun b => Z.lxor b (2 ^ k)) i frame.

(** Inverting bit [k] of the byte [b] gives a byte that differs from [b]
    modulo 256. *)
Definition flip_ok (b k : Z) : bool :=
  let b' := Z.lxor b (2 ^ k) in
  (0 <=? b') && (b' <? 256) && negb ((b' - b) mod 256 =? 0).

(** The bytes [count] successive calls of [Wire.read()] return. *)
Fixpoint wire_reads (count : nat) (rx : list Z) : list Z :=
  match count with
  | O => []
  | S count' => wire_read rx :: wire_reads count' (tl rx)
  end.

(** The lengths the specification's table allows for a driver whose
    packet size is [size]: 3-4, 7-8, 8-9, 11, or the full packet. *)
Definition in_claimed_table (size len : Z) : bool :=
  ((3 <=? len) && (len <=? 4)) || ((7 <=? len) && (len <=? 9))
  || (len =? 11) || (len =? size).

Module Table.

(** The command codes that have a [case] label in the first [switch]
    of [available], by group. *)
Definition idle_SL018 : list Z := [SL018.CMD_IDLE; SL018.CMD_RESET].
Definition ack_SL018 : list Z := [SL018.CMD_LOGIN; SL018.CMD_SET_LED; SL018.CMD_SLEEP].
Definition value_SL018 : list Z :=
  [SL018.CMD_READ4; SL018.CMD_WRITE4; SL018.CMD_READ_VALUE; SL018.CMD_WRITE_VALUE;
   SL018.CMD_DEC_VALUE; SL018.CMD_INC_VALUE; SL018.CMD_COPY_VALUE].
Definition key_SL018 : list Z := [SL018.CMD_WRITE_KEY].
Definition tag_SL018 : list Z := [SL018.CMD_SEEK; SL018.CMD_SELECT].

Definition ack_SM130 : list Z :=
  [SM130.CMD_ANTENNA_POWER; SM130.CMD_AUTHENTICATE; SM130.CMD_DEC_VALUE;
   SM130.CMD_INC_VALUE; SM130.CMD_WRITE_KEY; SM130.CMD_HALT_TAG; SM130.CMD_SLEEP].
Definition value_SM130 : list Z :=
  [SM130.CMD_WRITE4; SM130.CMD_WRITE_VALUE; SM130.CMD_READ_VALUE].
Definition tag_SM130 : list Z := [SM130.CMD_SEEK_TAG; SM130.CMD_SELECT_TAG].

Definition check_SL018 (c : Z) : bool :=
  let len := SL018.expected_length c in
  Bool.eqb (len =? 0) (in_cases c idle_SL018)
  && Bool.eqb (len =? 3) (in_cases c ack_SL018)
  && Bool.eqb (len =? 7) (in_cases c value_SL018)
  && Bool.eqb (len =? 9) (in_cases c key_SL018)
  && Bool.eqb (len =? 11) (in_cases c tag_SL018)
  && Bool.eqb (len =? 19)
       (negb (in_cases c (idle_SL018 ++ ack_SL018 ++ value_SL018 ++ key_SL018
                            ++ tag_SL018))).

Definition check_SM130 (c : Z) : bool :=
  let len := SM130.expected_length c in
  Bool.eqb (len =? 4) (in_cases c ack_SM130)
  && implb (in_cases c tag_SM130) (len =? 11)
  && implb (negb (in_cases c (ack_SM130 ++ value_SM130 ++ tag_SM130))) (len =? 20).

End Table.

(** The string [arrayToHex] derives from the tag number [id]. *)
Definition hex_string (id : list Z) : string :=
  c_string (flat_map hex_pair id ++ [0]).

(** The members that describe the tag last seen. *)
Definition tag_members_SL018 (s : SL018.state) : list Z * Z * list Z * Z :=
  (SL018.tagNumber s, SL018.tagLength s, SL018.tagString s, SL018.tagType s).

Definition tag_members_SM130 (s : SM130.state) : list Z * Z * list Z * Z :=
  (SM130.tagNumber s, SM130.tagLength s, SM130.tagString s, SM130.tagType s).

(** A character that is not the separator of the hexadecimal dump. *)
Definition not_space (c : Z) : bool := negb (c =? 32).

(** A printable ASCII character. *)
Definition is_printable (c : Z) : Prop := 0x20 <= c <= 0x7e.

(** The frame [sendCommand(CMD_VERSION)] puts on the bus. *)
Definition version_frame : list Z := [1; SM130.CMD_VERSION; 0x82].

(** One unanswered attempt of [getFirmwareVersion]: the command, the
    poll that finds nothing, and [delay(100)]. *)
Definition version_attempt (s : SM130.state) : SM130.state :=
  SM130.delay 100 (SM130.gate (SM130.sendCommand SM130.CMD_VERSION s)).

(** No response at any poll. *)
Definition silent (wires : list (list Z)) : Prop := Forall (fun w => w = []) wires.

(** The response to a version or reset command as it arrives: length,
    echoed command [c], the version text, checksum. *)
Definition version_response (c : Z) (payload : list Z) : list Z :=
  let body := (Z.of_nat (length payload) + 1) :: c :: payload in
  body ++ [SM130.checksum body].

(** What a poll leaves alone in the SM130 driver: the bus, the last
    command and the pin numbers. *)
Definition same_line_SM130 (s s' : SM130.state) : Prop :=
  SM130.sent s' = SM130.sent s /\ SM130.cmd s' = SM130.cmd s
  /\ SM130.pinRESET s' = SM130.pinRESET s /\ SM130.pinDREADY s' = SM130.pinDREADY s.

Definition same_line_SL018 (s s' : SL018.state) : Prop :=
  SL018.sent s' = SL018.sent s /\ SL018.cmd s' = SL018.cmd s.

(** The response of the SM130 to a successful [CMD_READ16]: length,
    command, block number, the sixteen bytes, checksum. *)
Definition read_response_SM130 (block : Z) (content : list Z) : list Z :=
  let body := [18; SM130.CMD_READ16; block] ++ content in
  body ++ [SM130.checksum body].

(** The response of the SM130 to [CMD_ANTENNA_POWER]. *)
Definition antenna_response (level : Z) : list Z :=
  let body := [2; SM130.CMD_ANTENNA_POWER; level] in
  body ++ [SM130.checksum body].

(** The command a call of the SL018 driver leaves in [cmd]. *)
Definition pending_SL018 (c : SL018.command) : Z :=
  match c with
  | SL018.SeekTag => SL018.CMD_SEEK
  | _ => SL018.opcode c
  end.

(** A C string in memory: the characters [text], none of them zero,
    their terminator, and whatever follows it. *)
Definition c_text (text junk : list Z) : ptr := of_list (text ++ 0 :: junk).

Definition nonzero (c : Z) : Prop := c <> 0.

(** The sixteen data bytes [SM130::writeBlock] transmits for a string. *)
Definition padded (text : list Z) : list Z :=
  take 15 text ++ repeat 0 (16 - Nat.min 15 (length text))%nat.

(** The command frames of [SM130::reset]. *)
Definition reset_frame : list Z := [1; SM130.CMD_RESET; 0x81].
Definition antenna_on_frame : list Z := [2; SM130.CMD_ANTENNA_POWER; 1; 0x93].
Definition halt_frame : list Z := [1; SM130.CMD_HALT_TAG; 0x94].

(** A poll that used the bus: it left the gate and set a new deadline. *)
Definition gated_SM130 (s s' : SM130.state) : Prop :=
  SM130.millis s' = gate_leave (SM130.t s) (SM130.millis s)
  /\ SM130.t s' = gate_deadline (SM130.t s) (SM130.millis s).

(** A character [readQuotedString] stores and counts outside quotes:
    neither a quote nor a space. *)
Definition plain (c : Z) : Prop := byte c <> 34 /\ byte c <> 39 /\ byte c <> 32.

(** A character of a quoted string: a byte other than the quote. *)
Definition inside (quote c : Z) : Prop := is_byte c /\ c <> quote.

(** The frame of a call with its checksum, as it appears on the bus. *)
Definition on_bus (c : SM130.command) : list Z :=
  frame_SM130 c ++ [SM130.checksum (frame_SM130 c)].

(** The response of the SM130 to a command [c] that failed with status
    [e]. *)
Definition failure_response (c e : Z) : list Z :=
  let body := [2; c; e] in body ++ [SM130.checksum body].

(** A response of the SL018 that carries a status other than 0. *)
Definition no_tag_response (w : list Z) : Prop :=
  match w with
  | l :: c :: status :: rest => 2 <= l <= 18 /\ 0 < status < 256
  | _ => False
  end.

(** The response of the SL018 that carries a tag. *)
Definition tag_record_SL018 (c type : Z) (id rest : list Z) : list Z :=
  (Z.of_nat (length id) + 3) :: c :: 0 :: id ++ type :: rest.

(** * Properties *)

(** ** Auxiliary facts *)

Lemma gtb_true (a b : Z) : b < a -> (a >? b) = true.
Proof. intros. by apply Z.gtb_lt. Qed.

Lemma gtb_false (a b : Z) : a <= b -> (a >? b) = false.
Proof. intros. rewrite Z.gtb_ltb. apply Z.ltb_ge. lia. Qed.

Lemma geb_true (a b : Z) : b <= a -> (a >=? b) = true.
Proof. intros. rewrite Z.geb_leb. by apply Z.leb_le. Qed.

Lemma byte_small (z : Z) : is_byte z -> byte z = z.
Proof. intros Hz. apply Z.mod_small, Hz. Qed.

Lemma map_byte_id (l : list Z) : Forall is_byte l -> map byte l = l.
Proof.
  induction 1 as [|b l Hb _ IH]; simpl; [done|].
  rewrite byte_small by done. by rewrite IH.
Qed.

Lemma store_all_ok (name : string) (src buf : list Z) (off : nat) :
  (off + length src <= length buf)%nat ->
  store_all name buf off src
  = Ok (take off buf ++ src ++ drop (off + length src) buf).
Proof.
  revert buf off. induction src as [|b src IH]; intros buf off Hlen; simpl in *.
  - by rewrite Nat.add_0_r, take_drop.
  - unfold store. rewrite decide_True by lia. simpl.
    rewrite IH by (rewrite length_insert; lia).
    f_equal.
    rewrite drop_insert_lt by lia.
    rewrite (take_S_r _ off b) by (apply list_lookup_insert_eq; lia).
    rewrite take_insert_ge by lia.
    rewrite <- app_assoc, Nat.add_succ_r. reflexivity.
Qed.

Lemma store_all_frame (name : string) (src buf : list Z) :
  (length src <= length buf)%nat ->
  store_all name buf 0 src = Ok (src ++ drop (length src) buf).
Proof. intros H. by rewrite store_all_ok. Qed.

Lemma map_lookup_seq (d : list Z) (n : nat) :
  (n <= length d)%nat -> map (fun i => d !!! i) (seq 0 n) = take n d.
Proof.
  induction n as [|n IH]; intros Hn; [done|].
  rewrite seq_S, map_app, IH by lia. simpl.
  symmetry. apply take_S_r, list_lookup_lookup_total_lt. lia.
Qed.

(** ** Hexadecimal rendering of the tag number *)

Section Hex.

Lemma toHex_upper (b : Z) : is_upper_hex (toHex b).
Proof.
  unfold toHex, is_upper_hex.
  change 15 with (Z.ones 4). rewrite Z.land_ones by lia.
  pose proof (Z.mod_pos_bound b (2 ^ 4) ltac:(lia)) as Hb.
  destruct ((b mod 2 ^ 4) <? 10) eqn:E; [apply Z.ltb_lt in E | apply Z.ltb_ge in E]; lia.
Qed.

Lemma arrayToHex_from_app (pre array : list Z) :
  arrayToHex_from (pre ++ array) (length pre) (length array)
  = Some (flat_map hex_pair array ++ [0]).
Proof.
  revert pre. induction array as [|b array IH]; intros pre; simpl; [done|].
  rewrite lookup_app_r, Nat.sub_diag by lia. simpl.
  specialize (IH (pre ++ [b])).
  rewrite <- app_assoc, length_app in IH. simpl in IH.
  rewrite Nat.add_1_r in IH. by rewrite IH.
Qed.

Lemma arrayToHex_whole (array : list Z) :
  arrayToHex array (length array) = Some (flat_map hex_pair array ++ [0]).
Proof. apply (arrayToHex_from_app [] array). Qed.

Lemma arrayToHex_from_prefix (array rest : list Z) (i count : nat) :
  (i + count <= length array)%nat ->
  arrayToHex_from (array ++ rest) i count = arrayToHex_from array i count.
Proof.
  revert i. induction count as [|count IH]; intros i Hi; simpl; [done|].
  rewrite lookup_app_l by lia. rewrite IH by lia. done.
Qed.

Lemma hex_digits_upper (array : list Z) : Forall is_upper_hex (flat_map hex_pair array).
Proof.
  induction array as [|b array IH]; simpl; [constructor|].
  constructor; [apply toHex_upper|]. constructor; [apply toHex_upper | exact IH].
Qed.

Lemma hex_digits_length (array : list Z) :
  length (flat_map hex_pair array) = (2 * length array)%nat.
Proof. induction array as [|b array IH]; simpl; lia. Qed.

Lemma c_string_digits (digits tail : list Z) :
  Forall is_upper_hex digits ->
  String.length (c_string (digits ++ 0 :: tail)) = length digits.
Proof.
  induction 1 as [|c digits Hc _ IH]; simpl; [done|].
  unfold is_upper_hex in Hc.
  destruct (c =? 0) eqn:E; [lia|]. simpl. by rewrite IH.
Qed.

End Hex.

(** C7.  [arrayToHex] depends on nothing but the bytes it is given: the
    bytes [04 A1 22 5C] give the string "04A1225C", seven bytes give
    fourteen characters, and for every array the characters written are
    two upper-case hexadecimal digits per byte followed by the
    terminator; bytes past [len] do not matter. *)
Theorem arrayToHex_upper_hex_terminated :
  (exists chars, arrayToHex [0x04; 0xA1; 0x22; 0x5C] 4 = Some chars
                 /\ c_string chars = "04A1225C"%string)
  /\ (forall b0 b1 b2 b3 b4 b5 b6 : Z,
         exists chars, arrayToHex [b0; b1; b2; b3; b4; b5; b6] 7 = Some chars
                       /\ String.length (c_string chars) = 14%nat)
  /\ (forall array : list Z,
         exists digits, arrayToHex array (length array) = Some (digits ++ [0])
                        /\ Forall is_upper_hex digits
                        /\ length digits = (2 * length array)%nat)
  /\ (forall array rest : list Z,
         arrayToHex (array ++ rest) (length array) = arrayToHex array (length array)).
Proof.
  split; [|split; [|split]].
  - eexists. split; reflexivity.
  - intros. eexists. split; [apply (arrayToHex_whole [b0; b1; b2; b3; b4; b5; b6])|].
    rewrite c_string_digits by apply hex_digits_upper.
    by rewrite hex_digits_length.
  - intros array. eexists. split; [apply arrayToHex_whole|].
    split; [apply hex_digits_upper | apply hex_digits_length].
  - intros array rest. apply arrayToHex_from_prefix. lia.
Qed.

(** ** Outbound frames *)

(** Names the elements of a list whose length is a known numeral. *)
Ltac explode l Hl :=
  repeat match type of Hl with
         | length l = S _ =>
             destruct l as [|? l]; [discriminate Hl|];
             simpl in Hl; apply Nat.succ_inj in Hl
         end;
  match type of Hl with
  | length l = O => destruct l; [clear Hl | discriminate Hl]
  end.

Lemma strncpy_length (src : ptr) (i n : nat) : length (strncpy src i n) = n.
Proof.
  revert i. induction n as [|n IH]; intros i; [done|].
  cbn [strncpy]. destruct (src i =? 0).
  - apply repeat_length.
  - simpl. by rewrite IH.
Qed.

Module Frames.

Lemma issue_SL018 (c : SL018.command) (s : SL018.state) :
  length (SL018.data s) = SL018.SIZE_PACKET ->
  SL018.sent (SL018.issue c s) = SL018.sent s ++ [frame_SL018 c].
Proof.
  destruct s as [d ? ? ? ? ? ? ? ? ? ? out]. cbn [SL018.data SL018.sent].
  unfold SL018.SIZE_PACKET. intros Hd. explode d Hd.
  destruct c; reflexivity.
Qed.

Lemma issue_SM130 (c : SM130.command) (s : SM130.state) :
  length (SM130.data s) = SM130.SIZE_PACKET ->
  SM130.sent (SM130.issue c s)
  = SM130.sent s ++ [frame_SM130 c ++ [SM130.checksum (frame_SM130 c)]].
Proof.
  destruct s as [d ? ? ? ? ? ? ? ? ? ? ? ? out]. cbn [SM130.data SM130.sent].
  unfold SM130.SIZE_PACKET. intros Hd. explode d Hd.
  destruct c; try reflexivity.
  - unfold frame_SM130. cbn [SM130.issue SM130.parameters SM130.opcode].
    unfold SM130.writeBlock.
    pose proof (strncpy_length message 0 15) as Hm.
    destruct (strncpy message 0 15) as [|m0 m] eqn:E; [discriminate Hm|].
    simpl in Hm. apply Nat.succ_inj in Hm. explode m Hm. reflexivity.
  - unfold frame_SM130. cbn [SM130.issue SM130.parameters SM130.opcode].
    unfold SM130.writeFourByteBlock.
    pose proof (strncpy_length message 0 3) as Hm.
    destruct (strncpy message 0 3) as [|m0 m] eqn:E; [discriminate Hm|].
    simpl in Hm. apply Nat.succ_inj in Hm. explode m Hm. reflexivity.
Qed.

Lemma size_SL018 (c : SL018.command) : (length (frame_SL018 c) <= SL018.SIZE_PACKET)%nat.
Proof. destruct c; cbv; lia. Qed.

Lemma size_SM130 (c : SM130.command) :
  (length (frame_SM130 c ++ [SM130.checksum (frame_SM130 c)]) <= SM130.SIZE_PACKET)%nat.
Proof.
  rewrite length_app. unfold frame_SM130, SM130.SIZE_PACKET.
  destruct c; cbn [length SM130.parameters app bytes_at map seq];
    rewrite ?length_app, ?strncpy_length; simpl; lia.
Qed.

End Frames.

(** C4.  Every call of either driver that transmits puts one frame on the
    bus: the length byte, equal to one plus the number of parameter
    bytes, the command code, and the parameters (Variant B then adds the
    checksum of those bytes).  The frame is at most 19 bytes long for
    Variant A and, checksum included, at most 20 for Variant B. *)
Theorem frame_length_byte_and_size :
  (forall (c : SL018.command) (s : SL018.state),
      length (SL018.data s) = SL018.SIZE_PACKET ->
      SL018.sent (SL018.issue c s)
      = SL018.sent s
          ++ [Z.of_nat (1 + length (SL018.parameters c))
                :: SL018.opcode c :: SL018.parameters c]
      /\ (length (Z.of_nat (1 + length (SL018.parameters c))
                    :: SL018.opcode c :: SL018.parameters c) <= 19)%nat)
  /\ (forall (c : SM130.command) (s : SM130.state),
         length (SM130.data s) = SM130.SIZE_PACKET ->
         let body := Z.of_nat (1 + length (SM130.parameters c))
                       :: SM130.opcode c :: SM130.parameters c in
         SM130.sent (SM130.issue c s) = SM130.sent s ++ [body ++ [SM130.checksum body]]
         /\ (length (body ++ [SM130.checksum body]) <= 20)%nat).
Proof.
  split.
  - intros c s Hs. split; [apply (Frames.issue_SL018 c s Hs) | apply (Frames.size_SL018 c)].
  - intros c s Hs body. split; [apply (Frames.issue_SM130 c s Hs) | apply (Frames.size_SM130 c)].
Qed.

Lemma frame_length_byte_and_size_witness :
  SL018.sent (SL018.issue (SL018.WriteBlock 4 (of_list [0x52; 0x46; 0x49; 0x44]))
                          (SL018.init 0))
  = [[18; 0x04; 4; 0x52; 0x46; 0x49; 0x44; 0; 0; 0; 0; 0; 0; 0; 0; 0; 0; 0; 0]]
  /\ SM130.sent (SM130.issue (SM130.Authenticate 4) (SM130.init 0))
     = [[3; 0x85; 4; 0xff; 0x8b]].
Proof.
  split.
  - exact (proj1 (proj1 frame_length_byte_and_size
                    (SL018.WriteBlock 4 (of_list [0x52; 0x46; 0x49; 0x44]))
                    (SL018.init 0) eq_refl)).
  - exact (proj1 (proj2 frame_length_byte_and_size
                    (SM130.Authenticate 4) (SM130.init 0) eq_refl)).
Defined.

(** ** The checksum of Variant B *)

Lemma checksum_from (l : list Z) (a : Z) :
  fold_left (fun sum b => byte (sum + b)) l (byte a) = byte (a + sum_list l).
Proof.
  revert a. induction l as [|b l IH]; intros a; simpl.
  - by rewrite Z.add_0_r.
  - rewrite IH. unfold byte. rewrite <- Z.add_assoc, Z.add_mod_idemp_l by lia. done.
Qed.

Lemma checksum_sum (l : list Z) : SM130.checksum l = sum_list l mod 256.
Proof. apply (checksum_from l 0). Qed.

(** What [receiveData] does with a complete frame on the wire. *)
Lemma receiveData_frame (r : SM130.state) (len l c : Z) (rest : list Z) :
  length (SM130.data r) = SM130.SIZE_PACKET ->
  1 <= l <= SM130.SIZE_PAYLOAD ->
  Z.of_nat (length rest) = l ->
  Forall is_byte (l :: rest ++ [c]) ->
  l + 2 <= len ->
  SM130.receiveData len (l :: rest ++ [c]) r
  = Ok (if SM130.checksum (l :: rest) =? c then l else byte (-1),
        SM130.set_data ((l :: rest ++ [c]) ++ drop (Z.to_nat (l + 2)) (SM130.data r))
                       (SM130.gate r)).
Proof.
  intros Hr Hl Hrest Hbytes Hlen. unfold SM130.SIZE_PAYLOAD, SM130.SIZE_PACKET in *.
  unfold SM130.receiveData.
  assert (Hwire : length (l :: rest ++ [c]) = Z.to_nat (l + 2)).
  { simpl. rewrite length_app. simpl. lia. }
  rewrite (take_ge (l :: rest ++ [c])) by lia.
  rewrite Hwire, Z2Nat.id by lia.
  rewrite (byte_small (l + 2)) by (unfold is_byte; lia).
  rewrite gtb_true by lia.
  rewrite (take_ge (l :: rest ++ [c])) by lia.
  rewrite map_byte_id by done.
  rewrite store_all_frame by (cbn [SM130.gate SM130.set_clock SM130.data]; lia).
  cbn [bind SM130.gate SM130.set_clock SM130.set_data SM130.data].
  rewrite Hwire.
  set (d := (l :: rest ++ [c]) ++ drop (Z.to_nat (l + 2)) (SM130.data r)).
  assert (Hd0 : d !!! 0%nat = l) by done.
  assert (Hbody : take (Z.to_nat (l + 1)) d = l :: rest).
  { replace (Z.to_nat (l + 1)) with (length (l :: rest)) by (simpl; lia).
    unfold d. change (l :: rest ++ [c]) with ((l :: rest) ++ [c]).
    rewrite <- app_assoc. apply take_app_length. }
  assert (Hsum : d !!! Z.to_nat (l + 1) = c).
  { replace (Z.to_nat (l + 1)) with (length (l :: rest) + 0)%nat by (simpl; lia).
    unfold d. change (l :: rest ++ [c]) with ((l :: rest) ++ [c]).
    rewrite <- app_assoc. by rewrite lookup_total_app_r, Nat.add_sub' by lia. }
  rewrite Hd0, Hbody, Hsum.
  unfold SM130.SIZE_PAYLOAD. rewrite gtb_true, (proj2 (Z.leb_le _ _)) by lia. reflexivity.
Qed.

Lemma flip_table :
  forallb (fun b => forallb (fun k => flip_ok (Z.of_nat b) (Z.of_nat k)) (seq 0 8))
          (seq 0 256) = true.
Proof. vm_compute. reflexivity. Qed.

Lemma flip_facts (b k : Z) :
  is_byte b -> 0 <= k < 8 ->
  is_byte (Z.lxor b (2 ^ k)) /\ (Z.lxor b (2 ^ k) - b) mod 256 <> 0.
Proof.
  intros Hb Hk. unfold is_byte in *.
  pose proof (proj1 (forallb_forall _ _) flip_table (Z.to_nat b)
                ltac:(apply in_seq; lia)) as T.
  pose proof (proj1 (forallb_forall _ _) T (Z.to_nat k)
                ltac:(apply in_seq; lia)) as Hin.
  rewrite !Z2Nat.id in Hin by lia.
  unfold flip_ok in Hin. cbv zeta in Hin.
  apply andb_prop in Hin as [Hin Hne].
  apply andb_prop in Hin as [Hlo Hhi].
  apply Z.leb_le in Hlo. apply Z.ltb_lt in Hhi.
  apply negb_true_iff, Z.eqb_neq in Hne. lia.
Qed.

Lemma sum_list_alter (f : Z -> Z) (l : list Z) (i : nat) (b : Z) :
  l !! i = Some b -> sum_list (alter f i l) = sum_list l + (f b - b).
Proof.
  revert i. induction l as [|x l IH]; intros [|i] Hi; simplify_eq/=.
  - lia.
  - rewrite (IH i Hi). lia.
Qed.

Lemma checksum_flip (k : Z) (i : nat) (body : list Z) :
  Forall is_byte body -> (i < length body)%nat -> 0 <= k < 8 ->
  SM130.checksum (flip_bit k i body) <> SM130.checksum body.
Proof.
  intros Hbody Hi Hk.
  destruct (lookup_lt_is_Some_2 body i Hi) as [b Hb].
  assert (is_byte b) as Hbyte.
  { eapply Forall_lookup_1; eauto. }
  destruct (flip_facts b k Hbyte Hk) as [_ Hne].
  unfold flip_bit. rewrite !checksum_sum, (sum_list_alter _ _ _ b Hb).
  intros Heq. apply Hne.
  replace (Z.lxor b (2 ^ k) - b)
    with ((sum_list body + (Z.lxor b (2 ^ k) - b)) - sum_list body) by lia.
  rewrite Zminus_mod, Heq, Z.sub_diag. done.
Qed.

Lemma flip_bit_bytes (k : Z) (i : nat) (frame : list Z) :
  Forall is_byte frame -> 0 <= k < 8 -> Forall is_byte (flip_bit k i frame).
Proof.
  intros Hf Hk. unfold flip_bit. apply Forall_alter; [done|].
  intros b _ Hb. by apply flip_facts.
Qed.

Lemma checksum_is_byte (l : list Z) : is_byte (SM130.checksum l).
Proof. rewrite checksum_sum. apply Z.mod_pos_bound. lia. Qed.

(** C5.  The byte [transmitData] appends is the sum modulo 256 of the
    length byte through the last payload byte.  [receiveData], given the
    transmitted frame, accepts it (it returns the payload length) and
    holds the same bytes; given the frame with one bit of one payload
    byte inverted, it returns the bad-checksum value, [(byte)-1]. *)
Theorem checksum_round_trip (s r : SM130.state) (len : Z) :
  length (SM130.data s) = SM130.SIZE_PACKET ->
  length (SM130.data r) = SM130.SIZE_PACKET ->
  Forall is_byte (SM130.data s) ->
  1 <= SM130.getPacketLength s <= SM130.SIZE_PAYLOAD ->
  SM130.getPacketLength s + 2 <= len ->
  let l := Z.to_nat (SM130.getPacketLength s) in
  let body := take (S l) (SM130.data s) in
  let sum := sum_list body mod 256 in
  SM130.sent (SM130.transmitData s) = SM130.sent s ++ [body ++ [sum]]
  /\ (exists r', SM130.receiveData len (body ++ [sum]) r
                 = Ok (SM130.getPacketLength s, r')
                 /\ take (S (S l)) (SM130.data r') = body ++ [sum])
  /\ (forall (i : nat) (k : Z), (1 <= i <= l)%nat -> 0 <= k < 8 ->
        exists r', SM130.receiveData len (flip_bit k i (body ++ [sum])) r
                   = Ok (byte (-1), r')).
Proof.
  intros Hs Hr Hbytes Hl Hlen l body sum.
  unfold SM130.SIZE_PACKET, SM130.SIZE_PAYLOAD, SM130.getPacketLength in *.
  destruct (SM130.data s) as [|l0 d] eqn:Hd; [discriminate Hs|].
  cbn [lookup_total list_lookup_total] in Hl, Hlen, l. simpl in Hs.
  assert (Hbody : body = l0 :: take l d) by done.
  assert (Hrest : Z.of_nat (length (take l d)) = l0).
  { rewrite length_take. lia. }
  assert (Hsum : sum = SM130.checksum (l0 :: take l d)).
  { unfold sum. by rewrite checksum_sum, Hbody. }
  assert (Hb : Forall is_byte (l0 :: take l d)).
  { apply (Forall_take _ (S l)) in Hbytes. done. }
  split; [|split].
  - unfold SM130.transmitData.
    cbn [SM130.gate SM130.set_clock SM130.set_cmd SM130.set_sent SM130.data SM130.sent].
    rewrite Hd. cbn [lookup_total list_lookup_total].
    rewrite (byte_small (l0 + 1)) by (unfold is_byte; lia).
    replace (Z.to_nat (l0 + 1)) with (S l) by lia.
    rewrite map_lookup_seq by (simpl; lia).
    fold body. by rewrite checksum_sum.
  - eexists. rewrite Hbody, Hsum. cbn [app].
    rewrite (receiveData_frame r len l0 _ (take l d)); try done.
    + rewrite Z.eqb_refl. split; [reflexivity|].
      cbn [SM130.set_data SM130.data].
      replace (S (S l)) with (length (l0 :: take l d ++ [SM130.checksum (l0 :: take l d)])).
      * apply take_app_length.
      * simpl. rewrite length_app. simpl. lia.
    + change (Forall is_byte ((l0 :: take l d) ++ [SM130.checksum (l0 :: take l d)])).
      apply Forall_app. split; [done|].
      apply Forall_cons. split; [apply checksum_is_byte | constructor].
  - intros i k Hi Hk. destruct i as [|i]; [lia|].
    eexists. rewrite Hbody, Hsum.
    unfold flip_bit. cbn [alter list_alter app].
    rewrite alter_app_l by (rewrite length_take; lia).
    assert (Hne := checksum_flip k (S i) (l0 :: take l d) Hb
                     ltac:(simpl; rewrite length_take; lia) Hk).
    unfold flip_bit in Hne. cbn [alter list_alter] in Hne.
    rewrite (receiveData_frame r len l0 _ _); try done.
    + rewrite (proj2 (Z.eqb_neq _ _)) by done. reflexivity.
    + rewrite length_alter. done.
    + change (Forall is_byte ((l0 :: alter (fun b => Z.lxor b (2 ^ k)) i (take l d))
                                ++ [SM130.checksum (l0 :: take l d)])).
      apply Forall_app. split.
      * apply (flip_bit_bytes k (S i) (l0 :: take l d) Hb Hk).
      * apply Forall_cons. split; [apply checksum_is_byte | constructor].
Qed.

Lemma checksum_round_trip_witness :
  let s := SM130.set_data (poke (repeat 0 20%nat) 0 [2; 0x86; 4]) (SM130.init 0) in
  SM130.sent (SM130.transmitData s) = [[2; 0x86; 4; 0x8c]]
  /\ (exists r', SM130.receiveData 20 [2; 0x86; 4; 0x8c] (SM130.init 0) = Ok (2, r')
                 /\ take 4 (SM130.data r') = [2; 0x86; 4; 0x8c])
  /\ (forall (i : nat) (k : Z), (1 <= i <= 2)%nat -> 0 <= k < 8 ->
        exists r', SM130.receiveData 20 (flip_bit k i [2; 0x86; 4; 0x8c]) (SM130.init 0)
                   = Ok (byte (-1), r')).
Proof.
  apply (checksum_round_trip
           (SM130.set_data (poke (repeat 0 20%nat) 0 [2; 0x86; 4]) (SM130.init 0))
           (SM130.init 0) 20).
  - reflexivity.
  - reflexivity.
  - repeat (apply Forall_cons_2; [unfold is_byte; lia|]). apply Forall_nil_2.
  - vm_compute. split; discriminate.
  - vm_compute. discriminate.
Defined.

(** ** Array bounds of the receive path *)

Lemma wire_reads_length (count : nat) (rx : list Z) :
  length (wire_reads count rx) = count.
Proof. revert rx. induction count as [|n IH]; intros rx; simpl; [done|]. by rewrite IH. Qed.

Lemma wire_reads_enough (count : nat) (rx : list Z) :
  (count <= length rx)%nat -> wire_reads count rx = map byte (take count rx).
Proof.
  revert rx. induction count as [|n IH]; intros [|b rx] H; simpl in *; try done; try lia.
  rewrite IH by lia. done.
Qed.

Lemma store_all_overrun (name : string) (src buf : list Z) (off : nat) :
  (off <= length buf < off + length src)%nat ->
  store_all name buf off src = Fault (Overrun name (length buf)).
Proof.
  revert buf off. induction src as [|b src IH]; intros buf off H; simpl in *; [lia|].
  unfold store. destruct (decide (off < length buf)%nat) as [Hlt|Hge]; simpl.
  - rewrite IH by (rewrite length_insert; lia). by rewrite length_insert.
  - by replace off with (length buf) by lia.
Qed.

Module Bounds.

Lemma receive_loop_stores (count i : nat) (rx buf : list Z) :
  SL018.receive_loop count i rx buf = store_all "data" buf i (wire_reads count rx).
Proof.
  revert i rx buf. induction count as [|n IH]; intros i rx buf; simpl; [done|].
  destruct (store "data" buf i (wire_read rx)); simpl; [apply IH | done].
Qed.

(** Variant A: a length byte of 19 or more takes the receive loop past
    the last element of [data]. *)
Lemma SL018_overrun (len : Z) (wire : list Z) (s : SL018.state) :
  length (SL018.data s) = SL018.SIZE_PACKET ->
  take (Z.to_nat len) wire <> [] ->
  Z.of_nat SL018.SIZE_PACKET <= wire_read wire ->
  SL018.receiveData len wire s = Fault (Overrun "data" SL018.SIZE_PACKET).
Proof.
  unfold SL018.SIZE_PACKET. intros Hs Hrx Hlen. unfold SL018.receiveData.
  destruct (take (Z.to_nat len) wire) as [|b rx] eqn:E; [done|].
  assert (wire_read wire = wire_read (b :: rx)) as Hb.
  { destruct wire; [by rewrite take_nil in E|].
    destruct (Z.to_nat len); simpl in E; [done|]. by inversion E. }
  rewrite Hb in Hlen. unfold store.
  cbn [SL018.gate SL018.set_clock SL018.data].
  rewrite decide_True by lia. cbn [bind].
  rewrite receive_loop_stores, store_all_overrun.
  - by rewrite length_insert, Hs.
  - rewrite length_insert, wire_reads_length. lia.
Qed.

(** Variant A stays inside [data] when the length byte is at most 18. *)
Lemma SL018_in_bounds (len : Z) (wire : list Z) (s : SL018.state) :
  length (SL018.data s) = SL018.SIZE_PACKET ->
  wire_read wire < Z.of_nat SL018.SIZE_PACKET ->
  exists n s', SL018.receiveData len wire s = Ok (n, s').
Proof.
  unfold SL018.SIZE_PACKET. intros Hs Hlen. unfold SL018.receiveData.
  destruct (take (Z.to_nat len) wire) as [|b rx] eqn:E; [by eauto|].
  assert (wire_read wire = wire_read (b :: rx)) as Hb.
  { destruct wire; [by rewrite take_nil in E|].
    destruct (Z.to_nat len); simpl in E; [done|]. by inversion E. }
  rewrite Hb in Hlen. unfold store.
  cbn [SL018.gate SL018.set_clock SL018.data].
  rewrite decide_True by lia. cbn [bind].
  rewrite receive_loop_stores, store_all_ok.
  - cbn [bind]. eauto.
  - rewrite length_insert, wire_reads_length.
    assert (0 <= wire_read (b :: rx)) by (apply Z.mod_pos_bound; lia). lia.
Qed.

(** Variant B stays inside [data] for every request of at most
    [SIZE_PACKET] bytes. *)
Lemma SM130_in_bounds (len : Z) (wire : list Z) (s : SM130.state) :
  length (SM130.data s) = SM130.SIZE_PACKET ->
  len <= Z.of_nat SM130.SIZE_PACKET ->
  exists n s', SM130.receiveData len wire s = Ok (n, s')
               /\ length (SM130.data s') = SM130.SIZE_PACKET.
Proof.
  unfold SM130.SIZE_PACKET. intros Hs Hlen. unfold SM130.receiveData.
  set (rx := take (Z.to_nat len) wire).
  assert (length rx <= 20)%nat as Hrx by (unfold rx; rewrite length_take; lia).
  destruct (byte (Z.of_nat (length rx)) >? 0); [|by eauto].
  rewrite store_all_frame.
  2:{ rewrite length_map, length_take. cbn [SM130.gate SM130.set_clock SM130.data]. lia. }
  cbn [bind].
  match goal with
  | |- context [SM130.set_data ?d _] =>
      assert (length d = 20%nat) as Hd
  end.
  { cbn [SM130.gate SM130.set_clock SM130.data].
    rewrite length_app, length_drop, !length_map, length_take. lia. }
  destruct (_ && _); eauto.
Qed.

Lemma SM130_expected_length_bound (c : Z) :
  SM130.expected_length c <= Z.of_nat SM130.SIZE_PACKET.
Proof.
  unfold SM130.expected_length, SM130.SIZE_PACKET.
  repeat (destruct (in_cases _ _)); simpl; lia.
Qed.

(** So the receive path of [SM130::available] never leaves [data]. *)
Lemma SM130_available_in_bounds (wire : list Z) (s : SM130.state) :
  length (SM130.data s) = SM130.SIZE_PACKET ->
  exists n s',
    SM130.receiveData (SM130.expected_length (SM130.cmd s)) wire s = Ok (n, s')
    /\ length (SM130.data s') = SM130.SIZE_PACKET.
Proof.
  intros Hs. apply SM130_in_bounds; [done | apply SM130_expected_length_bound].
Qed.

End Bounds.

(** C10.  Variant A copies as many bytes as the length byte of the
    response announces.  After [readBlock] the driver requests 19 bytes;
    a response whose length byte is 19 makes the receive loop store at
    [data[19]], one element past the end of the 19-byte array, so the
    write is not confined to the packet buffer.  ([Bounds.SL018_overrun]:
    every length byte from 19 to 255 does this.  [Bounds.SM130_in_bounds]:
    Variant B, whose loop is bounded by the number of bytes the transport
    holds, stays inside its 20-byte array.) *)
Theorem receive_overruns_packet_buffer :
  let s := SL018.readBlock 4 (SL018.init 0) in
  let wire := 19 :: repeat 0 18 in
  length (SL018.data s) = 19%nat
  /\ SL018.expected_length (SL018.cmd s) = 19
  /\ SL018.receiveData 19 wire s = Fault (Overrun "data" 19)
  /\ SL018.available wire s = Fault (Overrun "data" 19).
Proof. cbv zeta. split; [|split; [|split]]; vm_compute; reflexivity. Qed.

(** ** Responses with a bad checksum *)

(** C1.  [receiveData] returns [-1] for a bad checksum, but its return
    type is [byte], so the caller sees 255, and [available] tests
    [receiveData(len) > 0].  After [selectTag], the response
    [06 83 02 AA BB CC DD] followed by the checksum byte [00] (the sum
    is [99]) is classified as if it were valid: [available] returns
    [true] and the tag type, tag length, tag number, tag string and
    error code are all taken from the packet.
    ([TagB.bad_checksum_reaches_classifier]: every frame of valid length
    with a wrong checksum byte gets past the test.) *)
Theorem bad_checksum_is_processed :
  let s := SM130.selectTag (SM130.init 0) in
  let wire := [6; 0x83; 2; 0xAA; 0xBB; 0xCC; 0xDD; 0x00] in
  SM130.checksum (take 7 wire) = 0x99
  /\ (exists s', SM130.receiveData 11 wire s = Ok (byte (-1), s'))
  /\ (exists s', SM130.available true wire s = Ok (true, s')
                 /\ SM130.tagType s' = 2
                 /\ SM130.tagLength s' = 4
                 /\ take 4 (SM130.tagNumber s') = [0xAA; 0xBB; 0xCC; 0xDD]
                 /\ SM130.getTagString s' = "AABBCCDD"%string
                 /\ SM130.errorCode s' = 0).
Proof.
  cbv zeta. split; [vm_compute; reflexivity|]. split.
  - eexists. vm_compute. reflexivity.
  - eexists. split; [vm_compute; reflexivity|].
    split; [|split; [|split; [|split]]]; vm_compute; reflexivity.
Qed.

(** ** The expected length of a response *)

Lemma in_cases_In (c : Z) (labels : list Z) :
  in_cases c labels = true <-> In c labels.
Proof.
  unfold in_cases. rewrite existsb_exists. split.
  - intros (x & Hx & Heq). apply Z.eqb_eq in Heq. by subst.
  - intros H. exists c. split; [done | apply Z.eqb_refl].
Qed.

Lemma in_cases_not_In (c : Z) (labels : list Z) :
  in_cases c labels = false <-> ~ In c labels.
Proof. rewrite <- in_cases_In. by destruct (in_cases c labels). Qed.

Lemma eqb_in_cases (a b c : Z) (labels : list Z) :
  Bool.eqb (a =? b) (in_cases c labels) = true -> (a = b <-> In c labels).
Proof. intros H. apply eqb_prop in H. by rewrite <- in_cases_In, <- H, Z.eqb_eq. Qed.

Lemma eqb_not_in_cases (a b c : Z) (labels : list Z) :
  Bool.eqb (a =? b) (negb (in_cases c labels)) = true -> (a = b <-> ~ In c labels).
Proof.
  intros H. apply eqb_prop in H.
  by rewrite <- in_cases_not_In, <- negb_true_iff, <- H, Z.eqb_eq.
Qed.

(** Every code either has a label, and then it is one of these numerals,
    or is different from all of them. *)
Ltac labelled c all :=
  let E := fresh "E" in
  destruct (in_cases c all) eqn:E;
  [ apply in_cases_In in E; simpl in E;
    repeat (destruct E as [<-|E]; [vm_compute; reflexivity|]); destruct E
  | unfold in_cases in E; simpl in E;
    repeat (apply orb_false_elim in E as [? E]) ].

Lemma check_SL018_holds (c : Z) : Table.check_SL018 c = true.
Proof.
  labelled c (Table.idle_SL018 ++ Table.ack_SL018 ++ Table.value_SL018
                ++ Table.key_SL018 ++ Table.tag_SL018).
  unfold Table.check_SL018, SL018.expected_length, in_cases. simpl.
  repeat match goal with H : (c =? _) = false |- _ => rewrite H; clear H end.
  reflexivity.
Qed.

Lemma check_SM130_holds (c : Z) : Table.check_SM130 c = true.
Proof.
  labelled c (Table.ack_SM130 ++ Table.value_SM130 ++ Table.tag_SM130).
  unfold Table.check_SM130, SM130.expected_length, in_cases. simpl.
  repeat match goal with H : (c =? _) = false |- _ => rewrite H; clear H end.
  reflexivity.
Qed.

(** C2, counterexample.  For [CMD_RESET] and [CMD_IDLE] Variant A
    expects 0 bytes, which is none of the lengths of the table (3-4,
    7-8, 8-9, 11, full packet), and [available] then makes no request
    at all. *)
Lemma expected_length_outside_table :
  SL018.expected_length SL018.CMD_RESET = 0
  /\ SL018.expected_length SL018.CMD_IDLE = 0
  /\ in_claimed_table (Z.of_nat SL018.SIZE_PACKET) 0 = false
  /\ (forall wire, SL018.available wire (SL018.init 0) = Ok (false, SL018.init 0)).
Proof. repeat split. Qed.

(** C2, amended.  Variant A expects 0 bytes after idle and reset, 3 after
    login, LED and sleep, 7 after the page and value commands, 9 after
    key write, 11 after seek and select, and the full 19 after every
    other command.  Variant B expects 4 bytes after antenna power,
    authenticate, value increment and decrement, key write, halt and
    sleep, 11 after seek and select, and the full 20 after every command
    outside those groups and the group of [CMD_WRITE4]. *)
Theorem expected_length_table (c : Z) :
  (SL018.expected_length c = 0 <-> In c [SL018.CMD_IDLE; SL018.CMD_RESET])
  /\ (SL018.expected_length c = 3
      <-> In c [SL018.CMD_LOGIN; SL018.CMD_SET_LED; SL018.CMD_SLEEP])
  /\ (SL018.expected_length c = 7
      <-> In c [SL018.CMD_READ4; SL018.CMD_WRITE4; SL018.CMD_READ_VALUE;
                SL018.CMD_WRITE_VALUE; SL018.CMD_DEC_VALUE; SL018.CMD_INC_VALUE;
                SL018.CMD_COPY_VALUE])
  /\ (SL018.expected_length c = 9 <-> In c [SL018.CMD_WRITE_KEY])
  /\ (SL018.expected_length c = 11 <-> In c [SL018.CMD_SEEK; SL018.CMD_SELECT])
  /\ (SL018.expected_length c = 19
      <-> ~ In c (Table.idle_SL018 ++ Table.ack_SL018 ++ Table.value_SL018
                    ++ Table.key_SL018 ++ Table.tag_SL018))
  /\ (SM130.expected_length c = 4
      <-> In c [SM130.CMD_ANTENNA_POWER; SM130.CMD_AUTHENTICATE; SM130.CMD_DEC_VALUE;
                SM130.CMD_INC_VALUE; SM130.CMD_WRITE_KEY; SM130.CMD_HALT_TAG;
                SM130.CMD_SLEEP])
  /\ (In c [SM130.CMD_SEEK_TAG; SM130.CMD_SELECT_TAG] -> SM130.expected_length c = 11)
  /\ (~ In c (Table.ack_SM130 ++ Table.value_SM130 ++ Table.tag_SM130) ->
      SM130.expected_length c = 20).
Proof.
  pose proof (check_SL018_holds c) as HA. pose proof (check_SM130_holds c) as HB.
  unfold Table.check_SL018 in HA. unfold Table.check_SM130 in HB. cbv zeta in HA, HB.
  repeat (apply andb_prop in HA as [HA ?]).
  repeat (apply andb_prop in HB as [HB ?]).
  split_and!; try (by apply eqb_in_cases); try (by apply eqb_not_in_cases).
  - intros Hc. apply in_cases_In in Hc.
    match goal with H : implb (in_cases c Table.tag_SM130) _ = true |- _ =>
      unfold Table.tag_SM130 in H; rewrite Hc in H; by apply Z.eqb_eq in H end.
  - intros Hc. apply in_cases_not_In in Hc.
    match goal with H : implb (negb _) _ = true |- _ =>
      rewrite Hc in H; by apply Z.eqb_eq in H end.
Qed.

Lemma expected_length_table_witness :
  SM130.expected_length SM130.CMD_SEEK_TAG = 11
  /\ SM130.expected_length SM130.CMD_VERSION = 20.
Proof.
  split.
  - apply (expected_length_table SM130.CMD_SEEK_TAG). simpl. auto.
  - apply (expected_length_table SM130.CMD_VERSION).
    intros H. simpl in H. repeat (destruct H as [H|H]; [discriminate H|]). exact H.
Defined.

(** ** Classification of responses *)

Lemma byte_range (z : Z) : is_byte (byte z).
Proof. apply Z.mod_pos_bound. lia. Qed.

Lemma to_char_zero (z : Z) : is_byte z -> to_char z = 0 -> z = 0.
Proof.
  unfold to_char, is_byte. intros Hz. rewrite (byte_small z Hz).
  destruct (z <? 128); lia.
Qed.

Module Classify.

(** What [SL018::receiveData] leaves in [data] when the response fits. *)
Lemma SL018_receive (len b0 : Z) (rest : list Z) (s : SL018.state) :
  length (SL018.data s) = SL018.SIZE_PACKET ->
  0 < len ->
  byte b0 < Z.of_nat SL018.SIZE_PACKET ->
  SL018.receiveData len (b0 :: rest) s
  = Ok (byte b0,
        SL018.set_data
          (byte b0 :: wire_reads (Z.to_nat (byte b0)) (take (Z.to_nat len - 1) rest)
             ++ drop (S (Z.to_nat (byte b0))) (SL018.data s))
          (SL018.gate s)).
Proof.
  unfold SL018.SIZE_PACKET. intros Hs Hlen Hb0.
  pose proof (byte_range b0) as Hb. unfold is_byte in Hb.
  unfold SL018.receiveData.
  destruct (Z.to_nat len) as [|k] eqn:Ek; [lia|].
  cbn [take]. rewrite Nat.sub_succ, Nat.sub_0_r.
  change (wire_read (b0 :: take k rest)) with (byte b0).
  cbn [SL018.gate SL018.set_clock SL018.data].
  destruct (SL018.data s) as [|d0 d] eqn:Ed; [discriminate Hs|]. simpl in Hs.
  unfold store at 1. rewrite decide_True by (simpl; lia). cbn [bind].
  rewrite Bounds.receive_loop_stores, store_all_ok.
  2:{ rewrite length_insert, wire_reads_length. simpl. lia. }
  cbn [bind]. do 2 f_equal.
  rewrite wire_reads_length. reflexivity.
Qed.

End Classify.

(** C3, amended.  Variant A: when the last command is seek and the
    response carries a status other than success (in particular
    [NO_TAG]), [available] sends exactly one more frame, the select
    command [01 01] that [seekTag] issues, leaves [cmd] at [CMD_SEEK]
    and returns [false]. *)
Theorem seek_is_continued (s : SL018.state) (l c status : Z) (rest : list Z) :
  length (SL018.data s) = SL018.SIZE_PACKET ->
  SL018.cmd s = SL018.CMD_SEEK ->
  2 <= l <= 18 ->
  0 < status < 256 ->
  exists s', SL018.available (l :: c :: status :: rest) s = Ok (false, s')
             /\ SL018.sent s' = SL018.sent s ++ [[1; SL018.CMD_SELECT]]
             /\ SL018.cmd s' = SL018.CMD_SEEK.
Proof.
  intros Hs Hcmd Hl Hstatus.
  assert (byte l = l) as Hbl by (apply byte_small; unfold is_byte; lia).
  unfold SL018.available. rewrite Hcmd.
  change (SL018.expected_length SL018.CMD_SEEK) with 11.
  change (11 =? 0) with false. cbv iota.
  rewrite Classify.SL018_receive by (rewrite ?Hbl; unfold SL018.SIZE_PACKET; lia || done).
  rewrite Hbl. cbn [bind].
  rewrite gtb_true by lia.
  destruct (Z.to_nat l) as [|[|n]] eqn:En; [lia|lia|].
  change (Z.to_nat 11 - 1)%nat with 10%nat.
  cbn [take wire_reads tl app].
  change (wire_read (c :: status :: take 8 rest)) with (byte c).
  change (wire_read (status :: take 8 rest)) with (byte status).
  set (tail := wire_reads n (take 8 rest) ++ drop (S (S (S n))) (SL018.data s)).
  unfold SL018.init_response.
  cbn [SL018.set_tagString SL018.set_tagLength SL018.set_tagType SL018.set_errorCode
       SL018.set_data SL018.gate SL018.set_clock SL018.data SL018.cmd SL018.getCommand
       SL018.errorCode SL018.tagString SL018.getPacketLength
       lookup_total list_lookup_total].
  rewrite Hcmd. change (in_cases SL018.CMD_SEEK _) with true. cbv iota.
  assert ((to_char (byte status) =? 0) = false) as ->.
  { apply Z.eqb_neq. intros H. apply to_char_zero in H; [|apply byte_range].
    rewrite byte_small in H by (unfold is_byte; lia). lia. }
  cbn [andb]. change (SL018.CMD_SEEK =? SL018.CMD_SEEK) with true. cbv iota.
  eexists. split; [reflexivity|]. split; reflexivity.
Qed.

Lemma seek_is_continued_witness :
  exists s', SL018.available [2; 0x01; 0x01] (SL018.seekTag (SL018.init 0)) = Ok (false, s')
             /\ SL018.sent s' = [[1; 0x01]; [1; 0x01]]
             /\ SL018.cmd s' = SL018.CMD_SEEK.
Proof.
  apply (seek_is_continued (SL018.seekTag (SL018.init 0)) 2 0x01 0x01 []).
  - reflexivity.
  - reflexivity.
  - lia.
  - lia.
Defined.

Lemma c_string_cut (digits tail : list Z) :
  c_string (digits ++ 0 :: tail) = c_string (digits ++ [0]).
Proof.
  induction digits as [|c digits IH]; simpl; [done|].
  destruct (c =? 0); [done|]. by rewrite IH.
Qed.

Module TagA.

Lemma take_tag_SL018 (s : SL018.state) (l c type : Z) (id tail : list Z) :
  length (SL018.tagNumber s) = 7%nat ->
  length (SL018.tagString s) = 15%nat ->
  (length id <= 7)%nat ->
  l = Z.of_nat (length id) + 3 ->
  SL018.data s = l :: c :: 0 :: id ++ type :: tail ->
  exists s', SL018.take_tag s = Ok s'
             /\ SL018.tagLength s' = Z.of_nat (length id)
             /\ take (length id) (SL018.tagNumber s') = id
             /\ SL018.tagType s' = type
             /\ SL018.getTagString s' = hex_string id
             /\ SL018.errorCode s' = SL018.errorCode s
             /\ SL018.sent s' = SL018.sent s
             /\ SL018.cmd s' = SL018.cmd s.
Proof.
  intros Hn Hs Hid Hl Hd. unfold SL018.take_tag, SL018.getPacketLength.
  rewrite Hd. cbn [lookup_total list_lookup_total].
  cbn [SL018.set_tagLength SL018.set_tagType SL018.set_tagNumber SL018.set_tagString
       SL018.data SL018.tagLength SL018.tagNumber SL018.tagString].
  rewrite Hd.
  assert (byte (l - 3) = Z.of_nat (length id)) as ->.
  { replace (l - 3) with (Z.of_nat (length id)) by lia.
    apply byte_small. unfold is_byte. lia. }
  rewrite Nat2Z.id.
  assert (slice (l :: c :: 0 :: id ++ type :: tail) 3 (length id) = id) as ->.
  { unfold slice. cbn [drop]. apply take_app_length. }
  rewrite store_all_frame by lia. cbn [bind].
  unfold arrayToHex. rewrite arrayToHex_from_prefix by lia.
  change (arrayToHex_from id 0 (length id)) with (arrayToHex id (length id)).
  rewrite (arrayToHex_whole id).
  rewrite store_all_frame.
  2:{ rewrite length_app, hex_digits_length. simpl. lia. }
  cbn [bind]. eexists. split; [reflexivity|].
  cbn [SL018.tagLength SL018.tagNumber SL018.tagType SL018.getTagString SL018.tagString
       SL018.errorCode SL018.sent SL018.cmd
       SL018.set_tagLength SL018.set_tagType SL018.set_tagNumber SL018.set_tagString].
  split_and!; try done.
  - apply take_app_length.
  - change ((l :: c :: 0 :: id ++ type :: tail) !!! 0%nat) with l.
    replace (Z.to_nat l) with (3 + length id)%nat by lia.
    change ((l :: c :: 0 :: id ++ type :: tail) !!! (3 + length id)%nat)
      with ((id ++ type :: tail) !!! length id).
    by rewrite (lookup_total_app_r id (type :: tail) (length id)), Nat.sub_diag by lia.
  - unfold hex_string. rewrite <- app_assoc. apply c_string_cut.
Qed.

Lemma receive_record_SL018 (s : SL018.state) (c type : Z) (id rest : list Z) :
  length (SL018.data s) = SL018.SIZE_PACKET ->
  (4 <= length id <= 7)%nat ->
  Forall is_byte (c :: type :: id) ->
  let l := Z.of_nat (length id) + 3 in
  SL018.receiveData 11 (l :: c :: 0 :: id ++ type :: rest) s
  = Ok (l, SL018.set_data
             (l :: c :: 0 :: id ++ type :: drop (S (Z.to_nat l)) (SL018.data s))
             (SL018.gate s)).
Proof.
  intros Hs Hid Hbytes l.
  assert (l = Z.of_nat (length id) + 3) as Hl by done. clearbody l.
  assert (byte l = l) as Hbl by (apply byte_small; unfold is_byte; lia).
  rewrite Classify.SL018_receive by (rewrite ?Hbl; unfold SL018.SIZE_PACKET; lia || done).
  rewrite Hbl. do 3 f_equal.
  change (Z.to_nat 11 - 1)%nat with 10%nat.
  assert (Z.to_nat l = length (c :: 0 :: id ++ [type])) as Hlen.
  { simpl. rewrite length_app. simpl. lia. }
  rewrite wire_reads_enough.
  2:{ rewrite length_take. cbn [length]. rewrite length_app. cbn [length]. lia. }
  rewrite take_take, Nat.min_l by lia.
  change (c :: 0 :: id ++ type :: rest) with ((c :: 0 :: id) ++ [type] ++ rest).
  rewrite app_assoc, Hlen. change ((c :: 0 :: id) ++ [type]) with (c :: 0 :: id ++ [type]).
  rewrite take_app_length, map_byte_id.
  - simpl. by rewrite <- app_assoc.
  - inversion Hbytes as [|? ? Hc Hrest]; subst.
    inversion Hrest as [|? ? Ht Hi]; subst.
    apply Forall_cons. split; [done|].
    apply Forall_cons. split; [unfold is_byte; lia|].
    apply Forall_app. split; [done|]. by apply Forall_cons.
Qed.

Lemma available_record_SL018 (s : SL018.state) (c type : Z) (id rest : list Z) :
  SL018.sized s ->
  In (SL018.cmd s) [SL018.CMD_SEEK; SL018.CMD_SELECT] ->
  (4 <= length id <= 7)%nat ->
  Forall is_byte (c :: type :: id) ->
  exists s',
    SL018.available ((Z.of_nat (length id) + 3) :: c :: 0 :: id ++ type :: rest) s
    = Ok (true, s')
    /\ SL018.tagLength s' = Z.of_nat (length id)
    /\ take (length id) (SL018.tagNumber s') = id
    /\ SL018.tagType s' = type
    /\ SL018.getTagString s' = hex_string id
    /\ SL018.errorCode s' = 0.
Proof.
  intros (Hd & Hn & Hstr) Hcmd Hid Hbytes.
  unfold SL018.available.
  assert (SL018.expected_length (SL018.cmd s) = 11) as ->.
  { destruct Hcmd as [<-|[<-|[]]]; reflexivity. }
  change (11 =? 0) with false. cbv iota.
  rewrite receive_record_SL018 by done. cbn [bind].
  rewrite gtb_true by lia.
  set (s1 := SL018.init_response _).
  assert (SL018.getCommand s1 = SL018.cmd s) as -> by done.
  assert (in_cases (SL018.cmd s) [SL018.CMD_SEEK; SL018.CMD_SELECT] = true) as ->.
  { by apply in_cases_In. }
  assert (SL018.errorCode s1 = 0) as Herr by done.
  assert (SL018.getPacketLength s1 = Z.of_nat (length id) + 3) as Hlen by done.
  rewrite Herr, Hlen, geb_true by lia. cbn [Z.eqb andb].
  destruct (take_tag_SL018 s1 (Z.of_nat (length id) + 3) c type id
              (drop (S (Z.to_nat (Z.of_nat (length id) + 3))) (SL018.data s)))
    as (s' & -> & Hlen' & Hnum & Htype & Hstring & Herr' & _); try done; try lia.
  - unfold s1. cbn. by rewrite length_insert.
  - cbn [bind]. exists s'. split_and!; try done; congruence.
Qed.

End TagA.

Module TagB.

(** [SM130::receiveData] on a frame followed by whatever else the
    device clocks out within the requested length. *)
Lemma receive_frame_SM130 (r : SM130.state) (len l c : Z) (rest extra : list Z) :
  length (SM130.data r) = SM130.SIZE_PACKET ->
  1 <= l <= SM130.SIZE_PAYLOAD ->
  Z.of_nat (length rest) = l ->
  Forall is_byte (l :: rest ++ [c]) ->
  l + 2 <= len <= Z.of_nat SM130.SIZE_PACKET ->
  exists tail,
    SM130.receiveData len ((l :: rest ++ [c]) ++ extra) r
    = Ok (if SM130.checksum (l :: rest) =? c then l else byte (-1),
          SM130.set_data ((l :: rest ++ [c]) ++ tail) (SM130.gate r)).
Proof.
  intros Hr Hl Hrest Hbytes Hlen. unfold SM130.SIZE_PAYLOAD, SM130.SIZE_PACKET in *.
  unfold SM130.receiveData.
  assert (Hframe : length (l :: rest ++ [c]) = Z.to_nat (l + 2)).
  { cbn [length]. rewrite length_app. cbn [length]. lia. }
  rewrite take_app, (take_ge (l :: rest ++ [c])) by lia.
  set (more := take (Z.to_nat len - length (l :: rest ++ [c])) extra).
  assert (length more <= Z.to_nat len - Z.to_nat (l + 2))%nat as Hmore.
  { unfold more. rewrite length_take. lia. }
  assert (Hrx : length ((l :: rest ++ [c]) ++ more) = (Z.to_nat (l + 2) + length more)%nat).
  { rewrite length_app. lia. }
  rewrite Hrx.
  rewrite (byte_small (Z.of_nat _)) by (unfold is_byte; lia).
  rewrite gtb_true by lia.
  rewrite Nat2Z.id, (take_ge ((l :: rest ++ [c]) ++ more)) by lia.
  rewrite map_app, (map_byte_id (l :: rest ++ [c])) by done.
  rewrite store_all_frame.
  2:{ rewrite length_app, length_map. cbn [SM130.gate SM130.set_clock SM130.data]. lia. }
  cbn [bind SM130.gate SM130.set_clock SM130.set_data SM130.data].
  rewrite <- app_assoc.
  set (tail := map byte more ++ drop _ _).
  set (d := (l :: rest ++ [c]) ++ tail).
  assert (Hd0 : d !!! 0%nat = l) by done.
  assert (Hbody : take (Z.to_nat (l + 1)) d = l :: rest).
  { replace (Z.to_nat (l + 1)) with (length (l :: rest)) by (simpl; lia).
    unfold d. change (l :: rest ++ [c]) with ((l :: rest) ++ [c]).
    rewrite <- app_assoc. apply take_app_length. }
  assert (Hsum : d !!! Z.to_nat (l + 1) = c).
  { replace (Z.to_nat (l + 1)) with (length (l :: rest) + 0)%nat by (simpl; lia).
    unfold d. change (l :: rest ++ [c]) with ((l :: rest) ++ [c]).
    rewrite <- app_assoc. by rewrite lookup_total_app_r, Nat.add_sub' by lia. }
  rewrite Hd0, Hbody, Hsum. unfold SM130.SIZE_PAYLOAD.
  rewrite gtb_true, (proj2 (Z.leb_le _ _)) by lia. exists tail. reflexivity.
Qed.

Lemma take_tag_SM130 (s : SM130.state) (l c type : Z) (id tail : list Z) :
  length (SM130.tagNumber s) = 7%nat ->
  length (SM130.tagString s) = 15%nat ->
  (length id <= 7)%nat ->
  l = Z.of_nat (length id) + 2 ->
  SM130.data s = l :: c :: type :: id ++ tail ->
  exists s', SM130.take_tag s = Ok s'
             /\ SM130.tagLength s' = Z.of_nat (length id)
             /\ take (length id) (SM130.tagNumber s') = id
             /\ SM130.tagType s' = type
             /\ SM130.getTagString s' = hex_string id
             /\ SM130.errorCode s' = SM130.errorCode s
             /\ SM130.sent s' = SM130.sent s.
Proof.
  intros Hn Hs Hid Hl Hd. unfold SM130.take_tag, SM130.getPacketLength.
  rewrite Hd. cbn [lookup_total list_lookup_total].
  cbn [SM130.set_tagLength SM130.set_tagType SM130.set_tagNumber SM130.set_tagString
       SM130.data SM130.tagLength SM130.tagNumber SM130.tagString].
  rewrite Hd.
  assert (byte (l - 2) = Z.of_nat (length id)) as ->.
  { replace (l - 2) with (Z.of_nat (length id)) by lia.
    apply byte_small. unfold is_byte. lia. }
  rewrite Nat2Z.id.
  assert (slice (l :: c :: type :: id ++ tail) 3 (length id) = id) as ->.
  { unfold slice. cbn [drop]. apply take_app_length. }
  rewrite store_all_frame by lia. cbn [bind].
  unfold arrayToHex. rewrite arrayToHex_from_prefix by lia.
  change (arrayToHex_from id 0 (length id)) with (arrayToHex id (length id)).
  rewrite (arrayToHex_whole id).
  rewrite store_all_frame.
  2:{ rewrite length_app, hex_digits_length. simpl. lia. }
  cbn [bind]. eexists. split; [reflexivity|].
  cbn [SM130.tagLength SM130.tagNumber SM130.tagType SM130.getTagString SM130.tagString
       SM130.errorCode SM130.sent
       SM130.set_tagLength SM130.set_tagType SM130.set_tagNumber SM130.set_tagString].
  split_and!; try done.
  - apply take_app_length.
  - unfold hex_string. rewrite <- app_assoc. apply c_string_cut.
Qed.

Lemma available_record_SM130 (s : SM130.state) (c type : Z) (id extra : list Z) :
  SM130.sized s ->
  In (SM130.cmd s) [SM130.CMD_SEEK_TAG; SM130.CMD_SELECT_TAG] ->
  In c [SM130.CMD_SEEK_TAG; SM130.CMD_SELECT_TAG] ->
  (4 <= length id <= 7)%nat ->
  Forall is_byte (type :: id) ->
  let body := (Z.of_nat (length id) + 2) :: c :: type :: id in
  exists s',
    SM130.available true ((body ++ [SM130.checksum body]) ++ extra) s = Ok (true, s')
    /\ SM130.tagLength s' = Z.of_nat (length id)
    /\ take (length id) (SM130.tagNumber s') = id
    /\ SM130.tagType s' = type
    /\ SM130.getTagString s' = hex_string id
    /\ SM130.errorCode s' = 0.
Proof.
  intros (Hd & _ & Hn & Hstr) Hcmd Hc Hid Hbytes body.
  unfold SM130.available.
  rewrite andb_false_r. cbv iota.
  assert (SM130.expected_length (SM130.cmd s) = 11) as ->.
  { destruct Hcmd as [<-|[<-|[]]]; reflexivity. }
  assert (is_byte c) as Hcb.
  { unfold is_byte, SM130.CMD_SEEK_TAG, SM130.CMD_SELECT_TAG in *.
    destruct Hc as [<-|[<-|[]]]; lia. }
  destruct (receive_frame_SM130 s 11 (Z.of_nat (length id) + 2) (SM130.checksum body)
              (c :: type :: id) extra) as (tail & Hrecv);
    try done; try (unfold SM130.SIZE_PAYLOAD, SM130.SIZE_PACKET; simpl; lia).
  { apply Forall_cons. split; [unfold is_byte; lia|].
    change (Forall is_byte ((c :: type :: id) ++ [SM130.checksum body])).
    apply Forall_app. split; [by apply Forall_cons|].
    apply Forall_cons. split; [apply checksum_is_byte | constructor]. }
  change ((Z.of_nat (length id) + 2) :: (c :: type :: id) ++ [SM130.checksum body])
    with (body ++ [SM130.checksum body]) in Hrecv.
  change ((Z.of_nat (length id) + 2) :: c :: type :: id) with body in Hrecv.
  rewrite Hrecv, Z.eqb_refl. cbn [bind].
  rewrite gtb_true by lia.
  set (s1 := SM130.init_response _).
  assert (SM130.getCommand s1 = c) as -> by done.
  assert (in_cases c [SM130.CMD_RESET; SM130.CMD_VERSION] = false) as ->.
  { destruct Hc as [<-|[<-|[]]]; reflexivity. }
  assert (in_cases c [SM130.CMD_SEEK_TAG; SM130.CMD_SELECT_TAG] = true) as ->.
  { by apply in_cases_In. }
  assert (SM130.getPacketLength s1 = Z.of_nat (length id) + 2) as Hlen by done.
  assert (SM130.errorCode s1 = 0) as Herr.
  { unfold s1, SM130.init_response.
    cbn [SM130.errorCode SM130.set_errorCode].
    change (SM130.getPacketLength _) with (Z.of_nat (length id) + 2).
    by rewrite (proj2 (Z.ltb_ge _ _)) by lia. }
  rewrite Herr, Hlen, geb_true by lia. cbn [Z.eqb andb].
  destruct (take_tag_SM130 s1 (Z.of_nat (length id) + 2) c type id
              ([SM130.checksum body] ++ tail))
    as (s' & -> & Hlen' & Hnum & Htype & Hstring & Herr' & _); try done; try lia.
  - unfold s1. cbn. by rewrite length_insert.
  - unfold s1. cbn [SM130.data SM130.init_response SM130.set_errorCode SM130.set_tagType
                    SM130.set_tagLength SM130.set_tagString SM130.set_data].
    unfold body. by rewrite <- !app_assoc.
  - cbn [bind]. exists s'. split_and!; try done; congruence.
Qed.

(** Whatever the checksum byte is, the value [receiveData] returns for a
    frame of valid length passes the test [receiveData(len) > 0] of
    [available]. *)
Lemma bad_checksum_reaches_classifier
  (r : SM130.state) (len l c : Z) (rest extra : list Z) :
  length (SM130.data r) = SM130.SIZE_PACKET ->
  1 <= l <= SM130.SIZE_PAYLOAD ->
  Z.of_nat (length rest) = l ->
  Forall is_byte (l :: rest ++ [c]) ->
  l + 2 <= len <= Z.of_nat SM130.SIZE_PACKET ->
  SM130.checksum (l :: rest) <> c ->
  exists r', SM130.receiveData len ((l :: rest ++ [c]) ++ extra) r = Ok (255, r')
             /\ (255 >? 0) = true.
Proof.
  intros Hr Hl Hrest Hbytes Hlen Hsum.
  destruct (receive_frame_SM130 r len l c rest extra) as (tail & ->); try done.
  rewrite (proj2 (Z.eqb_neq _ _)) by done. eauto.
Qed.

End TagB.

Module Quiet.

Lemma receiveData_sent (len : Z) (wire : list Z) (s s' : SM130.state) (n : Z) :
  SM130.receiveData len wire s = Ok (n, s') -> SM130.sent s' = SM130.sent s.
Proof.
  unfold SM130.receiveData. destruct (_ >? 0); [|by inversion 1].
  destruct (store_all _ _ _ _); cbn [bind]; [|done].
  destruct (_ && _); by inversion 1.
Qed.

Lemma take_version_sent (s s' : SM130.state) :
  SM130.take_version s = Ok s' -> SM130.sent s' = SM130.sent s.
Proof.
  unfold SM130.take_version. destruct (store_all _ _ _ _); cbn [bind]; [|done].
  destruct (store _ _ _ _); cbn [bind]; by inversion 1.
Qed.

Lemma take_tag_sent (s s' : SM130.state) :
  SM130.take_tag s = Ok s' -> SM130.sent s' = SM130.sent s.
Proof.
  unfold SM130.take_tag. destruct (store_all _ _ _ _); cbn [bind]; [|done].
  destruct (arrayToHex _ _); [|done].
  destruct (store_all _ _ _ _); cbn [bind]; by inversion 1.
Qed.

(** [SM130::available] never writes to the bus. *)
Lemma available_sent (dready : bool) (wire : list Z) (s s' : SM130.state) (b : bool) :
  SM130.available dready wire s = Ok (b, s') -> SM130.sent s' = SM130.sent s.
Proof.
  unfold SM130.available. destruct (_ && _); [by inversion 1|].
  destruct (SM130.receiveData _ _ _) as [[n s1]|] eqn:Hr; cbn [bind]; [|done].
  apply receiveData_sent in Hr.
  destruct (_ >? 0); [|inversion 1; by subst].
  set (s2 := SM130.init_response s1).
  assert (SM130.sent s2 = SM130.sent s) as H2 by done.
  destruct (in_cases _ _).
  { destruct (SM130.take_version s2) eqn:Hv; cbn [bind]; [|done].
    apply take_version_sent in Hv. inversion 1; subst. congruence. }
  destruct (in_cases _ _).
  { destruct (_ && _); [|inversion 1; by subst].
    destruct (SM130.take_tag s2) eqn:Ht; cbn [bind]; [|done].
    apply take_tag_sent in Ht. inversion 1; subst. congruence. }
  destruct (in_cases _ _); [inversion 1; by subst|].
  destruct (in_cases _ _); inversion 1; by subst.
Qed.

End Quiet.

(** C3, counterexample.  Variant B has no such continuation: in seek
    mode the response [02 82 4C D0] (status ['L'], seek in progress) makes
    [available] return [true] with error code ['L'], and nothing is
    sent ([Quiet.available_sent]: [SM130::available] never transmits). *)
Lemma seek_in_progress_is_reported :
  let s := SM130.seekTag (SM130.init 0) in
  SM130.cmd s = SM130.CMD_SEEK_TAG
  /\ exists s', SM130.available true [2; 0x82; 0x4C; 0xD0] s = Ok (true, s')
                /\ SM130.errorCode s' = 0x4C
                /\ SM130.sent s' = SM130.sent s.
Proof.
  cbv zeta. split; [reflexivity|]. eexists.
  split; [vm_compute; reflexivity|]. split; vm_compute; reflexivity.
Qed.

(** C6, counterexample.  A record whose length byte is 8 does not give
    the four-byte tag number AABBCCDD with tag type 1: the bytes
    [08 00 01 AA BB CC DD] read by Variant A carry status 1 and leave the
    tag fields empty; laid out as Variant A expects, a length byte of 8
    means five id bytes; laid out as Variant B expects, six. *)
Lemma record_with_length_byte_8 :
  (exists s', SL018.available [8; 0; 1; 0xAA; 0xBB; 0xCC; 0xDD]
                              (SL018.selectTag (SL018.init 0)) = Ok (true, s')
              /\ SL018.errorCode s' = 1
              /\ SL018.tagType s' = 0
              /\ SL018.getTagString s' = ""%string)
  /\ (exists s', SL018.available [8; 1; 0; 0xAA; 0xBB; 0xCC; 0xDD; 1]
                                 (SL018.selectTag (SL018.init 0)) = Ok (true, s')
                 /\ SL018.tagLength s' = 5
                 /\ SL018.tagType s' = 255
                 /\ SL018.getTagString s' = "AABBCCDD01"%string)
  /\ (exists s', SM130.available true [8; 0x83; 1; 0xAA; 0xBB; 0xCC; 0xDD; 0; 0; 0x9a]
                                 (SM130.selectTag (SM130.init 0)) = Ok (true, s')
                 /\ SM130.tagLength s' = 6
                 /\ SM130.tagType s' = 1
                 /\ SM130.getTagString s' = "AABBCCDD0000"%string).
Proof.
  split; [|split]; eexists; (split; [vm_compute; reflexivity|]);
    split_and!; vm_compute; reflexivity.
Qed.

(** C6, amended.  After seek or select, a response with success status
    that carries a tag number of 4 to 7 bytes makes [available] return
    [true] with [tagLength] equal to the length byte minus 3 (Variant A)
    or minus 2 (Variant B), [tagNumber] holding the id bytes, [tagType]
    the type byte and [tagString] the hexadecimal rendering of the id.
    The records are [len, cmd, 0, id.., type] for Variant A and
    [len, cmd, type, id.., checksum] for Variant B; the witness below is
    the tag AABBCCDD of type 1, with length bytes 7 and 6. *)
Theorem tag_record_is_classified :
  (forall (s : SL018.state) (c type : Z) (id rest : list Z),
      SL018.sized s ->
      In (SL018.cmd s) [SL018.CMD_SEEK; SL018.CMD_SELECT] ->
      (4 <= length id <= 7)%nat ->
      Forall is_byte (c :: type :: id) ->
      exists s',
        SL018.available ((Z.of_nat (length id) + 3) :: c :: 0 :: id ++ type :: rest) s
        = Ok (true, s')
        /\ SL018.tagLength s' = Z.of_nat (length id)
        /\ take (length id) (SL018.tagNumber s') = id
        /\ SL018.tagType s' = type
        /\ SL018.getTagString s' = hex_string id
        /\ SL018.errorCode s' = 0)
  /\ (forall (s : SM130.state) (c type : Z) (id extra : list Z),
         SM130.sized s ->
         In (SM130.cmd s) [SM130.CMD_SEEK_TAG; SM130.CMD_SELECT_TAG] ->
         In c [SM130.CMD_SEEK_TAG; SM130.CMD_SELECT_TAG] ->
         (4 <= length id <= 7)%nat ->
         Forall is_byte (type :: id) ->
         let body := (Z.of_nat (length id) + 2) :: c :: type :: id in
         exists s',
           SM130.available true ((body ++ [SM130.checksum body]) ++ extra) s
           = Ok (true, s')
           /\ SM130.tagLength s' = Z.of_nat (length id)
           /\ take (length id) (SM130.tagNumber s') = id
           /\ SM130.tagType s' = type
           /\ SM130.getTagString s' = hex_string id
           /\ SM130.errorCode s' = 0).
Proof.
  split.
  - intros s c type id rest. apply TagA.available_record_SL018.
  - intros s c type id extra. apply TagB.available_record_SM130.
Qed.

Lemma tag_record_is_classified_witness :
  (exists s',
      SL018.available [7; 0x01; 0; 0xAA; 0xBB; 0xCC; 0xDD; 1]
                      (SL018.seekTag (SL018.init 0)) = Ok (true, s')
      /\ SL018.tagLength s' = 4
      /\ take 4 (SL018.tagNumber s') = [0xAA; 0xBB; 0xCC; 0xDD]
      /\ SL018.tagType s' = 1
      /\ SL018.getTagString s' = "AABBCCDD"%string
      /\ SL018.errorCode s' = 0)
  /\ (exists s',
         SM130.available true [6; 0x82; 1; 0xAA; 0xBB; 0xCC; 0xDD; 0x97]
                         (SM130.seekTag (SM130.init 0)) = Ok (true, s')
         /\ SM130.tagLength s' = 4
         /\ take 4 (SM130.tagNumber s') = [0xAA; 0xBB; 0xCC; 0xDD]
         /\ SM130.tagType s' = 1
         /\ SM130.getTagString s' = "AABBCCDD"%string
         /\ SM130.errorCode s' = 0).
Proof.
  split.
  - apply (proj1 tag_record_is_classified (SL018.seekTag (SL018.init 0)) 0x01 1
             [0xAA; 0xBB; 0xCC; 0xDD] []).
    + repeat split.
    + simpl. auto.
    + simpl. lia.
    + repeat (apply Forall_cons_2; [unfold is_byte; lia|]). apply Forall_nil_2.
  - apply (proj2 tag_record_is_classified (SM130.seekTag (SM130.init 0)) 0x82 1
             [0xAA; 0xBB; 0xCC; 0xDD] []).
    + repeat split.
    + simpl. auto.
    + simpl. auto.
    + simpl. lia.
    + repeat (apply Forall_cons_2; [unfold is_byte; lia|]). apply Forall_nil_2.
Defined.

(** ** Halt and reset *)

(** C8, counterexample.  Once a tag has been read, [haltTag] (and
    [reset]) leave its number, length, type and string in place, in both
    drivers. *)
Lemma halt_keeps_the_tag :
  (exists s, SL018.available [7; 0x01; 0; 0xAA; 0xBB; 0xCC; 0xDD; 1]
                             (SL018.seekTag (SL018.init 0)) = Ok (true, s)
             /\ SL018.getTagString (SL018.haltTag s) = "AABBCCDD"%string
             /\ SL018.tagLength (SL018.haltTag s) = 4
             /\ SL018.tagType (SL018.haltTag s) = 1
             /\ SL018.getTagString (SL018.reset s) = "AABBCCDD"%string)
  /\ (exists s, SM130.available true [6; 0x82; 1; 0xAA; 0xBB; 0xCC; 0xDD; 0x97]
                                (SM130.seekTag (SM130.init 0)) = Ok (true, s)
                /\ SM130.getTagString (SM130.haltTag s) = "AABBCCDD"%string
                /\ SM130.tagLength (SM130.haltTag s) = 4
                /\ SM130.tagType (SM130.haltTag s) = 1
                /\ SM130.getTagString (SM130.reset s) = "AABBCCDD"%string).
Proof.
  split; eexists; (split; [vm_compute; reflexivity|]); split_and!; vm_compute; reflexivity.
Qed.

(** C8, amended.  Variant A's [haltTag] only records [CMD_IDLE] as the
    last command: it is idempotent, sends nothing, and [available]
    afterwards reports no data without a bus request.  Variant B's
    [haltTag] sends the frame [01 93 94] and records [CMD_HALT_TAG];
    a second halt sends the same frame and leaves [cmd] and [data] as
    they are.  Neither halt nor reset touches the tag members, and
    neither class has a member that records authentication. *)
Theorem halt_is_idempotent :
  (forall s : SL018.state,
      SL018.haltTag (SL018.haltTag s) = SL018.haltTag s
      /\ SL018.cmd (SL018.haltTag s) = SL018.CMD_IDLE
      /\ SL018.sent (SL018.haltTag s) = SL018.sent s
      /\ tag_members_SL018 (SL018.haltTag s) = tag_members_SL018 s
      /\ tag_members_SL018 (SL018.reset s) = tag_members_SL018 s
      /\ (forall wire : list Z,
             SL018.available wire (SL018.haltTag s) = Ok (false, SL018.haltTag s)))
  /\ (forall s : SM130.state,
         length (SM130.data s) = SM130.SIZE_PACKET ->
         let s1 := SM130.haltTag s in
         let s2 := SM130.haltTag s1 in
         SM130.cmd s1 = SM130.CMD_HALT_TAG
         /\ SM130.sent s1 = SM130.sent s ++ [[1; SM130.CMD_HALT_TAG; 0x94]]
         /\ SM130.cmd s2 = SM130.cmd s1
         /\ SM130.data s2 = SM130.data s1
         /\ SM130.sent s2 = SM130.sent s1 ++ [[1; SM130.CMD_HALT_TAG; 0x94]]
         /\ tag_members_SM130 s2 = tag_members_SM130 s
         /\ tag_members_SM130 s1 = tag_members_SM130 s
         /\ tag_members_SM130 (SM130.reset s) = tag_members_SM130 s
         /\ SM130.cmd (SM130.reset s) = SM130.CMD_HALT_TAG).
Proof.
  split.
  - intros s. split_and!; try reflexivity.
    unfold SL018.reset. by destruct (_ =? _).
  - intros s Hs s1 s2. unfold SM130.SIZE_PACKET in Hs.
    destruct s as [d ? ? ? ? ? ? ? ? ? ? ? ? out]. cbn [SM130.data] in Hs.
    explode d Hs. subst s1 s2.
    split_and!; try reflexivity.
    + unfold SM130.reset. cbn [SM130.pinRESET]. by destruct (_ =? _).
    + unfold SM130.reset. cbn [SM130.pinRESET]. by destruct (_ =? _).
Qed.

Lemma halt_is_idempotent_witness :
  SM130.sent (SM130.haltTag (SM130.init 0)) = [[1; 0x93; 0x94]]
  /\ SM130.cmd (SM130.haltTag (SM130.haltTag (SM130.init 0))) = 0x93.
Proof.
  pose proof (proj2 halt_is_idempotent (SM130.init 0) eq_refl) as H.
  cbv zeta in H. destruct H as (H1 & H2 & H3 & _).
  split; [exact H2 | by rewrite H3, H1].
Defined.

(** ** The transport gate *)

Lemma spin_S (fuel : nat) (t now : Z) :
  spin (S fuel) t now
  = if t >? now then spin fuel t (ulong (now + 1)) else Some now.
Proof. reflexivity. Qed.

Lemma spin_leaves (t now : Z) :
  0 <= now < 2 ^ 32 -> 0 <= t < 2 ^ 32 ->
  spin (S (Z.to_nat (t - now))) t now = Some (gate_leave t now).
Proof.
  intros Hnow Ht. unfold gate_leave.
  remember (Z.to_nat (t - now)) as k eqn:Hk. revert now Hnow Hk.
  induction k as [|k IH]; intros now Hnow Hk; rewrite spin_S.
  - rewrite gtb_false by lia. f_equal. lia.
  - rewrite gtb_true by lia.
    assert (ulong (now + 1) = now + 1) as -> by (apply Z.mod_small; lia).
    rewrite IH by lia. f_equal. lia.
Qed.

(** While the counter stays clear of its wrap-around the gate does what
    the comment in the source says. *)
Lemma gate_separates (t now d : Z) :
  0 <= now -> t <= now + 20 -> 0 <= d ->
  gate_leave t now + d + 20 < 2 ^ 32 ->
  let leave1 := gate_leave t now in
  let leave2 := gate_leave (gate_deadline t now) (leave1 + d) in
  leave1 - now <= 20
  /\ leave1 + 20 <= leave2
  /\ leave2 - (leave1 + d) <= 20.
Proof.
  intros Hnow Ht Hd Hwrap leave1 leave2. subst leave1 leave2.
  unfold gate_deadline, gate_leave, ulong in *.
  change (2 ^ 32) with 4294967296 in *.
  rewrite (Z.mod_small (Z.max t now + 20)) by lia. lia.
Qed.

(** C9.  The deadline is [millis() + 20] in 32-bit arithmetic and is
    compared with [t > millis()].  When [millis()] reads [2^32 - 10] at
    a transmission, the stored deadline wraps to 10; the loop of the
    next transaction, one millisecond later, is left at its first test
    and the bus is used again after 1 ms instead of 20.  When the
    deadline is [2^32 - 1] and the counter has wrapped to 0, the wait
    lasts [2^32 - 1] ms.  ([gate_separates]: away from the wrap-around
    consecutive transactions are at least 20 ms apart and no wait
    exceeds 20 ms.  [spin_leaves]: the loop ends at [gate_leave].) *)
Theorem gate_opens_early_at_wrap :
  let s0 := SL018.delay 4294967286 (SL018.init 0) in
  let s1 := SL018.readBlock 4 s0 in
  let s2 := SL018.delay 1 s1 in
  let r0 := SL018.delay 4294967275 (SL018.init 0) in
  let r1 := SL018.readBlock 4 r0 in
  let r2 := SL018.delay 21 r1 in
  (SL018.millis s0 = 2 ^ 32 - 10
   /\ SL018.millis s1 = 2 ^ 32 - 10
   /\ SL018.t s1 = 10
   /\ spin 1 (SL018.t s2) (SL018.millis s2) = Some (SL018.millis s2)
   /\ exists s3, SL018.available [18] s2 = Ok (true, s3)
                 /\ SL018.millis s3 = SL018.millis s1 + 1)
  /\ (SL018.t r1 = 2 ^ 32 - 1
      /\ SL018.millis r2 = 0
      /\ SL018.millis (SL018.gate r2) - SL018.millis r2 = 2 ^ 32 - 1).
Proof.
  cbv zeta. split; split_and!; try (vm_compute; reflexivity).
  eexists. split; vm_compute; reflexivity.
Qed.

(** ** Debug output *)

Module Dump.

Lemma toHex_digit (b : Z) : toHex b = core_digit (b mod 16).
Proof.
  unfold toHex, core_digit. change 15 with (Z.ones 4).
  rewrite Z.land_ones by lia. reflexivity.
Qed.

Lemma printHex_pair (b : Z) : is_byte b -> printHex b = hex_pair b.
Proof.
  unfold is_byte, printHex, Serial_print_HEX, hex_pair. intros Hb.
  rewrite !toHex_digit, Z.shiftr_div_pow2 by lia. change (2 ^ 4) with 16.
  destruct (b <? 16) eqn:E.
  - apply Z.ltb_lt in E. rewrite (Z.div_small b 16) by lia. reflexivity.
  - apply Z.ltb_ge in E.
    assert (b / 16 <> 0) as Hq.
    { intros H0. apply Z.div_small_iff in H0; lia. }
    rewrite (proj2 (Z.eqb_neq _ _) Hq). reflexivity.
Qed.

Lemma hex_pair_not_space (b : Z) : List.filter not_space (hex_pair b) = hex_pair b.
Proof.
  unfold hex_pair.
  pose proof (toHex_upper (Z.shiftr b 4)) as H1. pose proof (toHex_upper b) as H2.
  unfold is_upper_hex in *. cbn [List.filter]. unfold not_space.
  rewrite !(proj2 (Z.eqb_neq _ 32)) by lia. reflexivity.
Qed.

Lemma printArrayHex_from_app (pre array : list Z) :
  Forall is_byte array ->
  exists out,
    printArrayHex_from (pre ++ array) (length pre) (length array) = Some out
    /\ List.filter not_space out = flat_map hex_pair array
    /\ length out = (3 * length array - 1)%nat.
Proof.
  intros Hb. revert pre. induction Hb as [|b array Hbyte _ IH]; intros pre.
  - exists []. done.
  - cbn [length printArrayHex_from].
    rewrite lookup_app_r, Nat.sub_diag by lia. cbn [lookup list_lookup].
    destruct (IH (pre ++ [b])) as (out & Hout & Hfilter & Hlen).
    rewrite <- app_assoc, length_app in Hout. cbn [length app] in Hout.
    rewrite Nat.add_1_r in Hout. rewrite Hout.
    rewrite printHex_pair by done.
    eexists. split; [reflexivity|]. split.
    + rewrite !List.filter_app, hex_pair_not_space, Hfilter.
      destruct (0 <? length array)%nat; reflexivity.
    + rewrite !length_app, Hlen. cbn [hex_pair length flat_map app].
      destruct array as [|b' array]; cbn [length Nat.ltb Nat.leb]; lia.
Qed.

Lemma printAscii_printable (b : Z) : is_printable (printAscii b).
Proof.
  unfold printAscii, is_printable.
  destruct (to_char b <? 32) eqn:E1; cbn [orb]; [lia|].
  destruct (to_char b >? 126) eqn:E2; [lia|].
  apply Z.ltb_ge in E1. rewrite Z.gtb_ltb in E2. apply Z.ltb_ge in E2. lia.
Qed.

Lemma printAscii_keeps (b : Z) : is_printable b -> printAscii b = b.
Proof.
  unfold printAscii, is_printable, to_char, byte. intros Hb.
  rewrite Z.mod_small by lia.
  replace (b <? 128) with true by lia.
  replace (b <? 32) with false by lia. cbn [orb].
  by rewrite gtb_false by lia.
Qed.

Lemma printArrayAscii_from_app (pre array : list Z) :
  printArrayAscii_from (pre ++ array) (length pre) (length array)
  = Some (map printAscii array).
Proof.
  revert pre. induction array as [|b array IH]; intros pre; [done|].
  cbn [length printArrayAscii_from].
  rewrite lookup_app_r, Nat.sub_diag by lia. cbn [lookup list_lookup].
  specialize (IH (pre ++ [b])).
  rewrite <- app_assoc, length_app in IH. cbn [length app] in IH.
  rewrite Nat.add_1_r in IH. by rewrite IH.
Qed.

End Dump.

(** X1.  The hexadecimal dump of the debug output and the tag string are
    the same rendering: for an array of bytes [printArrayHex] prints two
    characters per byte with one space between neighbours and none at
    the end ([3 * len - 1] characters), and with the spaces taken out
    and the terminator added it is what [arrayToHex] writes. *)
Theorem printArrayHex_agrees_with_arrayToHex (array : list Z) :
  Forall is_byte array ->
  exists out,
    printArrayHex array (length array) = Some out
    /\ length out = (3 * length array - 1)%nat
    /\ arrayToHex array (length array) = Some (List.filter not_space out ++ [0]).
Proof.
  intros Hb. destruct (Dump.printArrayHex_from_app [] array Hb) as (out & H1 & H2 & H3).
  exists out. split; [exact H1|]. split; [exact H3|].
  rewrite H2. apply arrayToHex_whole.
Qed.

Lemma printArrayHex_agrees_with_arrayToHex_witness :
  exists out,
    printArrayHex [0x04; 0xA1; 0x22; 0x5C] 4 = Some out
    /\ length out = 11%nat
    /\ arrayToHex [0x04; 0xA1; 0x22; 0x5C] 4 = Some (List.filter not_space out ++ [0]).
Proof.
  apply (printArrayHex_agrees_with_arrayToHex [0x04; 0xA1; 0x22; 0x5C]).
  repeat (apply Forall_cons_2; [unfold is_byte; lia|]). apply Forall_nil_2.
Defined.

(** X2.  [printArrayAscii] prints one character per byte, every one of
    them printable ASCII (0x20..0x7e): a printable byte is printed as
    it is, and every other byte, also one of 0x80 or more, which a
    [char] holds as a negative number, as a dot. *)
Theorem printArrayAscii_is_printable (array : list Z) :
  exists out,
    printArrayAscii array (length array) = Some out
    /\ length out = length array
    /\ Forall is_printable out
    /\ (forall (i : nat) (b : Z),
           array !! i = Some b ->
           out !! i = Some (if (0x20 <=? byte b) && (byte b <=? 0x7e) then byte b else 46)).
Proof.
  exists (map printAscii array). split; [apply (Dump.printArrayAscii_from_app [] array)|].
  split; [apply length_map|]. split.
  - apply Forall_forall. intros c Hc. apply list_elem_of_In in Hc.
    apply in_map_iff in Hc as (b & <- & _). apply Dump.printAscii_printable.
  - intros i b Hi. rewrite list_lookup_fmap, Hi. cbn. f_equal.
    unfold printAscii, to_char.
    pose proof (Z.mod_pos_bound b 256 ltac:(lia)) as Hb. fold (byte b) in Hb.
    destruct (byte b <? 128) eqn:E.
    + apply Z.ltb_lt in E.
      destruct (32 <=? byte b) eqn:E1; destruct (byte b <=? 126) eqn:E2; cbn [andb].
      * replace (byte b <? 32) with false by lia. cbn [orb].
        by rewrite gtb_false by lia.
      * replace (byte b <? 32) with false by lia. cbn [orb].
        by rewrite gtb_true by lia.
      * by replace (byte b <? 32) with true by lia.
      * by replace (byte b <? 32) with true by lia.
    + apply Z.ltb_ge in E.
      replace (byte b - 256 <? 32) with true by lia. cbn [orb].
      replace (byte b <=? 126) with false by lia. by rewrite andb_false_r.
Qed.

(** ** Error messages *)

(** X3.  [SM130::getErrorMessage] answers "OK" exactly for error code 0
    and for ['L'] after a command other than seek (the [case 'L'] runs
    on into [case 0]); "Seek in progress" exactly for ['L'] after seek.
    So for every response the demo sketch treats as an error (a code
    other than 0 and ['L']) the message is neither of the two. *)
Theorem getErrorMessage_OK_SM130 (s : SM130.state) :
  (SM130.getErrorMessage s = "OK"%string
   <-> SM130.errorCode s = 0
       \/ (SM130.errorCode s = 76 /\ SM130.getCommand s <> SM130.CMD_SEEK_TAG))
  /\ (SM130.getErrorMessage s = "Seek in progress"%string
      <-> SM130.errorCode s = 76 /\ SM130.getCommand s = SM130.CMD_SEEK_TAG).
Proof.
  unfold SM130.getErrorMessage, in_cases. cbn [existsb].
  set (e := SM130.errorCode s). set (c := SM130.getCommand s).
  assert (forall m : string, m <> "OK"%string -> m <> "Seek in progress"%string ->
            e <> 0 -> e <> 76 ->
            (m = "OK"%string <-> e = 0 \/ e = 76 /\ c <> SM130.CMD_SEEK_TAG)
            /\ (m = "Seek in progress"%string <-> e = 76 /\ c = SM130.CMD_SEEK_TAG))
    as Hm.
  { intros m H1 H2 H3 H4. split; split; intros H; try done; exfalso; lia. }
  destruct (Z.eqb_spec e 76) as [He|He]; cbn [andb orb].
  - destruct (Z.eqb_spec c SM130.CMD_SEEK_TAG) as [Hc|Hc];
      split; split; intros H;
      first [ done | discriminate | tauto
            | destruct H as [H|[_ H]]; [lia | done]
            | destruct H as [_ H]; done ].
  - destruct (Z.eqb_spec e 0) as [H0|H0]; cbn [orb].
    + split; split; intros H;
        first [ done | discriminate | tauto | destruct H as [H _]; done ].
    + repeat match goal with
             | |- context [if ?b then _ else _] => destruct b
             end; apply Hm; done || discriminate.
Qed.

(** X4.  [SL018::getErrorMessage] answers "OK" for error code 0 only and
    "Unknown error" exactly for the codes that have no [case] label. *)
Theorem getErrorMessage_OK_SL018 (s : SL018.state) :
  (SL018.getErrorMessage s = "OK"%string <-> SL018.errorCode s = 0)
  /\ (SL018.getErrorMessage s = "Unknown error"%string
      <-> ~ In (SL018.errorCode s) [0; 1; 2; 3; 0x10; 4; 5; 6; 0x0A; 0x0C; 0x0D; 0x0E]).
Proof.
  unfold SL018.getErrorMessage. set (e := SL018.errorCode s).
  destruct (in_cases e [0; 1; 2; 3; 0x10; 4; 5; 6; 0x0A; 0x0C; 0x0D; 0x0E]) eqn:E.
  - apply in_cases_In in E. assert (Hin := E). cbn [In] in E.
    repeat (destruct E as [<-|E];
            [cbn; split; split; try done; try (intros H; exfalso; apply H; exact Hin)
            |]).
    destruct E.
  - assert (Hnot := E). apply in_cases_not_In in Hnot.
    unfold in_cases in E. cbn [existsb] in E.
    repeat (apply orb_false_elim in E as [? E]).
    unfold in_cases. cbn [existsb].
    repeat match goal with H : (e =? _) = false |- _ => rewrite H; clear H end.
    cbn [orb]. split; split; try done.
    intros ->. exfalso. apply Hnot. cbn. auto.
Qed.

(** ** The firmware version of the SM130 *)

Module Version.

Lemma sendCommand_version (s : SM130.state) :
  length (SM130.data s) = SM130.SIZE_PACKET ->
  let s1 := SM130.sendCommand SM130.CMD_VERSION s in
  SM130.sent s1 = SM130.sent s ++ [version_frame]
  /\ length (SM130.data s1) = SM130.SIZE_PACKET
  /\ SM130.cmd s1 = SM130.CMD_VERSION
  /\ SM130.versionString s1 = SM130.versionString s
  /\ SM130.tagNumber s1 = SM130.tagNumber s
  /\ SM130.tagString s1 = SM130.tagString s
  /\ SM130.millis s1 = gate_leave (SM130.t s) (SM130.millis s)
  /\ SM130.t s1 = gate_deadline (SM130.t s) (SM130.millis s).
Proof.
  destruct s as [d ? ? ? ? ? ? ? ? ? ? ? ? out]. cbn [SM130.data].
  unfold SM130.SIZE_PACKET. intros Hd. explode d Hd. cbv zeta.
  split_and!; reflexivity.
Qed.

(** A poll that finds the receive buffer empty. *)
Lemma available_silent (dready : bool) (s : SM130.state) :
  SM130.cmd s = SM130.CMD_VERSION ->
  SM130.available dready [] s = Ok (false, SM130.gate s).
Proof.
  intros Hc. unfold SM130.available. rewrite Hc.
  change (SM130.CMD_VERSION =? SM130.CMD_SEEK_TAG) with false. cbn [andb].
  unfold SM130.receiveData. rewrite take_nil. reflexivity.
Qed.

(** [TagB.receive_frame_SM130] with the size of the resulting array. *)
Lemma receive_frame_sized (r : SM130.state) (len l c : Z) (rest extra : list Z) :
  length (SM130.data r) = SM130.SIZE_PACKET ->
  1 <= l <= SM130.SIZE_PAYLOAD ->
  Z.of_nat (length rest) = l ->
  Forall is_byte (l :: rest ++ [c]) ->
  l + 2 <= len <= Z.of_nat SM130.SIZE_PACKET ->
  exists tail,
    SM130.receiveData len ((l :: rest ++ [c]) ++ extra) r
    = Ok (if SM130.checksum (l :: rest) =? c then l else byte (-1),
          SM130.set_data ((l :: rest ++ [c]) ++ tail) (SM130.gate r))
    /\ length ((l :: rest ++ [c]) ++ tail) = SM130.SIZE_PACKET.
Proof.
  intros Hr Hl Hrest Hbytes Hlen.
  destruct (TagB.receive_frame_SM130 r len l c rest extra) as (tail & Hrecv); try done.
  destruct (Bounds.SM130_in_bounds len ((l :: rest ++ [c]) ++ extra) r Hr
              ltac:(lia)) as (n0 & s0 & Heq & Hl0).
  exists tail. split; [exact Hrecv|].
  rewrite Hrecv in Heq. inversion Heq; subst. exact Hl0.
Qed.

(** The response [len, cmd, payload.., checksum] to a version or reset
    command. *)
Lemma available_version (dready : bool) (s : SM130.state) (c : Z)
  (payload extra : list Z) :
  SM130.sized s ->
  In (SM130.cmd s) [SM130.CMD_VERSION; SM130.CMD_RESET] ->
  In c [SM130.CMD_VERSION; SM130.CMD_RESET] ->
  (length payload <= 17)%nat ->
  Forall is_byte payload ->
  let n := Nat.min (length payload) 7 in
  exists s',
    SM130.available dready (version_response c payload ++ extra) s = Ok (true, s')
    /\ SM130.versionString s'
       = <[n := 0]> (take n payload ++ drop n (SM130.versionString s))
    /\ SM130.getCommand s' = c
    /\ SM130.sent s' = SM130.sent s
    /\ SM130.sized s'
    /\ SM130.millis s' = gate_leave (SM130.t s) (SM130.millis s)
    /\ SM130.t s' = gate_deadline (SM130.t s) (SM130.millis s).
Proof.
  intros (Hd & Hv & Hn & Hstr) Hcmd Hc Hlen Hbytes n.
  unfold version_response.
  set (body := (Z.of_nat (length payload) + 1) :: c :: payload).
  unfold SM130.available.
  assert ((SM130.cmd s =? SM130.CMD_SEEK_TAG) = false) as ->.
  { destruct Hcmd as [<-|[<-|[]]]; reflexivity. }
  cbn [andb].
  assert (SM130.expected_length (SM130.cmd s) = 20) as ->.
  { destruct Hcmd as [<-|[<-|[]]]; reflexivity. }
  assert (is_byte c) as Hcb.
  { unfold is_byte, SM130.CMD_VERSION, SM130.CMD_RESET in *.
    destruct Hc as [<-|[<-|[]]]; lia. }
  destruct (receive_frame_sized s 20 (Z.of_nat (length payload) + 1)
              (SM130.checksum body) (c :: payload) extra) as (tail & Hrecv & Hsize);
    try done; try (unfold SM130.SIZE_PAYLOAD, SM130.SIZE_PACKET; simpl; lia).
  { apply Forall_cons. split; [unfold is_byte; lia|].
    change (Forall is_byte ((c :: payload) ++ [SM130.checksum body])).
    apply Forall_app. split; [by apply Forall_cons|].
    apply Forall_cons. split; [apply checksum_is_byte | constructor]. }
  change ((Z.of_nat (length payload) + 1) :: (c :: payload) ++ [SM130.checksum body])
    with (body ++ [SM130.checksum body]) in Hrecv, Hsize.
  change ((Z.of_nat (length payload) + 1) :: c :: payload) with body in Hrecv.
  rewrite Hrecv, Z.eqb_refl. cbn [bind].
  rewrite gtb_true by lia.
  set (s1 := SM130.init_response _).
  assert (SM130.getCommand s1 = c) as -> by done.
  assert (in_cases c [SM130.CMD_RESET; SM130.CMD_VERSION] = true) as ->.
  { apply in_cases_In. cbn in *. tauto. }
  unfold SM130.take_version.
  assert (SM130.getPacketLength s1 = Z.of_nat (length payload) + 1) as -> by done.
  assert (Z.to_nat (byte (Z.min (Z.of_nat (length payload) + 1) 8 - 1)) = n) as ->.
  { rewrite byte_small by (unfold is_byte; lia). unfold n. lia. }
  assert (SM130.data s1 = ((Z.of_nat (length payload) + 1) :: c :: payload)
                            ++ [SM130.checksum body] ++ tail) as Hdata.
  { unfold s1, body. cbn [SM130.data SM130.init_response SM130.set_errorCode
      SM130.set_tagType SM130.set_tagLength SM130.set_tagString SM130.set_data].
    by rewrite <- app_assoc. }
  assert (slice (SM130.data s1) 2 n = take n payload) as ->.
  { rewrite Hdata. unfold slice.
    change (drop 2 (((Z.of_nat (length payload) + 1) :: c :: payload)
                      ++ [SM130.checksum body] ++ tail))
      with (payload ++ [SM130.checksum body] ++ tail).
    apply take_app_le. unfold n. lia. }
  assert (length (take n payload) = n) as Htake.
  { rewrite length_take. unfold n. lia. }
  change (SM130.versionString s1) with (SM130.versionString s).
  rewrite store_all_frame by (rewrite Htake, Hv; unfold n; lia).
  cbn [bind]. rewrite Htake. unfold store.
  rewrite decide_True.
  2:{ rewrite length_app, Htake, length_drop, Hv. unfold n. lia. }
  cbn [bind]. eexists. split; [reflexivity|].
  split_and!; try reflexivity.
  unfold SM130.sized.
  cbn [SM130.data SM130.versionString SM130.tagNumber SM130.tagString
       SM130.set_versionString].
  split_and!.
  - rewrite Hdata, app_assoc. exact Hsize.
  - rewrite length_insert, length_app, Htake, length_drop, Hv. unfold n. lia.
  - exact Hn.
  - unfold s1. cbn. by rewrite length_insert.
Qed.


Lemma silent_hd_tl (wires : list (list Z)) :
  silent wires -> hd [] wires = [] /\ silent (tl wires).
Proof.
  unfold silent. destruct 1 as [|w wires Hw Hrest]; cbn; [by split|]. by split.
Qed.

Lemma version_attempt_sized (s : SM130.state) :
  SM130.sized s -> SM130.sized (version_attempt s).
Proof.
  intros (Hd & Hv & Hn & Hs).
  destruct (sendCommand_version s Hd) as (_ & Hd1 & _ & Hv1 & Hn1 & Hs1 & _).
  unfold SM130.sized, version_attempt.
  cbn [SM130.delay SM130.gate SM130.set_clock SM130.data SM130.versionString
       SM130.tagNumber SM130.tagString].
  rewrite Hv1, Hn1, Hs1. done.
Qed.

Lemma version_attempts_sized (k : nat) (s : SM130.state) :
  SM130.sized s -> SM130.sized (Nat.iter k version_attempt s).
Proof.
  intros Hs. induction k as [|k IH]; [done|].
  rewrite Nat.iter_succ. by apply version_attempt_sized.
Qed.

Lemma version_attempt_sent (s : SM130.state) :
  length (SM130.data s) = SM130.SIZE_PACKET ->
  SM130.sent (version_attempt s) = SM130.sent s ++ [version_frame]
  /\ SM130.versionString (version_attempt s) = SM130.versionString s.
Proof.
  intros Hd. destruct (sendCommand_version s Hd) as (Hsent & _ & _ & Hv & _).
  split; [exact Hsent | exact Hv].
Qed.

Lemma version_attempts_sent (k : nat) (s : SM130.state) :
  SM130.sized s ->
  SM130.sent (Nat.iter k version_attempt s) = SM130.sent s ++ repeat version_frame k
  /\ SM130.versionString (Nat.iter k version_attempt s) = SM130.versionString s.
Proof.
  intros Hs. induction k as [|k [IH1 IH2]].
  - cbn. by rewrite app_nil_r.
  - rewrite Nat.iter_succ. pose proof (version_attempts_sized k s Hs) as (Hd & _).
    destruct (version_attempt_sent _ Hd) as [H1 H2].
    rewrite H1, H2, IH1, IH2. split; [|done].
    rewrite <- app_assoc. f_equal.
    cbn [repeat]. by rewrite repeat_cons.
Qed.

(** Away from the wrap-around of [millis()] an unanswered attempt ends
    120 ms after the moment its command left the gate. *)
Lemma version_attempt_clock (s : SM130.state) :
  length (SM130.data s) = SM130.SIZE_PACKET ->
  0 <= gate_leave (SM130.t s) (SM130.millis s) ->
  gate_leave (SM130.t s) (SM130.millis s) + 120 < 2 ^ 32 ->
  SM130.millis (version_attempt s) = gate_leave (SM130.t s) (SM130.millis s) + 120
  /\ SM130.t (version_attempt s) <= SM130.millis (version_attempt s).
Proof.
  intros Hd H0 Hw.
  destruct (sendCommand_version s Hd) as (_ & _ & _ & _ & _ & _ & Hm & Ht).
  unfold version_attempt.
  cbn [SM130.delay SM130.gate SM130.set_clock SM130.millis SM130.t].
  rewrite Hm, Ht. set (m := gate_leave (SM130.t s) (SM130.millis s)) in *.
  change (2 ^ 32) with 4294967296 in Hw.
  assert (gate_deadline (SM130.t s) (SM130.millis s) = m + 20) as ->.
  { unfold gate_deadline, ulong. fold m. apply Z.mod_small. lia. }
  assert (gate_leave (m + 20) m = m + 20) as Hl by (unfold gate_leave; lia).
  unfold gate_deadline. rewrite Hl. unfold ulong.
  rewrite !Z.mod_small by lia. lia.
Qed.

Lemma version_attempts_clock (k : nat) (s : SM130.state) :
  SM130.sized s ->
  0 <= gate_leave (SM130.t s) (SM130.millis s) ->
  gate_leave (SM130.t s) (SM130.millis s) + 120 * Z.of_nat k < 2 ^ 32 ->
  gate_leave (SM130.t (Nat.iter k version_attempt s))
             (SM130.millis (Nat.iter k version_attempt s))
  = gate_leave (SM130.t s) (SM130.millis s) + 120 * Z.of_nat k
  /\ ((0 < k)%nat -> SM130.millis (Nat.iter k version_attempt s)
                     = gate_leave (SM130.t s) (SM130.millis s) + 120 * Z.of_nat k).
Proof.
  intros Hs H0. induction k as [|k IH]; intros Hw.
  - cbn. split; lia.
  - rewrite Nat.iter_succ.
    destruct IH as [IH _]; [lia|].
    pose proof (version_attempts_sized k s Hs) as (Hd & _).
    destruct (version_attempt_clock _ Hd) as [Hm Ht]; [lia|lia|].
    rewrite IH in Hm. unfold gate_leave at 1. rewrite Z.max_r by exact Ht.
    split; [|intros _]; rewrite Hm; lia.
Qed.

(** As long as the polls find nothing the loop goes on. *)
Lemma version_loop_silent (k j : nat) (dready : bool) (more : list (list Z))
  (s : SM130.state) :
  SM130.sized s ->
  SM130.version_loop (k + j) dready (repeat [] k ++ more) s
  = SM130.version_loop j dready more (Nat.iter k version_attempt s).
Proof.
  revert s. induction k as [|k IH]; intros s Hs; [done|].
  cbn [Nat.add repeat app SM130.version_loop hd tl].
  destruct Hs as (Hd & Hrest).
  destruct (sendCommand_version s Hd) as (_ & _ & Hc & _).
  rewrite available_silent by exact Hc. cbn [bind andb].
  fold (version_attempt s).
  rewrite IH by (apply version_attempt_sized; by split).
  by rewrite Nat.iter_succ_r.
Qed.


Lemma version_loop_all_silent (k : nat) (dready : bool) (wires : list (list Z))
  (s : SM130.state) :
  SM130.sized s -> silent wires ->
  SM130.version_loop k dready wires s = Ok (false, Nat.iter k version_attempt s).
Proof.
  revert wires s. induction k as [|k IH]; intros wires s Hs Hw; [done|].
  cbn [SM130.version_loop].
  destruct (silent_hd_tl wires Hw) as [-> Htl].
  pose proof Hs as (Hd & _).
  destruct (sendCommand_version s Hd) as (_ & _ & Hc & _).
  rewrite available_silent by exact Hc. cbn [bind andb].
  fold (version_attempt s).
  rewrite IH by (by apply version_attempt_sized || done).
  by rewrite Nat.iter_succ_r.
Qed.

End Version.

(** X5. The text of a version or reset response is kept in
    [versionString]: at most its first seven bytes, followed by a
    terminating zero that lies inside the eight-byte array.  Nothing is
    transmitted. *)
Theorem version_response_is_stored (dready : bool) (s : SM130.state) (c : Z)
  (payload extra : list Z) :
  SM130.sized s ->
  In (SM130.cmd s) [SM130.CMD_VERSION; SM130.CMD_RESET] ->
  In c [SM130.CMD_VERSION; SM130.CMD_RESET] ->
  (length payload <= 17)%nat ->
  Forall is_byte payload ->
  exists s',
    SM130.available dready (version_response c payload ++ extra) s = Ok (true, s')
    /\ take (Nat.min (length payload) 7) (SM130.versionString s') = take 7 payload
    /\ SM130.versionString s' !! Nat.min (length payload) 7 = Some 0
    /\ length (SM130.versionString s') = 8%nat
    /\ SM130.sent s' = SM130.sent s.
Proof.
  intros Hs Hcmd Hc Hlen Hbytes.
  destruct (Version.available_version dready s c payload extra Hs Hcmd Hc Hlen Hbytes)
    as (s' & Hav & Hv & _ & Hsent & (_ & Hv8 & _) & _).
  pose proof Hs as (_ & Hvs & _).
  exists s'. split_and!; try done.
  - rewrite Hv, take_insert_ge by lia.
    rewrite take_app_le by (rewrite length_take; lia).
    rewrite take_take, Nat.min_id.
    destruct (decide (length payload <= 7)%nat).
    + rewrite Nat.min_l by lia. by rewrite !take_ge by lia.
    + by rewrite Nat.min_r by lia.
  - rewrite Hv. apply list_lookup_insert_eq.
    rewrite length_app, length_take, length_drop, Hvs. lia.
Qed.

Lemma version_response_is_stored_witness :
  exists s',
    SM130.available true
      (version_response SM130.CMD_VERSION [73; 50; 67; 32; 50; 46; 56; 0; 0] ++ [])
      (SM130.sendCommand SM130.CMD_VERSION (SM130.init 0)) = Ok (true, s')
    /\ take (Nat.min (length [73; 50; 67; 32; 50; 46; 56; 0; 0]) 7)
            (SM130.versionString s')
       = take 7 [73; 50; 67; 32; 50; 46; 56; 0; 0]
    /\ SM130.versionString s' !! Nat.min (length [73; 50; 67; 32; 50; 46; 56; 0; 0]) 7
       = Some 0
    /\ length (SM130.versionString s') = 8%nat
    /\ SM130.sent s' = SM130.sent (SM130.sendCommand SM130.CMD_VERSION (SM130.init 0)).
Proof.
  apply (version_response_is_stored true
           (SM130.sendCommand SM130.CMD_VERSION (SM130.init 0)) SM130.CMD_VERSION
           [73; 50; 67; 32; 50; 46; 56; 0; 0] []).
  - vm_compute. repeat split.
  - left. reflexivity.
  - left. reflexivity.
  - simpl. lia.
  - repeat constructor; unfold is_byte; lia.
Defined.

(** X6. With no version cached and a module that never answers,
    [getFirmwareVersion] gives up after exactly ten version commands and
    returns null, leaving [versionString] as it was; away from the
    wrap-around of [millis()] it returns 1200 ms after its first command
    left the gate. *)
Theorem getFirmwareVersion_gives_up (dready : bool) (wires : list (list Z))
  (s : SM130.state) :
  SM130.sized s ->
  SM130.versionString s !!! 0%nat = 0 ->
  silent wires ->
  exists s',
    SM130.getFirmwareVersion dready wires s = Ok (false, s')
    /\ SM130.sent s' = SM130.sent s ++ repeat version_frame 10
    /\ SM130.versionString s' = SM130.versionString s
    /\ (0 <= gate_leave (SM130.t s) (SM130.millis s) ->
        gate_leave (SM130.t s) (SM130.millis s) + 1200 < 2 ^ 32 ->
        SM130.millis s' = gate_leave (SM130.t s) (SM130.millis s) + 1200).
Proof.
  intros Hs Hv Hw. unfold SM130.getFirmwareVersion.
  rewrite Hv. cbn [Z.eqb negb].
  rewrite Version.version_loop_all_silent by done.
  eexists. split; [reflexivity|].
  destruct (Version.version_attempts_sent 10 s Hs) as [H1 H2].
  split_and!; [exact H1 | exact H2 |].
  intros H0 Hwrap.
  destruct (Version.version_attempts_clock 10 s Hs H0) as [_ Hm]; [lia|].
  rewrite Hm by lia. lia.
Qed.

Lemma getFirmwareVersion_gives_up_witness :
  exists s',
    SM130.getFirmwareVersion true [] (SM130.init 0) = Ok (false, s')
    /\ SM130.sent s' = SM130.sent (SM130.init 0) ++ repeat version_frame 10
    /\ SM130.versionString s' = SM130.versionString (SM130.init 0)
    /\ (0 <= gate_leave (SM130.t (SM130.init 0)) (SM130.millis (SM130.init 0)) ->
        gate_leave (SM130.t (SM130.init 0)) (SM130.millis (SM130.init 0)) + 1200 < 2 ^ 32 ->
        SM130.millis s'
        = gate_leave (SM130.t (SM130.init 0)) (SM130.millis (SM130.init 0)) + 1200).
Proof.
  apply (getFirmwareVersion_gives_up true [] (SM130.init 0)).
  - vm_compute. repeat split.
  - reflexivity.
  - constructor.
Defined.

(** X7. With no version cached, when the module stays silent for [k < 10]
    polls and then answers the version command, [getFirmwareVersion]
    returns the version after exactly [k + 1] commands; if the text starts
    with a non-zero byte, every later call returns at once, without
    touching the bus or the state. *)
Theorem getFirmwareVersion_answered (dready : bool) (k : nat)
  (payload extra : list Z) (more : list (list Z)) (s : SM130.state) :
  SM130.sized s ->
  SM130.versionString s !!! 0%nat = 0 ->
  (k < 10)%nat ->
  (length payload <= 17)%nat ->
  Forall is_byte payload ->
  exists s',
    SM130.getFirmwareVersion dready
      (repeat [] k ++ (version_response SM130.CMD_VERSION payload ++ extra) :: more) s
    = Ok (true, s')
    /\ SM130.sent s' = SM130.sent s ++ repeat version_frame (S k)
    /\ take (Nat.min (length payload) 7) (SM130.versionString s') = take 7 payload
    /\ (hd 0 payload <> 0 ->
        forall dready' wires',
          SM130.getFirmwareVersion dready' wires' s' = Ok (true, s')).
Proof.
  intros Hs Hv Hk Hlen Hbytes. unfold SM130.getFirmwareVersion at 1.
  rewrite Hv. cbn [Z.eqb negb].
  replace 10%nat with (k + S (9 - k))%nat by lia.
  rewrite Version.version_loop_silent by done.
  set (sk := Nat.iter k version_attempt s).
  pose proof (Version.version_attempts_sized k s Hs) as Hsk. fold sk in Hsk.
  destruct (Version.version_attempts_sent k s Hs) as [Hsent_k _]. fold sk in Hsent_k.
  cbn [SM130.version_loop hd].
  pose proof Hsk as (Hd & Hv8 & Hn & Hstr).
  destruct (Version.sendCommand_version sk Hd)
    as (Hsent1 & Hd1 & Hc1 & Hv1 & Hn1 & Hstr1 & _).
  cbv zeta in Hsent1, Hd1, Hc1, Hv1, Hn1, Hstr1.
  set (s1 := SM130.sendCommand SM130.CMD_VERSION sk) in *.
  assert (SM130.sized s1) as Hs1.
  { unfold SM130.sized. rewrite Hd1, Hv1, Hn1, Hstr1. done. }
  destruct (Version.available_version dready s1 SM130.CMD_VERSION payload extra Hs1)
    as (s' & Hav & Hvs & Hgc & Hsent & _); try done.
  { rewrite Hc1. by left. }
  { by left. }
  rewrite Hav. cbn [bind]. rewrite Hgc, Z.eqb_refl. cbn [andb].
  exists s'. split; [reflexivity|].
  assert (take (Nat.min (length payload) 7) (SM130.versionString s') = take 7 payload)
    as Htake.
  { rewrite Hvs, take_insert_ge by lia.
    rewrite take_app_le by (rewrite length_take; lia).
    rewrite take_take, Nat.min_id.
    destruct (decide (length payload <= 7)%nat).
    + rewrite Nat.min_l by lia. by rewrite !take_ge by lia.
    + by rewrite Nat.min_r by lia. }
  split_and!.
  - rewrite Hsent, Hsent1, Hsent_k, <- app_assoc. f_equal.
    cbn [repeat]. by rewrite repeat_cons.
  - exact Htake.
  - intros Hhd dready' wires'. unfold SM130.getFirmwareVersion.
    destruct payload as [|p payload]; [done|]. cbn [hd] in Hhd.
    assert (SM130.versionString s' !!! 0%nat = p) as ->.
    { destruct (SM130.versionString s') as [|v vs] eqn:E.
      - cbn [length] in Htake. rewrite Nat.min_comm in Htake. done.
      - cbn [length] in Htake. rewrite Nat.min_comm in Htake.
        cbn in Htake. by inversion Htake. }
    apply Z.eqb_neq in Hhd. by rewrite Hhd.
Qed.

Lemma getFirmwareVersion_answered_witness :
  exists s',
    SM130.getFirmwareVersion true
      (repeat [] 2
         ++ (version_response SM130.CMD_VERSION [73; 50; 67; 32; 50; 46; 56] ++ [])
         :: []) (SM130.init 0)
    = Ok (true, s')
    /\ SM130.sent s' = SM130.sent (SM130.init 0) ++ repeat version_frame 3
    /\ take (Nat.min (length [73; 50; 67; 32; 50; 46; 56]) 7) (SM130.versionString s')
       = take 7 [73; 50; 67; 32; 50; 46; 56]
    /\ (hd 0 [73; 50; 67; 32; 50; 46; 56] <> 0 ->
        forall dready' wires',
          SM130.getFirmwareVersion dready' wires' s' = Ok (true, s')).
Proof.
  apply (getFirmwareVersion_answered true 2 [73; 50; 67; 32; 50; 46; 56] [] []
           (SM130.init 0)).
  - vm_compute. repeat split.
  - reflexivity.
  - lia.
  - simpl. lia.
  - repeat constructor; unfold is_byte; lia.
Defined.

(** ** The arrays behind the classifiers *)

Module Guard.

Lemma arrayToHex_within (array : list Z) (n : nat) :
  (n <= length array)%nat ->
  exists chars, arrayToHex array n = Some chars /\ length chars = (2 * n + 1)%nat.
Proof.
  intros Hn. rewrite <- (take_drop n array). unfold arrayToHex.
  assert (length (take n array) = n) as Hl by (rewrite length_take; lia).
  rewrite arrayToHex_from_prefix by lia.
  pose proof (arrayToHex_whole (take n array)) as Hw.
  rewrite Hl in Hw. unfold arrayToHex in Hw. rewrite Hw.
  eexists. split; [reflexivity|].
  rewrite length_app, hex_digits_length, Hl. simpl. lia.
Qed.

(** What [SM130::receiveData] guarantees to the classifier. *)
Lemma receiveData_post (len : Z) (wire : list Z) (s s' : SM130.state) (n : Z) :
  SM130.sized s ->
  len <= Z.of_nat SM130.SIZE_PACKET ->
  SM130.receiveData len wire s = Ok (n, s') ->
  SM130.sized s' /\ (0 < n -> 1 <= SM130.getPacketLength s' <= SM130.SIZE_PAYLOAD).
Proof.
  unfold SM130.sized, SM130.SIZE_PACKET, SM130.SIZE_PAYLOAD.
  intros (Hd & Hv & Hn & Hstr) Hlen. unfold SM130.receiveData.
  set (rx := take (Z.to_nat len) wire).
  assert (length rx <= 20)%nat as Hrx by (unfold rx; rewrite length_take; lia).
  destruct (byte (Z.of_nat (length rx)) >? 0).
  2:{ inversion 1; subst. split; [done | lia]. }
  rewrite store_all_frame.
  2:{ rewrite length_map, length_take. cbn [SM130.gate SM130.set_clock SM130.data]. lia. }
  cbn [bind].
  match goal with
  | |- context [SM130.set_data ?d _] => set (buf := d); assert (length buf = 20%nat) as Hbuf
  end.
  { unfold buf. cbn [SM130.gate SM130.set_clock SM130.data].
    rewrite length_app, length_drop, !length_map, length_take. lia. }
  cbn [SM130.data SM130.set_data]. unfold SM130.SIZE_PAYLOAD.
  destruct ((buf !!! 0%nat >? 0) && (buf !!! 0%nat <=? 18)) eqn:E.
  - inversion 1; subst. split; [by split_and!|]. intros _.
    apply andb_true_iff in E. destruct E as [E1 E2].
    apply Z.gtb_lt in E1. apply Z.leb_le in E2.
    unfold SM130.getPacketLength. cbn [SM130.data SM130.set_data]. lia.
  - inversion 1; subst. split; [by split_and! | lia].
Qed.

Lemma take_version_ok (s : SM130.state) :
  SM130.sized s ->
  1 <= SM130.getPacketLength s <= SM130.SIZE_PAYLOAD ->
  exists s', SM130.take_version s = Ok s' /\ SM130.sized s'.
Proof.
  unfold SM130.sized, SM130.SIZE_PACKET, SM130.SIZE_PAYLOAD.
  intros (Hd & Hv & Hn & Hstr) Hl. unfold SM130.take_version.
  set (len := Z.to_nat (byte (Z.min (SM130.getPacketLength s) 8 - 1))).
  assert (len <= 7)%nat as Hlen.
  { unfold len. rewrite byte_small by (unfold is_byte; lia). lia. }
  assert (length (slice (SM130.data s) 2 len) = len) as Hsl.
  { unfold slice. rewrite length_take, length_drop, Hd. lia. }
  rewrite store_all_frame by lia. cbn [bind]. unfold store.
  rewrite decide_True by (rewrite length_app, length_drop, Hsl, Hv; lia).
  cbn [bind]. eexists. split; [reflexivity|].
  unfold SM130.sized. cbn [SM130.data SM130.versionString SM130.tagNumber
    SM130.tagString SM130.set_versionString].
  split_and!; try done.
  rewrite length_insert, length_app, length_drop, Hsl, Hv. lia.
Qed.

Lemma take_tag_ok (s : SM130.state) :
  SM130.sized s ->
  2 <= SM130.getPacketLength s <= 9 ->
  exists s', SM130.take_tag s = Ok s' /\ SM130.sized s'.
Proof.
  unfold SM130.sized, SM130.SIZE_PACKET.
  intros (Hd & Hv & Hn & Hstr) Hl. unfold SM130.take_tag.
  cbn [SM130.set_tagLength SM130.set_tagType SM130.set_tagNumber SM130.data
       SM130.tagLength SM130.tagNumber SM130.tagString].
  change (SM130.getPacketLength (SM130.set_tagLength _ s)) with (SM130.getPacketLength s).
  set (k := Z.to_nat (byte (SM130.getPacketLength s - 2))).
  assert (k <= 7)%nat as Hk.
  { unfold k. rewrite byte_small by (unfold is_byte; lia). lia. }
  assert (length (slice (SM130.data s) 3 k) = k) as Hsl.
  { unfold slice. rewrite length_take, length_drop, Hd. lia. }
  rewrite store_all_frame by lia. cbn [bind].
  destruct (arrayToHex_within
              (slice (SM130.data s) 3 k
                 ++ drop (length (slice (SM130.data s) 3 k)) (SM130.tagNumber s)) k)
    as (chars & -> & Hchars).
  { rewrite length_app, length_drop, Hsl, Hn. lia. }
  rewrite store_all_frame by (rewrite Hchars, Hstr; lia).
  cbn [bind]. eexists. split; [reflexivity|].
  unfold SM130.sized. cbn [SM130.data SM130.versionString SM130.tagNumber
    SM130.tagString SM130.set_tagString SM130.set_tagNumber SM130.set_tagType
    SM130.set_tagLength].
  split_and!; try done.
  - rewrite length_app, length_drop, Hsl, Hn. lia.
  - rewrite length_app, length_drop, Hchars, Hstr. lia.
Qed.

Lemma take_tag_overrun (s : SM130.state) :
  SM130.sized s ->
  10 <= SM130.getPacketLength s <= SM130.SIZE_PAYLOAD ->
  SM130.take_tag s = Fault (Overrun "tagNumber" 7).
Proof.
  unfold SM130.sized, SM130.SIZE_PACKET, SM130.SIZE_PAYLOAD.
  intros (Hd & Hv & Hn & Hstr) Hl. unfold SM130.take_tag.
  cbn [SM130.set_tagLength SM130.set_tagType SM130.set_tagNumber SM130.data
       SM130.tagLength SM130.tagNumber SM130.tagString].
  change (SM130.getPacketLength (SM130.set_tagLength _ s)) with (SM130.getPacketLength s).
  set (k := Z.to_nat (byte (SM130.getPacketLength s - 2))).
  assert (8 <= k <= 16)%nat as Hk.
  { unfold k. rewrite byte_small by (unfold is_byte; lia). lia. }
  assert (length (slice (SM130.data s) 3 k) = k) as Hsl.
  { unfold slice. rewrite length_take, length_drop, Hd. lia. }
  rewrite store_all_overrun by lia. cbn [bind]. by rewrite Hn.
Qed.


Lemma expected_length_at_least (c : Z) : 4 <= SM130.expected_length c.
Proof.
  unfold SM130.expected_length, SM130.SIZE_PACKET.
  repeat (destruct (in_cases _ _)); simpl; lia.
Qed.

(** The first two bytes of a response as [SM130::receiveData] leaves
    them, with or without a matching checksum. *)
Lemma receiveData_head (len l c : Z) (rest : list Z) (s : SM130.state) :
  SM130.sized s ->
  2 <= len <= Z.of_nat SM130.SIZE_PACKET ->
  1 <= l <= SM130.SIZE_PAYLOAD ->
  is_byte c ->
  exists n s',
    SM130.receiveData len (l :: c :: rest) s = Ok (n, s')
    /\ 0 < n /\ SM130.sized s'
    /\ SM130.getPacketLength s' = l /\ SM130.getCommand s' = c.
Proof.
  unfold SM130.sized, SM130.SIZE_PACKET, SM130.SIZE_PAYLOAD, is_byte.
  intros (Hd & Hv & Hn & Hstr) Hlen Hl Hc. unfold SM130.receiveData.
  destruct (Z.to_nat len) as [|[|k]] eqn:Ek; [lia|lia|].
  cbn [take]. set (rx := take k rest).
  assert (length rx <= 18)%nat as Hrx by (unfold rx; rewrite length_take; lia).
  cbn [length].
  assert (byte (Z.of_nat (S (S (length rx)))) = Z.of_nat (S (S (length rx)))) as ->.
  { apply byte_small. unfold is_byte. lia. }
  rewrite gtb_true by lia. rewrite Nat2Z.id.
  cbn [take map]. rewrite !byte_small by (unfold is_byte; lia).
  rewrite store_all_frame.
  2:{ cbn [length]. rewrite length_map, length_take.
      cbn [SM130.gate SM130.set_clock SM130.data]. lia. }
  cbn [bind SM130.data SM130.set_data app].
  change ((l :: ?x) !!! 0%nat) with l.
  unfold SM130.SIZE_PAYLOAD.
  rewrite gtb_true by lia.
  assert ((l <=? 18) = true) as -> by (apply Z.leb_le; lia).
  cbn [andb]. eexists _, _. split; [reflexivity|].
  split_and!; try done.
  - destruct (_ =? _); [lia | vm_compute; reflexivity].
  - cbn [length SM130.data SM130.set_data SM130.gate SM130.set_clock].
    rewrite length_app, length_drop, !length_map, length_take. lia.
Qed.

(** *** The same for the SL018 *)

Lemma sendCommand_sized_SL018 (c : Z) (s : SL018.state) :
  SL018.sized s -> SL018.sized (SL018.sendCommand c s).
Proof.
  unfold SL018.sized. intros (Hd & Hn & Hstr).
  cbn. rewrite !length_insert. done.
Qed.

Lemma take_tag_fits_SL018 (s : SL018.state) :
  SL018.sized s ->
  3 <= SL018.getPacketLength s <= 10 ->
  exists s', SL018.take_tag s = Ok s' /\ SL018.sized s'.
Proof.
  unfold SL018.sized, SL018.SIZE_PACKET.
  intros (Hd & Hn & Hstr) Hl. unfold SL018.take_tag.
  cbn [SL018.set_tagLength SL018.set_tagType SL018.set_tagNumber SL018.data
       SL018.tagLength SL018.tagNumber SL018.tagString].
  change (SL018.getPacketLength (SL018.set_tagLength _ s)) with (SL018.getPacketLength s).
  set (k := Z.to_nat (byte (SL018.getPacketLength s - 3))).
  assert (k <= 7)%nat as Hk.
  { unfold k. rewrite byte_small by (unfold is_byte; lia). lia. }
  assert (length (slice (SL018.data s) 3 k) = k) as Hsl.
  { unfold slice. rewrite length_take, length_drop, Hd. lia. }
  rewrite store_all_frame by lia. cbn [bind].
  destruct (arrayToHex_within
              (slice (SL018.data s) 3 k
                 ++ drop (length (slice (SL018.data s) 3 k)) (SL018.tagNumber s)) k)
    as (chars & -> & Hchars).
  { rewrite length_app, length_drop, Hsl, Hn. lia. }
  rewrite store_all_frame by (rewrite Hchars, Hstr; lia).
  cbn [bind]. eexists. split; [reflexivity|].
  unfold SL018.sized. cbn [SL018.data SL018.tagNumber
    SL018.tagString SL018.set_tagString SL018.set_tagNumber SL018.set_tagType
    SL018.set_tagLength].
  split_and!; try done.
  - rewrite length_app, length_drop, Hsl, Hn. lia.
  - rewrite length_app, length_drop, Hchars, Hstr. lia.
Qed.

Lemma take_tag_overrun_SL018 (s : SL018.state) :
  SL018.sized s ->
  11 <= SL018.getPacketLength s < Z.of_nat SL018.SIZE_PACKET ->
  SL018.take_tag s = Fault (Overrun "tagNumber" 7).
Proof.
  unfold SL018.sized, SL018.SIZE_PACKET.
  intros (Hd & Hn & Hstr) Hl. unfold SL018.take_tag.
  cbn [SL018.set_tagLength SL018.set_tagType SL018.set_tagNumber SL018.data
       SL018.tagLength SL018.tagNumber SL018.tagString].
  change (SL018.getPacketLength (SL018.set_tagLength _ s)) with (SL018.getPacketLength s).
  set (k := Z.to_nat (byte (SL018.getPacketLength s - 3))).
  assert (8 <= k <= 15)%nat as Hk.
  { unfold k. rewrite byte_small by (unfold is_byte; lia). lia. }
  assert (length (slice (SL018.data s) 3 k) = k) as Hsl.
  { unfold slice. rewrite length_take, length_drop, Hd. lia. }
  rewrite store_all_overrun by lia. cbn [bind]. by rewrite Hn.
Qed.

(** [SL018::receiveData] either leaves [data], or returns the length
    byte it stored. *)
Lemma receiveData_cases_SL018 (len : Z) (wire : list Z) (s : SL018.state) :
  SL018.sized s ->
  SL018.receiveData len wire s = Fault (Overrun "data" SL018.SIZE_PACKET)
  \/ exists n s',
       SL018.receiveData len wire s = Ok (n, s')
       /\ SL018.sized s' /\ SL018.cmd s' = SL018.cmd s
       /\ 0 <= n < Z.of_nat SL018.SIZE_PACKET
       /\ (0 < n -> SL018.getPacketLength s' = n).
Proof.
  intros (Hd & Hn & Hstr).
  destruct (take (Z.to_nat len) wire) as [|b rx] eqn:E.
  { right. unfold SL018.receiveData. rewrite E. eexists _, _.
    split; [reflexivity|]. unfold SL018.SIZE_PACKET. split_and!; try done; lia. }
  destruct wire as [|b0 rest]; [by rewrite take_nil in E|].
  assert (0 < len) as Hlen by (destruct (Z.to_nat len) eqn:?; [done | lia]).
  pose proof (byte_range b0) as Hb. unfold is_byte in Hb.
  destruct (decide (byte b0 < Z.of_nat SL018.SIZE_PACKET)) as [Hlt|Hge].
  - right. rewrite (Classify.SL018_receive len b0 rest s Hd Hlen Hlt).
    eexists _, _. split; [reflexivity|].
    unfold SL018.sized, SL018.getPacketLength.
    cbn [SL018.data SL018.tagNumber SL018.tagString SL018.cmd SL018.set_data
         SL018.gate SL018.set_clock].
    split_and!; try done; try lia.
    cbn [length]. rewrite length_app, wire_reads_length, length_drop, Hd.
    unfold SL018.SIZE_PACKET in *. lia.
  - left. apply Bounds.SL018_overrun; [done | by rewrite E |].
    change (wire_read (b0 :: rest)) with (byte b0). lia.
Qed.

End Guard.

(** X8. Whatever the module delivers, the only array [SM130::available]
    can write outside of is [tagNumber], and the first such write is to
    element 7: the stores to [data], [versionString] and [tagString]
    always stay inside. *)
Theorem SM130_available_array_bounds (dready : bool) (wire : list Z) (s : SM130.state) :
  SM130.sized s ->
  (exists b s', SM130.available dready wire s = Ok (b, s') /\ SM130.sized s')
  \/ SM130.available dready wire s = Fault (Overrun "tagNumber" 7).
Proof.
  intros Hs. unfold SM130.available.
  destruct (_ && _); [left; by eauto|].
  pose proof Hs as (Hd & _).
  destruct (Bounds.SM130_available_in_bounds wire s Hd) as (n & s1 & Hr & _).
  rewrite Hr. cbn [bind].
  destruct (Guard.receiveData_post _ _ _ _ _ Hs
              (Bounds.SM130_expected_length_bound _) Hr) as [Hs1 Hpos].
  destruct (n >? 0) eqn:En; [|left; by eauto].
  apply Z.gtb_lt in En. specialize (Hpos En).
  set (s2 := SM130.init_response s1).
  assert (SM130.sized s2) as Hs2.
  { destruct Hs1 as (H1 & H2 & H3 & H4). unfold s2, SM130.sized.
    cbn. rewrite length_insert. done. }
  assert (SM130.getPacketLength s2 = SM130.getPacketLength s1) as Hl2 by done.
  destruct (in_cases _ _).
  { destruct (Guard.take_version_ok s2 Hs2) as (s3 & -> & Hs3); [by rewrite Hl2|].
    cbn [bind]. left. by eauto. }
  destruct (in_cases _ _).
  { destruct (_ && _) eqn:Eg; [|left; by eauto].
    apply andb_true_iff in Eg. destruct Eg as [_ Eg].
    rewrite Z.geb_leb in Eg. apply Z.leb_le in Eg. rewrite Hl2 in Eg.
    destruct (decide (SM130.getPacketLength s1 <= 9)) as [Hle|Hgt].
    - destruct (Guard.take_tag_ok s2 Hs2) as (s3 & -> & Hs3); [rewrite Hl2; lia|].
      cbn [bind]. left. by eauto.
    - right. rewrite Guard.take_tag_overrun; [done | done | rewrite Hl2; lia]. }
  destruct (in_cases _ _); [left; eexists _, _; split; [reflexivity|]; exact Hs2|].
  destruct (in_cases _ _); left; eexists _, _; (split; [reflexivity|]); exact Hs2.
Qed.


Lemma SM130_available_array_bounds_witness :
  (exists b s',
      SM130.available true [10; 0x83; 2; 1; 2; 3; 4; 5; 6; 7; 8]
        (SM130.selectTag (SM130.init 0)) = Ok (b, s')
      /\ SM130.sized s')
  \/ SM130.available true [10; 0x83; 2; 1; 2; 3; 4; 5; 6; 7; 8]
       (SM130.selectTag (SM130.init 0))
     = Fault (Overrun "tagNumber" 7).
Proof.
  apply (SM130_available_array_bounds true [10; 0x83; 2; 1; 2; 3; 4; 5; 6; 7; 8]
           (SM130.selectTag (SM130.init 0))).
  vm_compute. repeat split.
Defined.

(** X9. A seek or select response whose length byte is between 10 and
    18 announces more than seven bytes of tag number: [SM130::available]
    copies them all and writes past the end of [tagNumber], whatever the
    command that was sent and whatever the checksum. *)
Theorem SM130_long_tag_overruns_tagNumber (l c : Z) (rest : list Z) (s : SM130.state) :
  SM130.sized s ->
  10 <= l <= SM130.SIZE_PAYLOAD ->
  In c [SM130.CMD_SEEK_TAG; SM130.CMD_SELECT_TAG] ->
  SM130.available true (l :: c :: rest) s = Fault (Overrun "tagNumber" 7).
Proof.
  intros Hs Hl Hc. unfold SM130.available.
  rewrite andb_false_r.
  pose proof (Guard.expected_length_at_least (SM130.cmd s)) as Hlo.
  pose proof (Bounds.SM130_expected_length_bound (SM130.cmd s)) as Hhi.
  assert (is_byte c) as Hcb.
  { unfold is_byte, SM130.CMD_SEEK_TAG, SM130.CMD_SELECT_TAG in *.
    destruct Hc as [<-|[<-|[]]]; lia. }
  destruct (Guard.receiveData_head (SM130.expected_length (SM130.cmd s)) l c rest s Hs)
    as (n & s1 & -> & Hn & Hs1 & Hl1 & Hc1); [lia | lia | done |].
  cbn [bind]. rewrite gtb_true by lia.
  set (s2 := SM130.init_response s1).
  assert (SM130.sized s2) as Hs2.
  { destruct Hs1 as (H1 & H2 & H3 & H4). unfold s2, SM130.sized.
    cbn. rewrite length_insert. done. }
  assert (SM130.getPacketLength s2 = l) as Hl2 by done.
  assert (SM130.getCommand s2 = c) as -> by done.
  assert (in_cases c [SM130.CMD_RESET; SM130.CMD_VERSION] = false) as ->.
  { destruct Hc as [<-|[<-|[]]]; reflexivity. }
  assert (in_cases c [SM130.CMD_SEEK_TAG; SM130.CMD_SELECT_TAG] = true) as ->.
  { destruct Hc as [<-|[<-|[]]]; reflexivity. }
  assert (SM130.errorCode s2 = 0) as ->.
  { unfold s2, SM130.init_response. cbn [SM130.errorCode SM130.set_errorCode].
    change (SM130.getPacketLength _) with (SM130.getPacketLength s1).
    rewrite Hl1. destruct (l <? 3) eqn:E; [apply Z.ltb_lt in E; lia | done]. }
  rewrite Hl2, geb_true by lia. cbn [Z.eqb andb].
  rewrite Guard.take_tag_overrun; [done | done | by rewrite Hl2].
Qed.

Lemma SM130_long_tag_overruns_tagNumber_witness :
  SM130.available true [10; 0x83; 2; 1; 2; 3; 4; 5; 6; 7; 8]
    (SM130.selectTag (SM130.init 0))
  = Fault (Overrun "tagNumber" 7).
Proof.
  apply (SM130_long_tag_overruns_tagNumber 10 0x83 [2; 1; 2; 3; 4; 5; 6; 7; 8]
           (SM130.selectTag (SM130.init 0))).
  - vm_compute. repeat split.
  - vm_compute. split; discriminate.
  - right. left. reflexivity.
Defined.

(** X10. Whatever the module delivers, [SL018::available] writes
    outside of an array only in two ways: the receive loop leaves [data]
    at element 19, or the copy of the tag number leaves [tagNumber] at
    element 7.  [tagString] is never overrun. *)
Theorem SL018_available_array_bounds (wire : list Z) (s : SL018.state) :
  SL018.sized s ->
  (exists b s', SL018.available wire s = Ok (b, s') /\ SL018.sized s')
  \/ SL018.available wire s = Fault (Overrun "data" 19)
  \/ SL018.available wire s = Fault (Overrun "tagNumber" 7).
Proof.
  intros Hs. unfold SL018.available.
  destruct (_ =? 0); [left; by eauto|].
  destruct (Guard.receiveData_cases_SL018 (SL018.expected_length (SL018.cmd s)) wire s Hs)
    as [-> | (n & s1 & -> & Hs1 & Hc1 & Hn & Hl1)]; [right; by left|].
  cbn [bind].
  destruct (n >? 0) eqn:En; [|left; by eauto].
  apply Z.gtb_lt in En. specialize (Hl1 En).
  set (s2 := SL018.init_response s1).
  assert (SL018.sized s2) as Hs2.
  { destruct Hs1 as (H1 & H2 & H3). unfold s2, SL018.sized.
    cbn. rewrite length_insert. done. }
  assert (SL018.getPacketLength s2 = n) as Hl2 by done.
  destruct (in_cases _ _); [|left; by eauto].
  destruct (_ && _) eqn:Eg.
  - apply andb_true_iff in Eg. destruct Eg as [_ Eg].
    rewrite Z.geb_leb in Eg. apply Z.leb_le in Eg. rewrite Hl2 in Eg.
    destruct (decide (n <= 10)) as [Hle|Hgt].
    + destruct (Guard.take_tag_fits_SL018 s2 Hs2) as (s3 & -> & Hs3); [rewrite Hl2; lia|].
      cbn [bind]. left. by eauto.
    + right. right.
      rewrite Guard.take_tag_overrun_SL018; [done | done | rewrite Hl2; lia].
  - destruct (SL018.cmd s2 =? SL018.CMD_SEEK);
      [|left; eexists _, _; split; [reflexivity | exact Hs2]].
    left. eexists _, _. split; [reflexivity|].
    unfold SL018.seekTag, SL018.selectTag.
    pose proof (Guard.sendCommand_sized_SL018 SL018.CMD_SELECT s2 Hs2) as (H1 & H2 & H3).
    by split_and!.
Qed.

Lemma SL018_available_array_bounds_witness :
  (exists b s',
      SL018.available [7; 1; 0; 0xAA; 0xBB; 0xCC; 0xDD; 1] (SL018.selectTag (SL018.init 0))
      = Ok (b, s')
      /\ SL018.sized s')
  \/ SL018.available [7; 1; 0; 0xAA; 0xBB; 0xCC; 0xDD; 1] (SL018.selectTag (SL018.init 0))
     = Fault (Overrun "data" 19)
  \/ SL018.available [7; 1; 0; 0xAA; 0xBB; 0xCC; 0xDD; 1] (SL018.selectTag (SL018.init 0))
     = Fault (Overrun "tagNumber" 7).
Proof.
  apply (SL018_available_array_bounds [7; 1; 0; 0xAA; 0xBB; 0xCC; 0xDD; 1]
           (SL018.selectTag (SL018.init 0))).
  vm_compute. repeat split.
Defined.

(** X11. A select or seek response with status 0 whose length byte is
    between 11 and 18 makes [SL018::available] copy more than seven bytes
    into [tagNumber]. *)
Theorem SL018_long_tag_overruns_tagNumber (l c : Z) (rest : list Z) (s : SL018.state) :
  SL018.sized s ->
  In (SL018.cmd s) [SL018.CMD_SEEK; SL018.CMD_SELECT] ->
  11 <= l < Z.of_nat SL018.SIZE_PACKET ->
  SL018.available (l :: c :: 0 :: rest) s = Fault (Overrun "tagNumber" 7).
Proof.
  intros Hs Hcmd Hl. pose proof Hs as (Hd & _). unfold SL018.available.
  assert (SL018.expected_length (SL018.cmd s) = 11) as ->.
  { destruct Hcmd as [<-|[<-|[]]]; reflexivity. }
  cbn [Z.eqb].
  unfold SL018.SIZE_PACKET in Hl.
  assert (byte l = l) as Hbl by (apply byte_small; unfold is_byte; lia).
  rewrite (Classify.SL018_receive 11 l (c :: 0 :: rest) s Hd);
    [| lia | rewrite Hbl; unfold SL018.SIZE_PACKET; lia].
  rewrite Hbl. cbn [bind]. rewrite gtb_true by lia.
  set (s1 := SL018.set_data _ _).
  set (s2 := SL018.init_response s1).
  assert (SL018.sized s2) as Hs2.
  { destruct Hs as (H1 & H2 & H3). unfold s2, s1, SL018.sized.
    cbn [SL018.data SL018.tagNumber SL018.tagString SL018.init_response
         SL018.set_errorCode SL018.set_tagType SL018.set_tagLength SL018.set_tagString
         SL018.set_data SL018.gate SL018.set_clock].
    rewrite length_insert. split_and!; try done.
    cbn [length]. rewrite length_app, wire_reads_length, length_drop, H1.
    unfold SL018.SIZE_PACKET. lia. }
  assert (SL018.getPacketLength s2 = l) as Hl2 by done.
  assert (SL018.getCommand s2 = SL018.cmd s) as -> by done.
  assert (in_cases (SL018.cmd s) [SL018.CMD_SEEK; SL018.CMD_SELECT] = true) as ->.
  { destruct Hcmd as [<-|[<-|[]]]; reflexivity. }
  assert (SL018.errorCode s2 = 0) as ->.
  { unfold s2, s1, SL018.init_response.
    cbn [SL018.errorCode SL018.set_errorCode SL018.data SL018.set_tagType
         SL018.set_tagLength SL018.set_tagString SL018.set_data].
    destruct (Z.to_nat l) as [|[|k]] eqn:Ek; [lia|lia|]. reflexivity. }
  rewrite Hl2, geb_true by lia. cbn [Z.eqb andb].
  rewrite Guard.take_tag_overrun_SL018; [done | done | rewrite Hl2; unfold SL018.SIZE_PACKET; lia].
Qed.

Lemma SL018_long_tag_overruns_tagNumber_witness :
  SL018.available (11 :: 1 :: 0 :: [1; 2; 3; 4; 5; 6; 7; 8])
    (SL018.selectTag (SL018.init 0))
  = Fault (Overrun "tagNumber" 7).
Proof.
  apply (SL018_long_tag_overruns_tagNumber 11 1 [1; 2; 3; 4; 5; 6; 7; 8]
           (SL018.selectTag (SL018.init 0))).
  - vm_compute. repeat split.
  - right. left. reflexivity.
  - vm_compute. split; [discriminate | reflexivity].
Defined.

(** ** Polling and the bus *)

Module Poll.

Lemma receiveData_line_SM130 (len : Z) (wire : list Z) (s s' : SM130.state) (n : Z) :
  SM130.receiveData len wire s = Ok (n, s') -> same_line_SM130 s s'.
Proof.
  unfold SM130.receiveData. destruct (_ >? 0); [|by inversion 1].
  destruct (store_all _ _ _ _); cbn [bind]; [|done].
  destruct (_ && _); by inversion 1.
Qed.

Lemma take_version_line_SM130 (s s' : SM130.state) :
  SM130.take_version s = Ok s' -> same_line_SM130 s s'.
Proof.
  unfold SM130.take_version. destruct (store_all _ _ _ _); cbn [bind]; [|done].
  destruct (store _ _ _ _); cbn [bind]; by inversion 1.
Qed.

Lemma take_tag_line_SM130 (s s' : SM130.state) :
  SM130.take_tag s = Ok s' -> same_line_SM130 s s'.
Proof.
  unfold SM130.take_tag. destruct (store_all _ _ _ _); cbn [bind]; [|done].
  destruct (arrayToHex _ _); [|done].
  destruct (store_all _ _ _ _); cbn [bind]; by inversion 1.
Qed.

Lemma same_line_trans_SM130 (s1 s2 s3 : SM130.state) :
  same_line_SM130 s1 s2 -> same_line_SM130 s2 s3 -> same_line_SM130 s1 s3.
Proof. unfold same_line_SM130. intros (?&?&?&?) (?&?&?&?). split_and!; congruence. Qed.

Lemma available_line_SM130 (dready : bool) (wire : list Z) (s s' : SM130.state)
  (b : bool) :
  SM130.available dready wire s = Ok (b, s') -> same_line_SM130 s s'.
Proof.
  unfold SM130.available. destruct (_ && _); [by inversion 1|].
  destruct (SM130.receiveData _ _ _) as [[n s1]|] eqn:Hr; cbn [bind]; [|done].
  apply receiveData_line_SM130 in Hr.
  destruct (_ >? 0); [|inversion 1; by subst].
  set (s2 := SM130.init_response s1).
  assert (same_line_SM130 s s2) as H2 by exact Hr.
  destruct (in_cases _ _).
  { destruct (SM130.take_version s2) eqn:Hv; cbn [bind]; [|done].
    apply take_version_line_SM130 in Hv. inversion 1; subst.
    by eapply same_line_trans_SM130. }
  destruct (in_cases _ _).
  { destruct (_ && _); [|inversion 1; by subst].
    destruct (SM130.take_tag s2) eqn:Ht; cbn [bind]; [|done].
    apply take_tag_line_SM130 in Ht. inversion 1; subst.
    by eapply same_line_trans_SM130. }
  destruct (in_cases _ _); [inversion 1; by subst|].
  destruct (in_cases _ _); inversion 1; by subst.
Qed.

Lemma receiveData_line_SL018 (len : Z) (wire : list Z) (s s' : SL018.state) (n : Z) :
  SL018.receiveData len wire s = Ok (n, s') -> same_line_SL018 s s'.
Proof.
  unfold SL018.receiveData. destruct (take _ _); [by inversion 1|].
  destruct (store _ _ _ _); cbn [bind]; [|done].
  destruct (SL018.receive_loop _ _ _ _); cbn [bind]; by inversion 1.
Qed.

Lemma take_tag_line_SL018 (s s' : SL018.state) :
  SL018.take_tag s = Ok s' -> same_line_SL018 s s'.
Proof.
  unfold SL018.take_tag. destruct (store_all _ _ _ _); cbn [bind]; [|done].
  destruct (arrayToHex _ _); [|done].
  destruct (store_all _ _ _ _); cbn [bind]; by inversion 1.
Qed.

Lemma seekTag_line_SL018 (s : SL018.state) :
  length (SL018.data s) = SL018.SIZE_PACKET ->
  SL018.sent (SL018.seekTag s) = SL018.sent s ++ [[1; SL018.CMD_SELECT]]
  /\ SL018.cmd (SL018.seekTag s) = SL018.CMD_SEEK.
Proof.
  destruct s as [d ? ? ? ? ? ? ? ? ? ? out]. cbn [SL018.data].
  unfold SL018.SIZE_PACKET. intros Hd. explode d Hd. split; reflexivity.
Qed.

End Poll.

(** X12. [SM130::available] only listens: whatever it receives and
    whatever it returns, it puts nothing on the bus and leaves the
    record of the last command and the pin numbers as they were. *)
Theorem SM130_available_only_listens (dready : bool) (wire : list Z)
  (s s' : SM130.state) (b : bool) :
  SM130.available dready wire s = Ok (b, s') ->
  SM130.sent s' = SM130.sent s /\ SM130.cmd s' = SM130.cmd s
  /\ SM130.pinRESET s' = SM130.pinRESET s /\ SM130.pinDREADY s' = SM130.pinDREADY s.
Proof. apply Poll.available_line_SM130. Qed.

Lemma SM130_available_only_listens_witness :
  exists s',
    SM130.available true [2; 0x82; 0x4C; 0xD0] (SM130.seekTag (SM130.init 0))
    = Ok (true, s')
    /\ SM130.sent s' = SM130.sent (SM130.seekTag (SM130.init 0))
    /\ SM130.cmd s' = SM130.cmd (SM130.seekTag (SM130.init 0))
    /\ SM130.pinRESET s' = SM130.pinRESET (SM130.seekTag (SM130.init 0))
    /\ SM130.pinDREADY s' = SM130.pinDREADY (SM130.seekTag (SM130.init 0)).
Proof.
  eexists. split; [vm_compute; reflexivity|].
  apply (SM130_available_only_listens true [2; 0x82; 0x4C; 0xD0]
           (SM130.seekTag (SM130.init 0)) _ true).
  vm_compute. reflexivity.
Defined.

(** X13. [SL018::available] transmits in one case only: while seeking it
    answers a response without a tag by one more select command, returns
    false and stays in seek mode.  Whenever it returns true, and whenever
    the last command was not a seek, the bus and the last command are
    untouched. *)
Theorem SL018_available_sends_only_reseek (wire : list Z) (s s' : SL018.state)
  (b : bool) :
  SL018.sized s ->
  SL018.available wire s = Ok (b, s') ->
  (SL018.sent s' = SL018.sent s /\ SL018.cmd s' = SL018.cmd s)
  \/ (b = false /\ SL018.cmd s = SL018.CMD_SEEK /\ SL018.cmd s' = SL018.CMD_SEEK
      /\ SL018.sent s' = SL018.sent s ++ [[1; SL018.CMD_SELECT]]).
Proof.
  intros Hs. unfold SL018.available.
  destruct (_ =? 0); [inversion 1; subst; by left|].
  destruct (Guard.receiveData_cases_SL018 (SL018.expected_length (SL018.cmd s)) wire s Hs)
    as [-> | (n & s1 & Hr & Hs1 & _)]; [done|].
  rewrite Hr. cbn [bind]. apply Poll.receiveData_line_SL018 in Hr.
  destruct Hr as [Hsent1 Hcmd1].
  destruct (n >? 0); [|inversion 1; subst; by left].
  set (s2 := SL018.init_response s1).
  assert (SL018.sent s2 = SL018.sent s /\ SL018.cmd s2 = SL018.cmd s) as [Hsent2 Hcmd2]
    by done.
  assert (length (SL018.data s2) = SL018.SIZE_PACKET) as Hd2 by (by destruct Hs1).
  destruct (in_cases _ _); [|inversion 1; subst; by left].
  destruct (_ && _).
  - destruct (SL018.take_tag s2) as [s3|] eqn:Ht; cbn [bind]; [|done].
    apply Poll.take_tag_line_SL018 in Ht. destruct Ht as [Hsent3 Hcmd3].
    inversion 1; subst. left. split; congruence.
  - destruct (SL018.cmd s2 =? SL018.CMD_SEEK) eqn:E; [|inversion 1; subst; by left].
    apply Z.eqb_eq in E. inversion 1; subst. right.
    destruct (Poll.seekTag_line_SL018 s2 Hd2) as [H1 H2].
    split_and!; try done; congruence.
Qed.

Lemma SL018_available_sends_only_reseek_witness :
  exists s',
    SL018.available [2; 0x01; 0x01] (SL018.seekTag (SL018.init 0)) = Ok (false, s')
    /\ ((SL018.sent s' = SL018.sent (SL018.seekTag (SL018.init 0))
         /\ SL018.cmd s' = SL018.cmd (SL018.seekTag (SL018.init 0)))
        \/ (false = false
            /\ SL018.cmd (SL018.seekTag (SL018.init 0)) = SL018.CMD_SEEK
            /\ SL018.cmd s' = SL018.CMD_SEEK
            /\ SL018.sent s'
               = SL018.sent (SL018.seekTag (SL018.init 0)) ++ [[1; SL018.CMD_SELECT]])).
Proof.
  eexists. split; [vm_compute; reflexivity|].
  apply (SL018_available_sends_only_reseek [2; 0x01; 0x01]
           (SL018.seekTag (SL018.init 0)) _ false).
  - vm_compute. repeat split.
  - vm_compute. reflexivity.
Defined.

(** ** Calls and their responses *)

Module Calls.

Lemma poke_length (src buf : list Z) (off : nat) : length (poke buf off src) = length buf.
Proof.
  revert buf off. induction src as [|b src IH]; intros buf off; simpl; [done|].
  by rewrite IH, length_insert.
Qed.

Lemma issue_state_SM130 (c : SM130.command) (s : SM130.state) :
  SM130.sized s ->
  SM130.sized (SM130.issue c s) /\ SM130.cmd (SM130.issue c s) = SM130.opcode c.
Proof.
  intros (Hd & Hv & Hn & Hstr). split.
  - unfold SM130.sized.
    destruct c; cbn; rewrite ?length_insert, ?poke_length, ?length_insert; done.
  - destruct s as [d ? ? ? ? ? ? ? ? ? ? ? ? out]. cbn [SM130.data] in Hd.
    unfold SM130.SIZE_PACKET in Hd. explode d Hd.
    destruct c; try reflexivity.
    + cbn [SM130.issue SM130.opcode]. unfold SM130.writeBlock.
      pose proof (strncpy_length message 0 15) as Hm.
      destruct (strncpy message 0 15) as [|m0 m] eqn:E; [discriminate Hm|].
      simpl in Hm. apply Nat.succ_inj in Hm. explode m Hm. reflexivity.
    + cbn [SM130.issue SM130.opcode]. unfold SM130.writeFourByteBlock.
      pose proof (strncpy_length message 0 3) as Hm.
      destruct (strncpy message 0 3) as [|m0 m] eqn:E; [discriminate Hm|].
      simpl in Hm. apply Nat.succ_inj in Hm. explode m Hm. reflexivity.
Qed.

Lemma issue_state_SL018 (c : SL018.command) (s : SL018.state) :
  SL018.sized s ->
  SL018.sized (SL018.issue c s) /\ SL018.cmd (SL018.issue c s) = pending_SL018 c.
Proof.
  intros (Hd & Hn & Hstr). split.
  - unfold SL018.sized.
    destruct c; cbn; rewrite ?length_insert, ?poke_length, ?length_insert; done.
  - destruct s as [d ? ? ? ? ? ? ? ? ? ? out]. cbn [SL018.data] in Hd.
    unfold SL018.SIZE_PACKET in Hd. explode d Hd.
    destruct c; reflexivity.
Qed.

End Calls.

(** X14. Reading a block of the SM130 end to end: after [readBlock] a
    well-formed read response makes [available] return true with error
    code 0, [getBlock] gives the sixteen bytes of the response and
    [getBlockNumber] the block number the response carries, which is not
    compared with the one asked for. *)
Theorem SM130_read_round_trip (dready : bool) (asked block : Z)
  (content extra : list Z) (s : SM130.state) :
  SM130.sized s ->
  is_byte block ->
  length content = 16%nat ->
  Forall is_byte content ->
  exists s',
    SM130.available dready (read_response_SM130 block content ++ extra)
      (SM130.readBlock asked s) = Ok (true, s')
    /\ SM130.getBlock s' = content
    /\ SM130.getBlockNumber s' = block
    /\ SM130.errorCode s' = 0
    /\ SM130.getCommand s' = SM130.CMD_READ16.
Proof.
  intros Hs Hb Hlen Hbytes.
  destruct (Calls.issue_state_SM130 (SM130.ReadBlock asked) s Hs) as [Hs1 Hc1].
  cbn [SM130.issue SM130.opcode] in Hs1, Hc1.
  set (s1 := SM130.readBlock asked s) in *.
  unfold SM130.available. rewrite Hc1.
  change (SM130.CMD_READ16 =? SM130.CMD_SEEK_TAG) with false. cbn [andb].
  change (SM130.expected_length SM130.CMD_READ16) with 20.
  unfold read_response_SM130. cbv zeta.
  set (body := [18; SM130.CMD_READ16; block] ++ content).
  pose proof Hs1 as (Hd1 & _).
  destruct (Version.receive_frame_sized s1 20 18 (SM130.checksum body)
              (SM130.CMD_READ16 :: block :: content) extra) as (tail & Hrecv & Hsize);
    try done; try (unfold SM130.SIZE_PAYLOAD, SM130.SIZE_PACKET; simpl; lia).
  { cbn [app]. apply Forall_cons. split; [unfold is_byte; lia|].
    apply Forall_cons. split; [unfold is_byte, SM130.CMD_READ16; lia|].
    apply Forall_cons. split; [done|].
    apply Forall_app. split; [done|].
    apply Forall_cons. split; [apply checksum_is_byte | constructor]. }
  change (18 :: (SM130.CMD_READ16 :: block :: content) ++ [SM130.checksum body])
    with (body ++ [SM130.checksum body]) in Hrecv, Hsize.
  change (18 :: SM130.CMD_READ16 :: block :: content) with body in Hrecv.
  rewrite Hrecv, Z.eqb_refl. cbn [bind].
  change (18 >? 0) with true. cbv iota.
  eexists. split; [reflexivity|].
  split_and!; try reflexivity.
  unfold SM130.getBlock, slice.
  cbn [SM130.data SM130.init_response SM130.set_errorCode SM130.set_tagType
       SM130.set_tagLength SM130.set_tagString SM130.set_data].
  unfold body. rewrite <- !app_assoc. cbn [app drop].
  rewrite <- Hlen. apply take_app_length.
Qed.

Lemma SM130_read_round_trip_witness :
  exists s',
    SM130.available true
      (read_response_SM130 4 [1; 2; 3; 4; 5; 6; 7; 8; 9; 10; 11; 12; 13; 14; 15; 16] ++ [])
      (SM130.readBlock 4 (SM130.init 0)) = Ok (true, s')
    /\ SM130.getBlock s' = [1; 2; 3; 4; 5; 6; 7; 8; 9; 10; 11; 12; 13; 14; 15; 16]
    /\ SM130.getBlockNumber s' = 4
    /\ SM130.errorCode s' = 0
    /\ SM130.getCommand s' = SM130.CMD_READ16.
Proof.
  apply (SM130_read_round_trip true 4 4
           [1; 2; 3; 4; 5; 6; 7; 8; 9; 10; 11; 12; 13; 14; 15; 16] [] (SM130.init 0)).
  - vm_compute. repeat split.
  - unfold is_byte. lia.
  - reflexivity.
  - repeat constructor; unfold is_byte; lia.
Defined.

(** X15. Reading a block of the SL018 end to end: after [readBlock] a
    response of full length makes [available] return true, [getBlock]
    gives its sixteen data bytes and the error code is its status byte.
    [getBlockNumber] reads [data[2]], which in a response holds that same
    status byte. *)
Theorem SL018_read_round_trip (asked c status : Z) (content extra : list Z)
  (s : SL018.state) :
  SL018.sized s ->
  is_byte c -> is_byte status ->
  length content = 16%nat ->
  Forall is_byte content ->
  exists s',
    SL018.available (18 :: c :: status :: content ++ extra) (SL018.readBlock asked s)
    = Ok (true, s')
    /\ SL018.getBlock s' = content
    /\ SL018.errorCode s' = to_char status
    /\ SL018.getBlockNumber s' = status
    /\ SL018.sent s' = SL018.sent (SL018.readBlock asked s).
Proof.
  intros Hs Hc Hst Hlen Hbytes.
  destruct (Calls.issue_state_SL018 (SL018.ReadBlock asked) s Hs) as [Hs1 Hc1].
  cbn [SL018.issue pending_SL018 SL018.opcode] in Hs1, Hc1.
  set (s1 := SL018.readBlock asked s) in *.
  pose proof Hs1 as (Hd1 & _).
  unfold SL018.available. rewrite Hc1.
  change (SL018.expected_length SL018.CMD_READ16) with 19.
  change (19 =? 0) with false. cbv iota.
  rewrite (Classify.SL018_receive 19 18 (c :: status :: content ++ extra) s1 Hd1);
    [| lia | vm_compute; reflexivity].
  change (byte 18) with 18. cbn [bind].
  change (18 >? 0) with true. cbv iota.
  assert (wire_reads (Z.to_nat 18) (take (Z.to_nat 19 - 1) (c :: status :: content ++ extra))
          = c :: status :: content) as ->.
  { change (Z.to_nat 19 - 1)%nat with 18%nat. change (Z.to_nat 18) with 18%nat.
    rewrite wire_reads_enough.
    2:{ rewrite length_take. cbn [length]. rewrite length_app, Hlen. lia. }
    rewrite take_take. change (18 `min` 18)%nat with 18%nat.
    change (take 18 (c :: status :: content ++ extra))
      with (c :: status :: take 16 (content ++ extra)).
    rewrite <- Hlen at 1. rewrite take_app_length.
    apply map_byte_id. by repeat (apply Forall_cons; split). }
  set (s2 := SL018.init_response _).
  assert (SL018.getCommand s2 = SL018.CMD_READ16) as -> by exact Hc1.
  change (in_cases SL018.CMD_READ16 [SL018.CMD_SEEK; SL018.CMD_SELECT]) with false.
  cbv iota. eexists. split; [reflexivity|].
  split_and!; try reflexivity.
  unfold SL018.getBlock, slice.
  cbn [SL018.data s2 SL018.init_response SL018.set_errorCode SL018.set_tagType
       SL018.set_tagLength SL018.set_tagString SL018.set_data].
  cbn [app drop]. rewrite <- Hlen. apply take_app_length.
Qed.

Lemma SL018_read_round_trip_witness :
  exists s',
    SL018.available
      (18 :: 3 :: 0 :: [1; 2; 3; 4; 5; 6; 7; 8; 9; 10; 11; 12; 13; 14; 15; 16] ++ [])
      (SL018.readBlock 4 (SL018.init 0))
    = Ok (true, s')
    /\ SL018.getBlock s' = [1; 2; 3; 4; 5; 6; 7; 8; 9; 10; 11; 12; 13; 14; 15; 16]
    /\ SL018.errorCode s' = to_char 0
    /\ SL018.getBlockNumber s' = 0
    /\ SL018.sent s' = SL018.sent (SL018.readBlock 4 (SL018.init 0)).
Proof.
  apply (SL018_read_round_trip 4 3 0
           [1; 2; 3; 4; 5; 6; 7; 8; 9; 10; 11; 12; 13; 14; 15; 16] [] (SL018.init 0)).
  - vm_compute. repeat split.
  - unfold is_byte. lia.
  - unfold is_byte. lia.
  - reflexivity.
  - repeat constructor; unfold is_byte; lia.
Defined.

(** X16. A select that finds no tag is reported, not retried: when the
    last command is a select (not a seek) and the response has a
    non-zero status, or is too short for a tag record, [SL018::available]
    returns true with that status as error code, an empty tag string and
    tag length and type 0, and sends nothing. *)
Theorem SL018_select_failure_is_reported (l c status : Z) (rest : list Z)
  (s : SL018.state) :
  SL018.sized s ->
  SL018.cmd s = SL018.CMD_SELECT ->
  2 <= l <= 18 ->
  is_byte status ->
  status <> 0 \/ l < 7 ->
  exists s',
    SL018.available (l :: c :: status :: rest) s = Ok (true, s')
    /\ SL018.errorCode s' = to_char status
    /\ SL018.getTagString s' = EmptyString
    /\ SL018.tagLength s' = 0 /\ SL018.tagType s' = 0
    /\ SL018.sent s' = SL018.sent s.
Proof.
  intros (Hd & Hn & Hstr) Hcmd Hl Hst Hfail.
  assert (byte l = l) as Hbl by (apply byte_small; unfold is_byte; lia).
  unfold SL018.available. rewrite Hcmd.
  change (SL018.expected_length SL018.CMD_SELECT) with 11.
  change (11 =? 0) with false. cbv iota.
  rewrite Classify.SL018_receive by (rewrite ?Hbl; unfold SL018.SIZE_PACKET; lia || done).
  rewrite Hbl. cbn [bind].
  rewrite gtb_true by lia.
  destruct (Z.to_nat l) as [|[|n]] eqn:En; [lia|lia|].
  change (Z.to_nat 11 - 1)%nat with 10%nat.
  cbn [take wire_reads tl app].
  change (wire_read (c :: status :: take 8 rest)) with (byte c).
  change (wire_read (status :: take 8 rest)) with (byte status).
  rewrite (byte_small status) by done.
  set (tail := wire_reads n (take 8 rest) ++ drop (S (S (S n))) (SL018.data s)).
  unfold SL018.init_response.
  cbn [SL018.set_tagString SL018.set_tagLength SL018.set_tagType SL018.set_errorCode
       SL018.set_data SL018.gate SL018.set_clock SL018.data SL018.cmd SL018.getCommand
       SL018.errorCode SL018.tagString SL018.getPacketLength
       lookup_total list_lookup_total].
  rewrite Hcmd. change (in_cases SL018.CMD_SELECT _) with true. cbv iota.
  assert ((to_char status =? 0) && (l >=? 7) = false) as ->.
  { destruct Hfail as [Hne|Hshort].
    - assert ((to_char status =? 0) = false) as ->; [|done].
      apply Z.eqb_neq. intros H. by apply to_char_zero in H.
    - rewrite Z.geb_leb, (proj2 (Z.leb_gt 7 l)) by lia. apply andb_false_r. }
  change (SL018.CMD_SELECT =? SL018.CMD_SEEK) with false. cbv iota.
  eexists. split; [reflexivity|].
  split_and!; try reflexivity.
  unfold SL018.getTagString.
  cbn [SL018.tagString SL018.set_errorCode SL018.set_tagType SL018.set_tagLength
       SL018.set_tagString SL018.set_data SL018.gate SL018.set_clock].
  destruct (SL018.tagString s) as [|c0 str]; [discriminate Hstr | reflexivity].
Qed.

Lemma SL018_select_failure_is_reported_witness :
  exists s',
    SL018.available (2 :: 1 :: 1 :: []) (SL018.selectTag (SL018.init 0)) = Ok (true, s')
    /\ SL018.errorCode s' = to_char 1
    /\ SL018.getTagString s' = EmptyString
    /\ SL018.tagLength s' = 0 /\ SL018.tagType s' = 0
    /\ SL018.sent s' = SL018.sent (SL018.selectTag (SL018.init 0)).
Proof.
  apply (SL018_select_failure_is_reported 2 1 1 [] (SL018.selectTag (SL018.init 0))).
  - vm_compute. repeat split.
  - reflexivity.
  - lia.
  - unfold is_byte. lia.
  - left. lia.
Defined.

(** X17. The antenna power the SM130 driver reports is the level the
    module acknowledges, not the one that was asked for: a well-formed
    response to [CMD_ANTENNA_POWER] makes [available] return true, sets
    the error code to 0 and [antennaPower] to the byte of the
    response. *)
Theorem SM130_antenna_response_sets_power (dready : bool) (asked level : Z)
  (extra : list Z) (s : SM130.state) :
  SM130.sized s ->
  is_byte level ->
  exists s',
    SM130.available dready (antenna_response level ++ extra)
      (SM130.setAntennaPower asked s) = Ok (true, s')
    /\ SM130.getAntennaPower (SM130.setAntennaPower asked s) = asked
    /\ SM130.getAntennaPower s' = level
    /\ SM130.errorCode s' = 0.
Proof.
  intros Hs Hlev.
  destruct (Calls.issue_state_SM130 (SM130.SetAntennaPower asked) s Hs) as [Hs1 Hc1].
  cbn [SM130.issue SM130.opcode] in Hs1, Hc1.
  set (s1 := SM130.setAntennaPower asked s) in *.
  unfold SM130.available. rewrite Hc1.
  change (SM130.CMD_ANTENNA_POWER =? SM130.CMD_SEEK_TAG) with false. cbn [andb].
  change (SM130.expected_length SM130.CMD_ANTENNA_POWER) with 4.
  unfold antenna_response. cbv zeta.
  set (body := [2; SM130.CMD_ANTENNA_POWER; level]).
  pose proof Hs1 as (Hd1 & _).
  destruct (Version.receive_frame_sized s1 4 2 (SM130.checksum body)
              [SM130.CMD_ANTENNA_POWER; level] extra) as (tail & Hrecv & Hsize);
    try done; try (unfold SM130.SIZE_PAYLOAD, SM130.SIZE_PACKET; simpl; lia).
  { cbn [app]. apply Forall_cons. split; [unfold is_byte; lia|].
    apply Forall_cons. split; [unfold is_byte, SM130.CMD_ANTENNA_POWER; lia|].
    apply Forall_cons. split; [done|].
    apply Forall_cons. split; [apply checksum_is_byte | constructor]. }
  change (2 :: [SM130.CMD_ANTENNA_POWER; level] ++ [SM130.checksum body])
    with (body ++ [SM130.checksum body]) in Hrecv, Hsize.
  change (2 :: [SM130.CMD_ANTENNA_POWER; level]) with body in Hrecv.
  rewrite Hrecv, Z.eqb_refl. cbn [bind].
  change (2 >? 0) with true. cbv iota.
  eexists. split; [reflexivity|].
  split_and!; reflexivity.
Qed.

Lemma SM130_antenna_response_sets_power_witness :
  exists s',
    SM130.available true (antenna_response 0 ++ [])
      (SM130.setAntennaPower 1 (SM130.init 0)) = Ok (true, s')
    /\ SM130.getAntennaPower (SM130.setAntennaPower 1 (SM130.init 0)) = 1
    /\ SM130.getAntennaPower s' = 0
    /\ SM130.errorCode s' = 0.
Proof.
  apply (SM130_antenna_response_sets_power true 1 0 [] (SM130.init 0)).
  - vm_compute. repeat split.
  - unfold is_byte. lia.
Defined.

(** ** Writing strings, resetting, and the clock between calls *)

Module Strings.

Lemma of_list_app_r (pre l : list Z) (i : nat) :
  of_list (pre ++ l) (length pre + i)%nat = of_list l i.
Proof.
  unfold of_list. rewrite app_nth2 by lia. f_equal. lia.
Qed.

Lemma strncpy_from (pre text junk : list Z) (n : nat) :
  Forall nonzero text ->
  strncpy (of_list (pre ++ text ++ 0 :: junk)) (length pre) n
  = take n text ++ repeat 0 (n - length text)%nat.
Proof.
  intros Htext. revert pre n. induction Htext as [|c text Hc _ IH]; intros pre n.
  - destruct n as [|n]; [done|]. cbn [strncpy app].
    rewrite <- (Nat.add_0_r (length pre)), of_list_app_r.
    cbn. done.
  - destruct n as [|n]; [done|]. cbn [strncpy].
    assert (of_list (pre ++ (c :: text) ++ 0 :: junk) (length pre) = c) as ->.
    { pose proof (of_list_app_r pre ((c :: text) ++ 0 :: junk) 0) as H.
      by rewrite Nat.add_0_r in H. }
    rewrite (proj2 (Z.eqb_neq c 0)) by exact Hc.
    specialize (IH (pre ++ [c]) n).
    rewrite <- app_assoc, length_app in IH. cbn [length app] in IH.
    rewrite Nat.add_1_r in IH. cbn [app]. rewrite IH. reflexivity.
Qed.

Lemma strncpy_c_text (text junk : list Z) (n : nat) :
  Forall nonzero text ->
  strncpy (c_text text junk) 0 n = take n text ++ repeat 0 (n - length text)%nat.
Proof. intros H. apply (strncpy_from [] text junk n H). Qed.

Lemma bytes_at_of_list (ms : list Z) (n : nat) :
  (n <= length ms)%nat -> bytes_at (of_list ms) n = take n ms.
Proof.
  intros Hn. unfold bytes_at, of_list.
  revert Hn. induction n as [|n IH]; intros Hn; [done|].
  rewrite seq_S, map_app, IH by lia. cbn [map Nat.add].
  destruct (lookup_lt_is_Some_2 ms n ltac:(lia)) as [x Hx].
  rewrite (take_S_r _ _ x) by done. f_equal. f_equal.
  by apply nth_lookup_Some.
Qed.

End Strings.

(** X18. [SM130::writeBlock] transmits a string, not memory: of the
    message it sends at most the first fifteen characters, followed by
    zeroes up to sixteen bytes, and nothing of what lies behind the
    terminator of the string. *)
Theorem SM130_writeBlock_sends_padded_string (block : Z) (text junk : list Z)
  (s : SM130.state) :
  SM130.sized s ->
  Forall nonzero text ->
  let body := [18; SM130.CMD_WRITE16; block] ++ padded text in
  SM130.sent (SM130.writeBlock block (c_text text junk) s)
  = SM130.sent s ++ [body ++ [SM130.checksum body]]
  /\ length (padded text) = 16%nat.
Proof.
  intros (Hd & _) Htext body.
  pose proof (Frames.issue_SM130 (SM130.WriteBlock block (c_text text junk)) s Hd) as H.
  cbn [SM130.issue] in H.
  assert (frame_SM130 (SM130.WriteBlock block (c_text text junk)) = body) as Hf.
  { unfold frame_SM130, body, padded. cbn [SM130.parameters SM130.opcode].
    rewrite Strings.strncpy_c_text by done.
    rewrite !length_app, length_take, !repeat_length. cbn [length].
    replace (1 + (1 + ((15 `min` length text) + (15 - length text) + 1)))%nat
      with 18%nat by lia.
    cbn [app]. do 3 f_equal. rewrite <- app_assoc. f_equal.
    replace (16 - 15 `min` length text)%nat with (S (15 - length text))%nat by lia.
    cbn [repeat]. by rewrite repeat_cons. }
  rewrite Hf in H. split; [exact H|].
  unfold padded. rewrite length_app, length_take, repeat_length. lia.
Qed.

Lemma SM130_writeBlock_sends_padded_string_witness :
  let body := [18; SM130.CMD_WRITE16; 1] ++ padded [72; 105] in
  SM130.sent (SM130.writeBlock 1 (c_text [72; 105] [1; 2; 3]) (SM130.init 0))
  = SM130.sent (SM130.init 0) ++ [body ++ [SM130.checksum body]]
  /\ length (padded [72; 105]) = 16%nat.
Proof.
  apply (SM130_writeBlock_sends_padded_string 1 [72; 105] [1; 2; 3] (SM130.init 0)).
  - vm_compute. repeat split.
  - repeat constructor; unfold nonzero; lia.
Defined.

(** X19. [SL018::writeBlock] copies memory, not a string: it transmits
    the first fifteen bytes found at [message] as they are, zero bytes
    and what follows them included, and a zero in place of the
    sixteenth. *)
Theorem SL018_writeBlock_sends_fifteen_bytes (block : Z) (ms : list Z)
  (s : SL018.state) :
  SL018.sized s ->
  (15 <= length ms)%nat ->
  SL018.sent (SL018.writeBlock block (of_list ms) s)
  = SL018.sent s ++ [[18; SL018.CMD_WRITE16; block] ++ take 15 ms ++ [0]].
Proof.
  intros (Hd & _) Hms.
  pose proof (Frames.issue_SL018 (SL018.WriteBlock block (of_list ms)) s Hd) as H.
  cbn [SL018.issue] in H. rewrite H. do 2 f_equal.
  unfold frame_SL018. cbn [SL018.parameters SL018.opcode].
  rewrite Strings.bytes_at_of_list by done.
  rewrite !length_app, length_take. cbn [length].
  replace (1 + (1 + ((15 `min` length ms) + 1)))%nat with 18%nat by lia.
  reflexivity.
Qed.

Lemma SL018_writeBlock_sends_fifteen_bytes_witness :
  SL018.sent (SL018.writeBlock 1
                (of_list [72; 105; 0; 1; 2; 3; 4; 5; 6; 7; 8; 9; 10; 11; 12; 13])
                (SL018.init 0))
  = SL018.sent (SL018.init 0)
    ++ [[18; SL018.CMD_WRITE16; 1]
          ++ take 15 [72; 105; 0; 1; 2; 3; 4; 5; 6; 7; 8; 9; 10; 11; 12; 13] ++ [0]].
Proof.
  apply (SL018_writeBlock_sends_fifteen_bytes 1
           [72; 105; 0; 1; 2; 3; 4; 5; 6; 7; 8; 9; 10; 11; 12; 13] (SL018.init 0)).
  - vm_compute. repeat split.
  - simpl. lia.
Defined.

(** X20. [SM130::reset] puts on the bus, in this order, the reset
    command (only when no reset pin is configured), the command that
    switches the antenna on, and a halt command; it leaves the driver
    with antenna power 1 and the halt as the command whose response is
    awaited. *)
Theorem SM130_reset_sequence (s : SM130.state) :
  SM130.sized s ->
  SM130.sent (SM130.reset s)
  = SM130.sent s
    ++ (if SM130.pinRESET s =? 0xff then [reset_frame] else [])
    ++ [antenna_on_frame; halt_frame]
  /\ SM130.cmd (SM130.reset s) = SM130.CMD_HALT_TAG
  /\ SM130.getAntennaPower (SM130.reset s) = 1
  /\ SM130.expected_length (SM130.cmd (SM130.reset s)) = 4.
Proof.
  intros (Hd & _). destruct s as [d ? ? ? ? ? ? ? ? ? pin ? ? out].
  cbn [SM130.data] in Hd. unfold SM130.SIZE_PACKET in Hd. explode d Hd.
  unfold SM130.reset. cbn [SM130.pinRESET].
  destruct (pin =? 255); split_and!; try reflexivity.
  - transitivity (((out ++ [reset_frame]) ++ [antenna_on_frame]) ++ [halt_frame]);
      [reflexivity | by rewrite <- !app_assoc].
  - transitivity ((out ++ [antenna_on_frame]) ++ [halt_frame]);
      [reflexivity | by rewrite <- !app_assoc].
Qed.

Lemma SM130_reset_sequence_witness :
  SM130.sent (SM130.reset (SM130.init 0))
  = SM130.sent (SM130.init 0)
    ++ (if SM130.pinRESET (SM130.init 0) =? 0xff then [reset_frame] else [])
    ++ [antenna_on_frame; halt_frame]
  /\ SM130.cmd (SM130.reset (SM130.init 0)) = SM130.CMD_HALT_TAG
  /\ SM130.getAntennaPower (SM130.reset (SM130.init 0)) = 1
  /\ SM130.expected_length (SM130.cmd (SM130.reset (SM130.init 0))) = 4.
Proof.
  apply (SM130_reset_sequence (SM130.init 0)).
  vm_compute. repeat split.
Defined.

(** X21. [SL018::reset] by command sends the reset command, after which
    the driver does not listen: [available] returns false without using
    the bus or changing anything, whatever the module has to say.
    [SL018::reset] by pin sends nothing and leaves the driver in the mode
    it was in. *)
Theorem SL018_reset_by_command_or_pin (s : SL018.state) :
  SL018.sized s ->
  (SL018.pinRESET s = 0xff ->
   SL018.sent (SL018.reset s) = SL018.sent s ++ [[1; SL018.CMD_RESET]]
   /\ forall wire, SL018.available wire (SL018.reset s) = Ok (false, SL018.reset s))
  /\ (SL018.pinRESET s <> 0xff ->
      SL018.sent (SL018.reset s) = SL018.sent s
      /\ SL018.cmd (SL018.reset s) = SL018.cmd s).
Proof.
  intros (Hd & _). destruct s as [d ? ? ? ? ? c ? pin ? ? out].
  cbn [SL018.data] in Hd. unfold SL018.SIZE_PACKET in Hd. explode d Hd.
  cbn [SL018.pinRESET]. unfold SL018.reset. cbn [SL018.pinRESET]. split.
  - intros ->. split; [reflexivity|]. intros wire. reflexivity.
  - intros Hpin. apply Z.eqb_neq in Hpin. rewrite Hpin. split; reflexivity.
Qed.

Lemma SL018_reset_by_command_or_pin_witness :
  (SL018.pinRESET (SL018.init 0) = 0xff ->
   SL018.sent (SL018.reset (SL018.init 0)) = SL018.sent (SL018.init 0) ++ [[1; SL018.CMD_RESET]]
   /\ forall wire,
        SL018.available wire (SL018.reset (SL018.init 0))
        = Ok (false, SL018.reset (SL018.init 0)))
  /\ (SL018.pinRESET (SL018.init 0) <> 0xff ->
      SL018.sent (SL018.reset (SL018.init 0)) = SL018.sent (SL018.init 0)
      /\ SL018.cmd (SL018.reset (SL018.init 0)) = SL018.cmd (SL018.init 0)).
Proof.
  apply (SL018_reset_by_command_or_pin (SL018.init 0)).
  vm_compute. repeat split.
Defined.

Module Clock.

Lemma issue_clock_SM130 (c : SM130.command) (s : SM130.state) :
  gated_SM130 s (SM130.issue c s).
Proof. destruct c; split; reflexivity. Qed.

Lemma receiveData_clock_SM130 (len : Z) (wire : list Z) (s s' : SM130.state) (n : Z) :
  SM130.receiveData len wire s = Ok (n, s') -> gated_SM130 s s'.
Proof.
  unfold SM130.receiveData. destruct (_ >? 0); [|by inversion 1].
  destruct (store_all _ _ _ _); cbn [bind]; [|done].
  destruct (_ && _); by inversion 1.
Qed.

Lemma take_version_clock_SM130 (s s' : SM130.state) :
  SM130.take_version s = Ok s' ->
  SM130.millis s' = SM130.millis s /\ SM130.t s' = SM130.t s.
Proof.
  unfold SM130.take_version. destruct (store_all _ _ _ _); cbn [bind]; [|done].
  destruct (store _ _ _ _); cbn [bind]; by inversion 1.
Qed.

Lemma take_tag_clock_SM130 (s s' : SM130.state) :
  SM130.take_tag s = Ok s' ->
  SM130.millis s' = SM130.millis s /\ SM130.t s' = SM130.t s.
Proof.
  unfold SM130.take_tag. destruct (store_all _ _ _ _); cbn [bind]; [|done].
  destruct (arrayToHex _ _); [|done].
  destruct (store_all _ _ _ _); cbn [bind]; by inversion 1.
Qed.

(** A poll either returns at once, or passes the gate exactly once. *)
Lemma available_clock_SM130 (dready : bool) (wire : list Z) (s s' : SM130.state)
  (b : bool) :
  SM130.available dready wire s = Ok (b, s') -> s' = s \/ gated_SM130 s s'.
Proof.
  unfold SM130.available. destruct (_ && _); [inversion 1; by left|].
  destruct (SM130.receiveData _ _ _) as [[n s1]|] eqn:Hr; cbn [bind]; [|done].
  apply receiveData_clock_SM130 in Hr. intros H. right. revert H.
  destruct (_ >? 0); [|inversion 1; by subst].
  set (s2 := SM130.init_response s1).
  assert (gated_SM130 s s2) as H2 by exact Hr.
  destruct (in_cases _ _).
  { destruct (SM130.take_version s2) eqn:Hv; cbn [bind]; [|done].
    apply take_version_clock_SM130 in Hv. inversion 1; subst.
    destruct H2, Hv. split; congruence. }
  destruct (in_cases _ _).
  { destruct (_ && _); [|inversion 1; by subst].
    destruct (SM130.take_tag s2) eqn:Ht; cbn [bind]; [|done].
    apply take_tag_clock_SM130 in Ht. inversion 1; subst.
    destruct H2, Ht. split; congruence. }
  destruct (in_cases _ _); [inversion 1; by subst|].
  destruct (in_cases _ _); inversion 1; by subst.
Qed.

End Clock.

(** X22. Away from the wrap-around of [millis()], a poll of the SM130
    that comes [d] ms after a command either does not touch the bus at
    all, or reads it no sooner than 20 ms after the command was written:
    at once when [d >= 20], and otherwise after waiting for the remaining
    [20 - d] ms. *)
Theorem SM130_poll_keeps_distance (c : SM130.command) (d : Z) (dready : bool)
  (wire : list Z) (s s' : SM130.state) (b : bool) :
  0 <= d ->
  0 <= gate_leave (SM130.t s) (SM130.millis s) ->
  gate_leave (SM130.t s) (SM130.millis s) + d + 20 < 2 ^ 32 ->
  SM130.available dready wire (SM130.delay d (SM130.issue c s)) = Ok (b, s') ->
  s' = SM130.delay d (SM130.issue c s)
  \/ (SM130.millis (SM130.issue c s) + 20 <= SM130.millis s'
      /\ SM130.millis s'
         = Z.max (SM130.millis (SM130.issue c s) + 20) (SM130.millis (SM130.issue c s) + d)).
Proof.
  intros Hd H0 Hwrap Hav.
  apply Clock.available_clock_SM130 in Hav. destruct Hav as [->|[Hm _]]; [by left|].
  right. destruct (Clock.issue_clock_SM130 c s) as [Hm1 Ht1].
  cbn [SM130.delay SM130.set_clock SM130.millis SM130.t] in Hm.
  rewrite Hm, Hm1, Ht1.
  set (m := gate_leave (SM130.t s) (SM130.millis s)) in *.
  change (2 ^ 32) with 4294967296 in Hwrap.
  unfold gate_deadline. fold m. unfold ulong.
  rewrite !Z.mod_small by lia. unfold gate_leave. lia.
Qed.

Lemma SM130_poll_keeps_distance_witness :
  exists s',
    SM130.available true [2; 0x86; 0x4E; 0xD6]
      (SM130.delay 5 (SM130.issue (SM130.ReadBlock 4) (SM130.init 0))) = Ok (true, s')
    /\ (s' = SM130.delay 5 (SM130.issue (SM130.ReadBlock 4) (SM130.init 0))
        \/ (SM130.millis (SM130.issue (SM130.ReadBlock 4) (SM130.init 0)) + 20
            <= SM130.millis s'
            /\ SM130.millis s'
               = Z.max (SM130.millis (SM130.issue (SM130.ReadBlock 4) (SM130.init 0)) + 20)
                       (SM130.millis (SM130.issue (SM130.ReadBlock 4) (SM130.init 0)) + 5))).
Proof.
  eexists. split; [vm_compute; reflexivity|].
  apply (SM130_poll_keeps_distance (SM130.ReadBlock 4) 5 true [2; 0x86; 0x4E; 0xD6]
           (SM130.init 0) _ true).
  - lia.
  - vm_compute. discriminate.
  - vm_compute. reflexivity.
  - vm_compute. reflexivity.
Defined.

(** ** The demo sketches *)

Module Quoted.

Lemma plain_run (input buf : list Z) (i len : nat) :
  length buf = len ->
  (i <= len)%nat ->
  Forall plain input ->
  (len - i <= length input)%nat ->
  SM130demo.readQuoted_loop input buf i len 0 = Fault (Overrun "s" len).
Proof.
  intros Hbuf Hi Hplain. revert buf i Hbuf Hi.
  induction Hplain as [|c input (H34 & H39 & H32) _ IH]; intros buf i Hbuf Hi Hlen.
  - cbn [length] in Hlen. assert (i = len) as -> by lia.
    cbn [SM130demo.readQuoted_loop]. rewrite Nat.leb_refl.
    unfold store. rewrite decide_False by lia. reflexivity.
  - cbn [SM130demo.readQuoted_loop].
    destruct (len <=? i)%nat eqn:E.
    + apply Nat.leb_le in E. assert (i = len) as -> by lia.
      unfold store. rewrite decide_False by lia. reflexivity.
    + apply Nat.leb_gt in E. unfold store at 1.
      rewrite decide_True by lia. cbn [bind Z.eqb].
      rewrite (proj2 (Z.eqb_neq _ _) H34), (proj2 (Z.eqb_neq _ _) H39),
        (proj2 (Z.eqb_neq _ _) H32).
      cbn [orb negb]. apply IH.
      * by rewrite length_insert.
      * lia.
      * cbn [length] in Hlen. lia.
Qed.

Lemma quoted_run (body rest buf : list Z) (i len : nat) (quote : Z) :
  quote <> 0 -> is_byte quote ->
  Forall (inside quote) body ->
  (i + length body < len)%nat ->
  (i + length body < length buf)%nat ->
  SM130demo.readQuoted_loop (body ++ quote :: rest) buf i len quote
  = Ok ((i + length body)%nat,
        take i buf ++ body ++ 0 :: drop (S (i + length body)) buf, rest).
Proof.
  intros Hq Hqb Hbody. revert buf i.
  induction Hbody as [|c body [Hcb Hc] _ IH]; intros buf i Hlen Hbuf;
    cbn [length app] in *.
  - cbn [SM130demo.readQuoted_loop].
    rewrite (proj2 (Nat.leb_gt len i)) by lia.
    unfold store. rewrite decide_True by lia. cbn [bind].
    rewrite (proj2 (Z.eqb_neq quote 0)) by done.
    rewrite byte_small, Z.eqb_refl by done.
    rewrite decide_True by (rewrite length_insert; lia). cbn [bind].
    rewrite Nat.add_0_r. do 2 f_equal.
    rewrite list_insert_insert_eq.
    by rewrite insert_take_drop by lia.
  - cbn [SM130demo.readQuoted_loop].
    rewrite (proj2 (Nat.leb_gt len i)) by lia.
    unfold store at 1. rewrite decide_True by lia. cbn [bind].
    rewrite (proj2 (Z.eqb_neq quote 0)) by done.
    rewrite byte_small by done.
    rewrite (proj2 (Z.eqb_neq c quote)) by done.
    rewrite IH by (rewrite ?length_insert; lia).
    replace (S i + length body)%nat with (i + S (length body))%nat by lia.
    do 2 f_equal.
    rewrite drop_insert_lt by lia.
    rewrite (take_S_r _ i c) by (apply list_lookup_insert_eq; lia).
    rewrite take_insert_ge by lia. by rewrite <- app_assoc.
Qed.

End Quoted.

(** X23. [readQuotedString(s, len)] stores its terminator at [s[len]]
    when the input holds [len] or more characters outside quotes: with a
    buffer of [len] elements, as in the call
    [readQuotedString(msg, sizeof(msg))] of the sketch, that store is one
    element past the end of the buffer. *)
Theorem readQuotedString_terminator_overruns (input buf : list Z) (len : nat) :
  length buf = len ->
  Forall plain input ->
  (len <= length input)%nat ->
  SM130demo.readQuotedString input buf len = Fault (Overrun "s" len).
Proof.
  intros Hbuf Hplain Hlen. unfold SM130demo.readQuotedString.
  apply Quoted.plain_run; try done; lia.
Qed.

Lemma readQuotedString_terminator_overruns_witness :
  SM130demo.readQuotedString
    [97; 98; 99; 100; 101; 102; 103; 104; 105; 106; 107; 108; 109; 110; 111; 112]
    (repeat 0 16) 16
  = Fault (Overrun "s" 16).
Proof.
  apply (readQuotedString_terminator_overruns
           [97; 98; 99; 100; 101; 102; 103; 104; 105; 106; 107; 108; 109; 110; 111; 112]
           (repeat 0 16) 16).
  - reflexivity.
  - repeat constructor; vm_compute; discriminate.
  - simpl. lia.
Defined.

(** X24. For a quoted string shorter than [len], [readQuotedString]
    returns the number of characters between the quotes, leaves these
    characters, spaces included, at the start of the buffer followed by a
    terminator, and consumes the input up to and including the closing
    quote. *)
Theorem readQuotedString_reads_quoted (quote : Z) (body rest buf : list Z) (len : nat) :
  In quote [34; 39] ->
  Forall (inside quote) body ->
  (length body < len)%nat ->
  (len <= length buf)%nat ->
  SM130demo.readQuotedString (quote :: body ++ quote :: rest) buf len
  = Ok (length body, body ++ 0 :: drop (S (length body)) buf, rest).
Proof.
  intros Hq Hbody Hlen Hbuf. unfold SM130demo.readQuotedString.
  assert (quote <> 0 /\ is_byte quote) as [Hq0 Hqb].
  { unfold is_byte. destruct Hq as [<-|[<-|[]]]; lia. }
  cbn [SM130demo.readQuoted_loop].
  rewrite (proj2 (Nat.leb_gt len 0)) by lia.
  unfold store at 1. rewrite decide_True by lia. cbn [bind Z.eqb].
  rewrite byte_small by done.
  assert ((quote =? 34) || (quote =? 39) = true) as ->.
  { destruct Hq as [<-|[<-|[]]]; reflexivity. }
  rewrite Quoted.quoted_run by (rewrite ?length_insert; cbn [Nat.add]; done || lia).
  cbn [Nat.add take app]. do 2 f_equal.
  by rewrite drop_insert_lt by lia.
Qed.

Lemma readQuotedString_reads_quoted_witness :
  SM130demo.readQuotedString (34 :: [72; 105; 32; 33] ++ 34 :: [13]) (repeat 0 16) 16
  = Ok (length [72; 105; 32; 33],
        [72; 105; 32; 33] ++ 0 :: drop (S (length [72; 105; 32; 33])) (repeat 0 16),
        [13]).
Proof.
  apply (readQuotedString_reads_quoted 34 [72; 105; 32; 33] [13] (repeat 0 16) 16).
  - left. reflexivity.
  - repeat constructor; unfold is_byte; lia.
  - simpl. lia.
  - simpl. lia.
Defined.

Module Sketch.

Lemma on_bus_opcode (c c' : SM130.command) :
  on_bus c = on_bus c' -> SM130.opcode c = SM130.opcode c'.
Proof. unfold on_bus, frame_SM130. cbn [app]. by inversion 1. Qed.

Lemma on_bus_read (x b : Z) :
  on_bus (SM130.ReadBlock x) = on_bus (SM130.ReadBlock b) -> x = b.
Proof. unfold on_bus, frame_SM130. cbn. by inversion 1. Qed.

Lemma nothing_sent (out : list (list Z)) (f : list Z) : out = out ++ [f] -> False.
Proof. intros H. apply (f_equal length) in H. rewrite length_app in H. cbn in H. lia. Qed.

Lemma sent_call (c c' : SM130.command) (s : SM130.state) :
  length (SM130.data s) = SM130.SIZE_PACKET ->
  SM130.sent (SM130.issue c s) = SM130.sent s ++ [on_bus c'] ->
  on_bus c = on_bus c'.
Proof.
  intros Hd H. rewrite Frames.issue_SM130 in H by done.
  apply app_inv_head in H.
  exact (f_equal (hd []) H).
Qed.


Lemma seekTag_sized (s : SL018.state) :
  SL018.sized s ->
  SL018.sized (SL018.seekTag s) /\ SL018.cmd (SL018.seekTag s) = SL018.CMD_SEEK
  /\ SL018.sent (SL018.seekTag s) = SL018.sent s ++ [[1; SL018.CMD_SELECT]].
Proof.
  intros Hs. destruct (Poll.seekTag_line_SL018 s (proj1 Hs)) as [H1 H2].
  split_and!; try done.
  unfold SL018.seekTag, SL018.selectTag.
  pose proof (Guard.sendCommand_sized_SL018 SL018.CMD_SELECT s Hs) as (G1 & G2 & G3).
  by split_and!.
Qed.

(** A step of the seek loop of the SL018 that finds no tag. *)
Lemma reseek_step (s : SL018.state) (w : list Z) :
  SL018.sized s ->
  SL018.cmd s = SL018.CMD_SEEK ->
  no_tag_response w ->
  exists s', SL018.available w s = Ok (false, s')
             /\ SL018.sent s' = SL018.sent s ++ [[1; SL018.CMD_SELECT]]
             /\ SL018.cmd s' = SL018.CMD_SEEK
             /\ SL018.sized s'.
Proof.
  intros Hs Hcmd Hw.
  destruct w as [|l [|c [|status rest]]]; try done. destruct Hw as [Hl Hstatus].
  pose proof Hs as (Hd & Hn & Hstr).
  assert (byte l = l) as Hbl by (apply byte_small; unfold is_byte; lia).
  unfold SL018.available. rewrite Hcmd.
  change (SL018.expected_length SL018.CMD_SEEK) with 11.
  change (11 =? 0) with false. cbv iota.
  rewrite Classify.SL018_receive by (rewrite ?Hbl; unfold SL018.SIZE_PACKET; lia || done).
  rewrite Hbl. cbn [bind].
  rewrite gtb_true by lia.
  set (s1 := SL018.set_data _ _).
  set (s2 := SL018.init_response s1).
  assert (SL018.sized s2) as Hs2.
  { unfold s2, s1, SL018.sized.
    cbn [SL018.data SL018.tagNumber SL018.tagString SL018.init_response
         SL018.set_errorCode SL018.set_tagType SL018.set_tagLength SL018.set_tagString
         SL018.set_data SL018.gate SL018.set_clock].
    rewrite length_insert. split_and!; try done.
    cbn [length]. rewrite length_app, wire_reads_length, length_drop, Hd.
    unfold SL018.SIZE_PACKET. lia. }
  assert (SL018.getCommand s2 = SL018.CMD_SEEK) as Hgc by exact Hcmd.
  assert (SL018.cmd s2 = SL018.CMD_SEEK) as Hc2 by exact Hcmd.
  assert (SL018.sent s2 = SL018.sent s) as Hsent2 by reflexivity.
  assert (SL018.errorCode s2 = to_char status) as He.
  { unfold s2, s1, SL018.init_response.
    cbn [SL018.errorCode SL018.set_errorCode SL018.data SL018.set_tagType
         SL018.set_tagLength SL018.set_tagString SL018.set_data].
    destruct (Z.to_nat l) as [|[|k]] eqn:Ek; [lia|lia|].
    change (Z.to_nat 11 - 1)%nat with 10%nat.
    cbn [take wire_reads tl app lookup_total list_lookup_total].
    change (wire_read (status :: take 8 rest)) with (byte status).
    by rewrite (byte_small status) by (unfold is_byte; lia). }
  rewrite Hgc. change (in_cases SL018.CMD_SEEK _) with true. cbv iota.
  rewrite He.
  assert ((to_char status =? 0) = false) as ->.
  { apply Z.eqb_neq. intros H. apply to_char_zero in H; [lia | unfold is_byte; lia]. }
  cbn [andb]. rewrite Hc2, Z.eqb_refl.
  eexists. split; [reflexivity|].
  destruct (seekTag_sized s2 Hs2) as (G1 & G2 & G3).
  split_and!; [by rewrite G3, Hsent2 | exact G2 | exact G1].
Qed.

Lemma seek_misses (misses later : list (list Z)) (w : list Z) (s : SL018.state) :
  SL018.sized s ->
  SL018.cmd s = SL018.CMD_SEEK ->
  Forall no_tag_response misses ->
  exists s1,
    SL018demo.wait_for_tag (misses ++ w :: later) s
    = SL018demo.wait_for_tag (w :: later) s1
    /\ SL018.sized s1 /\ SL018.cmd s1 = SL018.CMD_SEEK
    /\ SL018.sent s1 = SL018.sent s ++ repeat [1; SL018.CMD_SELECT] (length misses).
Proof.
  intros Hs Hc Hm. revert s Hs Hc.
  induction Hm as [|m misses Hmiss _ IH]; intros s Hs Hc.
  - exists s. cbn [app length repeat]. by rewrite app_nil_r.
  - destruct (reseek_step s m Hs Hc Hmiss) as (s1 & Hav & Hsent & Hc1 & Hs1).
    destruct (IH s1 Hs1 Hc1) as (s2 & Hw & Hs2 & Hc2 & Hsent2).
    exists s2. cbn [app SL018demo.wait_for_tag]. rewrite Hav. cbn [bind].
    split_and!; try done.
    rewrite Hsent2, Hsent, <- app_assoc. reflexivity.
Qed.

(** A poll of the SL018 that returns true has sent nothing. *)
Lemma found_quietly (wire : list Z) (s s' : SL018.state) :
  SL018.available wire s = Ok (true, s') -> SL018.sent s' = SL018.sent s.
Proof.
  unfold SL018.available.
  destruct (_ =? 0); [by inversion 1|].
  destruct (SL018.receiveData _ _ _) as [[n s1]|] eqn:Hr; cbn [bind]; [|done].
  apply Poll.receiveData_line_SL018 in Hr. destruct Hr as [Hsent1 _].
  destruct (n >? 0); [|by inversion 1].
  set (s2 := SL018.init_response s1).
  assert (SL018.sent s2 = SL018.sent s) as Hsent2 by done.
  destruct (in_cases _ _); [|inversion 1; by subst].
  destruct (_ && _).
  - destruct (SL018.take_tag s2) as [s3|] eqn:Ht; cbn [bind]; [|done].
    apply Poll.take_tag_line_SL018 in Ht. destruct Ht as [Hsent3 _].
    inversion 1; subst. congruence.
  - destruct (SL018.cmd s2 =? SL018.CMD_SEEK); inversion 1; by subst.
Qed.

End Sketch.

Ltac demo_fields :=
  cbn [SM130demo.RFIDuino SM130demo.action SM130demo.authenticated SM130demo.block
       SM130demo.numBlocks SM130demo.tagType SM130demo.msg
       SM130demo.call SM130demo.set_RFIDuino SM130demo.set_action
       SM130demo.set_authenticated SM130demo.set_block SM130demo.set_tagType] in *.

Ltac as_calls :=
  change (SM130.readBlock ?x ?s) with (SM130.issue (SM130.ReadBlock x) s);
  change (SM130.authenticate ?x ?s) with (SM130.issue (SM130.Authenticate x) s);
  change (SM130.writeBlock ?x ?m ?s) with (SM130.issue (SM130.WriteBlock x m) s);
  change (SM130.writeFourByteBlock ?x ?m ?s)
    with (SM130.issue (SM130.WriteFourByteBlock x m) s);
  change (SM130.seekTag ?s) with (SM130.issue SM130.SeekTag s);
  change (SM130.haltTag ?s) with (SM130.issue SM130.HaltTag s).

(** What a branch of the sketch sent, from the hypothesis [H] that it
    sent a read command. *)
Ltac sent_what H Hd :=
  lazymatch type of H with
  | SM130.sent (SM130.issue ?c ?s) = _ =>
      apply (Sketch.sent_call c _ s Hd) in H
  | SM130.sent ?s = _ => exfalso; exact (Sketch.nothing_sent (SM130.sent s) _ H)
  end.

(** X25. The sketch never reads a block of a tag that needs
    authentication without having authenticated: whenever its handling
    of a response sends a read command and the tag is not a Mifare
    Ultralight, [authenticated] is true, and the block read is the
    current [block]. *)
Theorem sketch_reads_only_authenticated (a : SM130demo.app) (b : Z) :
  SM130.sized (SM130demo.RFIDuino a) ->
  SM130demo.tagType (SM130demo.respond a) <> SM130demo.MIFARE_ULTRALIGHT ->
  SM130.sent (SM130demo.RFIDuino (SM130demo.respond a))
  = SM130.sent (SM130demo.RFIDuino a) ++ [on_bus (SM130.ReadBlock b)] ->
  SM130demo.authenticated (SM130demo.respond a) = true
  /\ b = SM130demo.block (SM130demo.respond a).
Proof.
  intros (Hd & _). unfold SM130demo.respond.
  destruct a as [r act auth blk num ty m]. demo_fields.
  unfold SM130demo.on_tag, SM130demo.on_authenticate, SM130demo.on_read16,
    SM130demo.on_write.
  demo_fields. as_calls.
  repeat match goal with
         | |- context [if ?x then _ else _] => destruct x eqn:?
         end;
    demo_fields; as_calls; intros Hty Hsent; sent_what Hsent Hd.
  all: try (apply Sketch.on_bus_opcode in Hsent; discriminate Hsent).
  all: try (exfalso; apply Hty; by apply Z.eqb_eq).
  all: apply Sketch.on_bus_read in Hsent; split; [|done].
  all: try done.
  all: match goal with
       | H : _ && _ = true |- _ => apply andb_true_iff in H; by destruct H
       end.
Qed.

Lemma sketch_reads_only_authenticated_witness :
  let a := SM130demo.App (SM130.set_errorCode 76 (SM130.authenticate 0 (SM130.init 0)))
             SM130demo.READ false 0 4 2 (repeat 0 16) in
  SM130demo.authenticated (SM130demo.respond a) = true
  /\ 0 = SM130demo.block (SM130demo.respond a).
Proof.
  cbv zeta.
  apply (sketch_reads_only_authenticated
           (SM130demo.App (SM130.set_errorCode 76 (SM130.authenticate 0 (SM130.init 0)))
              SM130demo.READ false 0 4 2 (repeat 0 16)) 0).
  - vm_compute. repeat split.
  - vm_compute. discriminate.
  - vm_compute. reflexivity.
Defined.

(** X26. The sketch gives up on a failed command: when the SM130 answers
    a command with a status other than 0 and ['L'], the sketch sets
    [action] to [NONE] and sends nothing, whatever it was doing. *)
Theorem sketch_gives_up_on_error (c e : Z) (extra : list Z) (a : SM130demo.app) :
  SM130.sized (SM130demo.RFIDuino a) ->
  is_byte c ->
  ~ In c [SM130.CMD_RESET; SM130.CMD_VERSION; SM130.CMD_ANTENNA_POWER; SM130.CMD_SLEEP] ->
  0 < e < 128 ->
  e <> 76 ->
  exists a',
    SM130demo.poll true (failure_response c e ++ extra) a = Ok a'
    /\ SM130demo.action a' = SM130demo.NONE
    /\ SM130.sent (SM130demo.RFIDuino a') = SM130.sent (SM130demo.RFIDuino a)
    /\ SM130.errorCode (SM130demo.RFIDuino a') = e
    /\ SM130demo.block a' = SM130demo.block a
    /\ SM130demo.authenticated a' = SM130demo.authenticated a.
Proof.
  intros Hs Hc Hnot He He76.
  destruct a as [r act auth blk num ty m]. demo_fields.
  unfold SM130demo.poll. demo_fields.
  unfold SM130.available. rewrite andb_false_r. cbv iota.
  pose proof (Guard.expected_length_at_least (SM130.cmd r)) as Hlo.
  pose proof (Bounds.SM130_expected_length_bound (SM130.cmd r)) as Hhi.
  unfold failure_response. cbv zeta.
  set (body := [2; c; e]).
  pose proof Hs as (Hd & _).
  destruct (Version.receive_frame_sized r (SM130.expected_length (SM130.cmd r)) 2
              (SM130.checksum body) [c; e] extra) as (tail & Hrecv & Hsize);
    try done; try (unfold SM130.SIZE_PAYLOAD, SM130.SIZE_PACKET; simpl; lia).
  { cbn [app]. apply Forall_cons. split; [unfold is_byte; lia|].
    apply Forall_cons. split; [done|].
    apply Forall_cons. split; [unfold is_byte; lia|].
    apply Forall_cons. split; [apply checksum_is_byte | constructor]. }
  change (2 :: [c; e] ++ [SM130.checksum body]) with (body ++ [SM130.checksum body])
    in Hrecv, Hsize.
  change (2 :: [c; e]) with body in Hrecv.
  rewrite Hrecv, Z.eqb_refl. cbn [bind].
  change (2 >? 0) with true. cbv iota.
  set (s2 := SM130.init_response _).
  assert (SM130.getCommand s2 = c) as -> by done.
  assert (SM130.errorCode s2 = e) as Herr.
  { unfold s2, SM130.init_response. cbn [SM130.errorCode SM130.set_errorCode].
    change (SM130.getPacketLength _) with 2. change (2 <? 3) with true. cbv iota.
    change (to_char e = e). unfold to_char.
    rewrite byte_small by (unfold is_byte; lia).
    by rewrite (proj2 (Z.ltb_lt e 128)) by lia. }
  assert (SM130.sent s2 = SM130.sent r) as Hsent by done.
  assert (in_cases c [SM130.CMD_RESET; SM130.CMD_VERSION] = false) as ->.
  { apply in_cases_not_In. cbn in *. tauto. }
  assert (in_cases c [SM130.CMD_ANTENNA_POWER] = false) as Ha.
  { apply in_cases_not_In. cbn in *. tauto. }
  assert (in_cases c [SM130.CMD_SLEEP] = false) as Hsl.
  { apply in_cases_not_In. cbn in *. tauto. }
  assert (exists s3, (if in_cases c [SM130.CMD_SEEK_TAG; SM130.CMD_SELECT_TAG]
                      then if (SM130.errorCode s2 =? 0) && (SM130.getPacketLength s2 >=? 6)
                           then let! s := SM130.take_tag s2 in Ok (true, s)
                           else Ok (true, s2)
                      else if in_cases c [SM130.CMD_ANTENNA_POWER]
                           then Ok (true, SM130.set_antennaPower (SM130.data s2 !!! 2%nat)
                                            (SM130.set_errorCode 0 s2))
                           else if in_cases c [SM130.CMD_SLEEP] then Ok (false, s2)
                                else Ok (true, s2)) = Ok (true, s3)
                     /\ SM130.errorCode s3 = e /\ SM130.sent s3 = SM130.sent r)
    as (s3 & -> & He3 & Hsent3).
  { rewrite Ha, Hsl, Herr. rewrite (proj2 (Z.eqb_neq e 0)) by lia. cbn [andb].
    destruct (in_cases c [SM130.CMD_SEEK_TAG; SM130.CMD_SELECT_TAG]);
      exists s2; (split; [reflexivity|]); split; assumption. }
  cbn [bind]. demo_fields. unfold SM130demo.respond. demo_fields.
  rewrite He3, (proj2 (Z.eqb_neq e 0)), (proj2 (Z.eqb_neq e 76)) by lia.
  cbn [negb andb]. eexists. split; [reflexivity|]. demo_fields. by split_and!.
Qed.

Lemma sketch_gives_up_on_error_witness :
  exists a',
    SM130demo.poll true (failure_response 0x86 70 ++ [])
      (SM130demo.App (SM130.readBlock 0 (SM130.init 0))
         SM130demo.READ true 0 4 2 (repeat 0 16)) = Ok a'
    /\ SM130demo.action a' = SM130demo.NONE
    /\ SM130.sent (SM130demo.RFIDuino a')
       = SM130.sent (SM130demo.RFIDuino
                       (SM130demo.App (SM130.readBlock 0 (SM130.init 0))
                          SM130demo.READ true 0 4 2 (repeat 0 16)))
    /\ SM130.errorCode (SM130demo.RFIDuino a') = 70
    /\ SM130demo.block a'
       = SM130demo.block (SM130demo.App (SM130.readBlock 0 (SM130.init 0))
                            SM130demo.READ true 0 4 2 (repeat 0 16))
    /\ SM130demo.authenticated a'
       = SM130demo.authenticated (SM130demo.App (SM130.readBlock 0 (SM130.init 0))
                                    SM130demo.READ true 0 4 2 (repeat 0 16)).
Proof.
  apply (sketch_gives_up_on_error 0x86 70 []
           (SM130demo.App (SM130.readBlock 0 (SM130.init 0))
              SM130demo.READ true 0 4 2 (repeat 0 16))).
  - vm_compute. repeat split.
  - unfold is_byte. lia.
  - vm_compute. intros [H|[H|[H|[H|[]]]]]; discriminate H.
  - lia.
  - lia.
Defined.

(** X27. One pass of the loop of the SL018 sketch: it starts a seek,
    answers every response without a tag by one more select command,
    and ends at the first tag record, whose tag number it prints as
    upper-case hexadecimal; by then it has sent one select command more
    than it received responses without a tag. *)
Theorem SL018_sketch_loop_prints_tag (misses later : list (list Z)) (c type : Z)
  (id rest : list Z) (s : SL018.state) :
  SL018.sized s ->
  Forall no_tag_response misses ->
  (4 <= length id <= 7)%nat ->
  Forall is_byte (c :: type :: id) ->
  exists s',
    SL018demo.loop (misses ++ tag_record_SL018 c type id rest :: later) s
    = Ok (Some (hex_string id, s'))
    /\ SL018.sent s'
       = SL018.sent s ++ repeat [1; SL018.CMD_SELECT] (S (length misses)).
Proof.
  intros Hs Hmiss Hid Hbytes. unfold SL018demo.loop.
  pose proof Hs as (Hd & _).
  destruct (Sketch.seekTag_sized s Hs) as (Hs0 & Hc0 & Hsent0).
  destruct (Sketch.seek_misses misses later (tag_record_SL018 c type id rest)
              (SL018.seekTag s) Hs0 Hc0 Hmiss) as (s1 & -> & Hs1 & Hc1 & Hsent1).
  cbn [SL018demo.wait_for_tag]. unfold tag_record_SL018.
  destruct (TagA.available_record_SL018 s1 c type id rest Hs1) as (s' & Hav & Hrec);
    try done.
  { rewrite Hc1. by left. }
  rewrite Hav. cbn [bind]. exists s'.
  destruct Hrec as (_ & _ & _ & -> & _). split; [reflexivity|].
  rewrite (Sketch.found_quietly _ _ _ Hav), Hsent1, Hsent0, <- app_assoc.
  reflexivity.
Qed.

Lemma SL018_sketch_loop_prints_tag_witness :
  exists s',
    SL018demo.loop ([[2; 1; 1]; [2; 1; 1]]
                      ++ tag_record_SL018 1 1 [0xAA; 0xBB; 0xCC; 0xDD] [] :: [])
      (SL018.init 0)
    = Ok (Some (hex_string [0xAA; 0xBB; 0xCC; 0xDD], s'))
    /\ SL018.sent s'
       = SL018.sent (SL018.init 0)
         ++ repeat [1; SL018.CMD_SELECT] (S (length [[2; 1; 1]; [2; 1; 1]])).
Proof.
  apply (SL018_sketch_loop_prints_tag [[2; 1; 1]; [2; 1; 1]] [] 1 1
           [0xAA; 0xBB; 0xCC; 0xDD] [] (SL018.init 0)).
  - vm_compute. repeat split.
  - repeat constructor; lia.
  - simpl. lia.
  - repeat constructor; unfold is_byte; lia.
Defined.
